(** * fx-trading-web: the Pro Trader Gold dashboard

    A shallow embedding of [ProTraderGold] (the dual-trader version of the
    pro-trader-gold page) and of the pieces of [GoldPage] that the
    specification talks about.

    - [Js]          the JavaScript primitives the page relies on
                    (numbers and their rounding, [parseFloat], [toFixed],
                    [String.replace], the anchor regular expression);
    - [Conversion]  [getLiquidityGrabLevel] and [convertPipToPrice];
    - [GoldPage]    the strength badge of the signal card of GoldPage;
    - [Alerts]      the alert list of the trade-monitoring section;
    - [Dashboard]   the component state, its asynchronous handlers
                    ([fetchSetup], [fetchTradeStatus], [enterTrade],
                    [exitTrade]) as an event-driven transition system,
                    and what the page renders;
    - [Scenario]    sample payloads and operator sessions;
    - [Display]     the score, progress and candle displays of the page;
    - [GoldAnalysis] the GoldPage component as a transition system;
    - [HomeScores]  the score cards of the home page;
    - [Reachable]   invariants of the sessions of ProTraderGold.

    Numbers: [Js.num] holds a double by its exact rational value, and
    [Js.round64] rounds the exact result of every operation to the nearest
    double, ties to even, as IEEE 754 does.  The two zeros are one value:
    the page never divides by a number it was given, and it prints,
    compares and adds both zeros alike.  Where a literal has more than 20
    significant digits [parseFloat] may round either way; the model rounds
    to nearest, as the engines in use do.

    Strings: a string is the sequence of bytes of its UTF-8 encoding.

    Payloads: a field that a payload may leave out is an [option]; a field
    that is there has the type the page expects of it. *)

From Stdlib Require Import String Ascii List Bool Arith ZArith QArith Qround Lia.
From Stdlib Require Import DecimalString.
From Stdlib Require Import Lqa Qpower.
Import ListNotations.

Local Open Scope string_scope.

(* ===================================================================== *)
(** ** JavaScript primitives *)
(* ===================================================================== *)

Module Js.

(** A JavaScript number.  [Fin q] is the finite double whose value is
    exactly [q]; the two zeros are one value, [Fin 0]. *)
Inductive num : Type :=
| NaN
| PInf
| NInf
| Fin (q : Q).

Definition isNaN (x : num) : bool :=
  match x with NaN => true | _ => false end.

(** [!x] for a number: [0] and [NaN] are falsy. *)
Definition num_falsy (x : num) : bool :=
  match x with
  | NaN => true
  | Fin q => Qeq_bool q 0
  | _ => false
  end.

(** *** Rounding to the nearest double *)

Definition pow2 (e : Z) : Q := Qpower 2 e.

(** [floor (log2 a)], for [0 < a]. *)
Definition ilog2 (a : Q) : Z :=
  let k := (Z.log2 (Qnum a) - Z.log2 (Zpos (Qden a)))%Z in
  if Qle_bool (pow2 k) a then k else (k - 1)%Z.

(** The nearest integer, the even one on a tie. *)
Definition round_even (x : Q) : Z :=
  let f := Qfloor x in
  match Qcompare (x - inject_Z f) (1 # 2) with
  | Lt => f
  | Gt => (f + 1)%Z
  | Eq => if Z.even f then f else (f + 1)%Z
  end.

(** The exponent of the last place of the doubles around [a]: 52 below
    the leading bit, and no less than -1074 (the subnormal numbers). *)
Definition ulp_exponent (a : Q) : Z := Z.max (ilog2 a - 52) (-1074).

(** For [0 < a], the multiple of the unit in the last place nearest to
    [a]. *)
Definition nearest (a : Q) : Q :=
  inject_Z (round_even (a / pow2 (ulp_exponent a))) * pow2 (ulp_exponent a).

(** The Number value for [q]: round to nearest, ties to even, and to an
    infinity from 2^1024 on. *)
Definition round64 (q : Q) : num :=
  match Qcompare q 0 with
  | Eq => Fin 0
  | Gt => if Qle_bool (pow2 1024) (nearest q) then PInf else Fin (Qred (nearest q))
  | Lt => if Qle_bool (pow2 1024) (nearest (- q)) then NInf
          else Fin (Qred (- nearest (- q)))
  end.

(** *** Arithmetic and comparison *)

(** [-x]. *)
Definition neg (x : num) : num :=
  match x with
  | NaN => NaN
  | PInf => NInf
  | NInf => PInf
  | Fin a => Fin (- a)
  end.

(** [x + y]. *)
Definition add (x y : num) : num :=
  match x, y with
  | NaN, _ | _, NaN => NaN
  | PInf, NInf | NInf, PInf => NaN
  | PInf, _ | _, PInf => PInf
  | NInf, _ | _, NInf => NInf
  | Fin a, Fin b => round64 (a + b)
  end.

(** [x - y]. *)
Definition sub (x y : num) : num := add x (neg y).

(** [x * k] for a literal [k] above zero. *)
Definition mul (x : num) (k : positive) : num :=
  match x with
  | Fin a => round64 (a * inject_Z (Zpos k))
  | other => other
  end.

(** [x / k] for a literal [k] above zero. *)
Definition div (x : num) (k : positive) : num :=
  match x with
  | Fin a => round64 (a / inject_Z (Zpos k))
  | other => other
  end.

(** [x / 10]. *)
Definition div10 (x : num) : num := div x 10.

(** [x <= y]. *)
Definition le (x y : num) : bool :=
  match x, y with
  | NaN, _ | _, NaN => false
  | NInf, _ | _, PInf => true
  | _, NInf | PInf, _ => false
  | Fin a, Fin b => Qle_bool a b
  end.

(** [x === y]. *)
Definition eqb (x y : num) : bool := le x y && le y x.

(** [Math.min(x, y)] and [Math.max(x, y)]. *)
Definition min (x y : num) : num :=
  match x, y with
  | NaN, _ | _, NaN => NaN
  | _, _ => if le x y then x else y
  end.

Definition max (x y : num) : num :=
  match x, y with
  | NaN, _ | _, NaN => NaN
  | _, _ => if le x y then y else x
  end.

(** The number an arithmetic operation reads from a field: a field that
    is left out is [undefined], which converts to [NaN]. *)
Definition of_field (x : option num) : num :=
  match x with
  | Some v => v
  | None => NaN
  end.

(** *** Strings

    A string is the sequence of the bytes of its UTF-8 encoding; the
    characters the page looks for (digits, signs, the dot, the dollar, the
    underscore) are single bytes that occur in no longer encoding. *)

Definition is_digit (c : ascii) : bool :=
  let n := nat_of_ascii c in (48 <=? n)%nat && (n <=? 57)%nat.

Definition digit_val (c : ascii) : Z := Z.of_nat (nat_of_ascii c) - 48.

(** The one-byte white space and line terminators: TAB, LF, VT, FF, CR,
    SP. *)
Definition is_space (c : ascii) : bool :=
  let n := nat_of_ascii c in
  ((9 <=? n)%nat && (n <=? 13)%nat) || (n =? 32)%nat.

(** U+00A0, the no-break space. *)
Definition is_space2 (c1 c2 : ascii) : bool :=
  (nat_of_ascii c1 =? 194)%nat && (nat_of_ascii c2 =? 160)%nat.

(** The three-byte ones: U+1680, U+2000 to U+200A, U+2028, U+2029,
    U+202F, U+205F, U+3000 and U+FEFF. *)
Definition is_space3 (c1 c2 c3 : ascii) : bool :=
  let a := nat_of_ascii c1 in
  let b := nat_of_ascii c2 in
  let c := nat_of_ascii c3 in
  ((a =? 225) && (b =? 154) && (c =? 128))%nat
  || ((a =? 226) && (b =? 128)
      && (((128 <=? c) && (c <=? 138)) || (c =? 168) || (c =? 169) || (c =? 175)))%nat
  || ((a =? 226) && (b =? 129) && (c =? 159))%nat
  || ((a =? 227) && (b =? 128) && (c =? 128))%nat
  || ((a =? 239) && (b =? 187) && (c =? 191))%nat.

(** Leading white space and line terminators removed. *)
Fixpoint trimStart (s : string) : string :=
  match s with
  | String c1 r1 =>
      if is_space c1 then trimStart r1
      else
        match r1 with
        | String c2 r2 =>
            if is_space2 c1 c2 then trimStart r2
            else
              match r2 with
              | String c3 r3 => if is_space3 c1 c2 c3 then trimStart r3 else s
              | EmptyString => s
              end
        | EmptyString => s
        end
  | EmptyString => s
  end.

(** The longest run of decimal digits at the head of [s]: its value read
    after [acc], the number of digits, and the rest of the string. *)
Fixpoint digits (acc : Z) (s : string) : Z * nat * string :=
  match s with
  | String c r =>
      if is_digit c
      then let '(v, n, rest) := digits (10 * acc + digit_val c) r in (v, S n, rest)
      else (acc, O, s)
  | EmptyString => (acc, O, s)
  end.

(** ExponentPart: [e] or [E], an optional sign, at least one digit.  When
    the digits are missing the exponent does not belong to the literal. *)
Definition exponent (s : string) : Z :=
  match s with
  | String c r =>
      if (Ascii.eqb c "e" || Ascii.eqb c "E")%bool then
        let '(neg, r1) :=
          match r with
          | String "+" r' => (false, r')
          | String "-" r' => (true, r')
          | _ => (false, r)
          end in
        let '(v, n, _) := digits 0 r1 in
        match n with
        | O => 0%Z
        | S _ => if neg then (- v)%Z else v
        end
      else 0%Z
  | EmptyString => 0%Z
  end.

(** [parseFloat(s)]: skip leading white space, then read the longest
    prefix that is a StrDecimalLiteral; [NaN] when there is none.  The
    value is the double nearest to the decimal one. *)
Definition parseFloat (s : string) : num :=
  let s1 := trimStart s in
  let '(neg, s2) :=
    match s1 with
    | String "+" r => (false, r)
    | String "-" r => (true, r)
    | _ => (false, s1)
    end in
  if String.prefix "Infinity" s2 then (if neg then NInf else PInf)
  else
    let '(ip, ni, s3) := digits 0 s2 in
    let '(fp, nf, s4) :=
      match s3 with
      | String "." r => digits 0 r
      | _ => (0%Z, O, s3)
      end in
    match ni, nf with
    | O, O => NaN
    | _, _ =>
        let mant := (inject_Z (ip * 10 ^ Z.of_nat nf + fp) / inject_Z (10 ^ Z.of_nat nf))%Q in
        let v := (mant * Qpower 10 (exponent s4))%Q in
        round64 (if neg then - v else v)
    end.

(** Decimal text of a natural number. *)
Definition dec (n : Z) : string :=
  NilZero.string_of_uint (N.to_uint (Z.to_N n)).

(** [x.toFixed(2)] for [0 <= x < 1e21]: the integer [n] with [n / 100]
    nearest to [x], the larger one on a tie, printed with two decimals. *)
Definition fixed2 (q : Q) : string :=
  let n := Qfloor (q * 100 + (1 # 2))%Q in
  let frac := (n mod 100)%Z in
  dec (n / 100) ++ "." ++ (if (frac <? 10)%Z then "0" else EmptyString) ++ dec frac.

(** The [k]-digit integer [s] nearest to [x / 10^(n-k)] among those for
    which [s * 10^(n-k)] rounds to the double [x]. *)
Definition digits_for (x : Q) (n k : Z) : option Z :=
  let unit := inject_Z (10 ^ (n - k)) in
  let lo := Qfloor (x / unit) in
  let hi := (lo + 1)%Z in
  let fits s :=
    ((10 ^ (k - 1) <=? s)%Z && (s <? 10 ^ k)%Z
     && eqb (round64 (inject_Z s * unit)) (Fin x))%bool in
  match fits lo, fits hi with
  | true, true =>
      Some (if Qle_bool (x - inject_Z lo * unit) (inject_Z hi * unit - x) then lo else hi)
  | true, false => Some lo
  | false, true => Some hi
  | false, false => None
  end.

(** The shortest digit string that reads back as [x], tried from [k]
    digits on. *)
Fixpoint shortest (fuel : nat) (x : Q) (n k : Z) : Z :=
  match fuel with
  | O => Qfloor (x / inject_Z (10 ^ (n - k)))
  | S fuel' =>
      match digits_for x n k with
      | Some s => s
      | None => shortest fuel' x n (k + 1)
      end
  end.

(** [String(x)] for a double [x] from 1e21 on: the shortest digits that
    read back as [x], in exponent notation. *)
Definition exponential (x : Q) : string :=
  let n := Z.of_nat (String.length (dec (Qfloor x))) in
  if eqb (round64 (inject_Z (10 ^ n))) (Fin x) then "1e+" ++ dec n
  else
    match dec (shortest 17 x n 1) with
    | String d EmptyString => String d ("e+" ++ dec (n - 1))
    | String d rest => String d ("." ++ rest ++ "e+" ++ dec (n - 1))
    | EmptyString => EmptyString
    end.

(** [x.toFixed(2)] for [0 <= x]. *)
Definition unsigned_fixed2 (q : Q) : string :=
  if Qle_bool (inject_Z (10 ^ 21)) q then exponential q else fixed2 q.

(** [x.toFixed(2)]. *)
Definition toFixed2 (x : num) : string :=
  match x with
  | NaN => "NaN"
  | PInf => "Infinity"
  | NInf => "-Infinity"
  | Fin q => if Qle_bool 0 q then unsigned_fixed2 q else "-" ++ unsigned_fixed2 (- q)%Q
  end.

(** [s.replace(pat, by)] for a one-character string pattern: only the
    first occurrence is replaced. *)
Fixpoint replace_first (pat : ascii) (by_ : string) (s : string) : string :=
  match s with
  | String c r => if Ascii.eqb c pat then by_ ++ r else String c (replace_first pat by_ r)
  | EmptyString => EmptyString
  end.

(** [s.replace(/p/g, by)] for a one-character pattern: every occurrence
    is replaced. *)
Fixpoint replace_all (pat : ascii) (by_ : string) (s : string) : string :=
  match s with
  | String c r =>
      if Ascii.eqb c pat then by_ ++ replace_all pat by_ r
      else String c (replace_all pat by_ r)
  | EmptyString => EmptyString
  end.

(** The run of digits at the head of [s], as text, and the rest. *)
Fixpoint span_digits (s : string) : string * string :=
  match s with
  | String c r =>
      if is_digit c
      then let '(ds, rest) := span_digits r in (String c ds, rest)
      else (EmptyString, s)
  | EmptyString => (EmptyString, s)
  end.

(** [(?:\.\d+)?] at the head of [s]: the text it matches. *)
Definition opt_fraction (s : string) : string :=
  match s with
  | String "." r =>
      match span_digits r with
      | (EmptyString, _) => EmptyString
      | (fs, _) => String "." fs
      end
  | _ => EmptyString
  end.

(** [s.match(/\$(\d+(?:\.\d+)?)/)]: capture group 1 of the leftmost
    match, [None] for [null]. *)
Fixpoint match_dollar_number (s : string) : option string :=
  match s with
  | String c r =>
      if Ascii.eqb c "$" then
        match span_digits r with
        | (EmptyString, _) => match_dollar_number r
        | (ds, rest) => Some (ds ++ opt_fraction rest)
        end
      else match_dollar_number r
  | EmptyString => None
  end.

End Js.

(** A JavaScript evaluation either yields a value or throws the
  [TypeError] of a property access on [undefined]. *)
Inductive result (A : Type) : Type :=
| Ok (a : A)
| TypeError.
Arguments Ok {A} a.
Arguments TypeError {A}.

(* ===================================================================== *)
(** ** Pip / price conversion *)
(* ===================================================================== *)

Module Conversion.
Import Js.

(** One entry of [confluences]; a field the payload leaves out is
    [None] ([undefined]). *)
Record Confluence : Type := {
  type : option string;
  score : option Z;
  description : option string
}.

Definition is_liquidity_grab (c : Confluence) : bool :=
  match type c with
  | Some t => String.eqb t "LIQUIDITY_GRAB"
  | None => false
  end.

(** [getLiquidityGrabLevel()].  [confluences] is [None] when the setup
    has no array under that key; the value is [None] for [null]. *)
Definition getLiquidityGrabLevel (confluences : option (list Confluence))
  : result (option num) :=
  match confluences with
  | None => Ok None
  | Some cs =>
      match find is_liquidity_grab cs with
      | None => Ok None
      | Some liquidityGrab =>
          match description liquidityGrab with
          | None => TypeError
          | Some d =>
              match match_dollar_number d with
              | Some m => Ok (Some (parseFloat m))
              | None => Ok None
              end
          end
      end
  end.

(** [!basePrice] for [number | null]. *)
Definition no_base (basePrice : option num) : bool :=
  match basePrice with
  | None => true
  | Some b => num_falsy b
  end.

(** [convertPipToPrice(pipString)], in a render whose setup has the
    given [confluences]. *)
Definition convertPipToPrice (confluences : option (list Confluence))
    (pipString : string) : result string :=
  if String.eqb pipString EmptyString then Ok pipString
  else
    let pipValue := parseFloat (replace_first "$" EmptyString pipString) in
    if isNaN pipValue then Ok pipString
    else
      match getLiquidityGrabLevel confluences with
      | TypeError => TypeError
      | Ok basePrice =>
          match basePrice with
          | Some b =>
              if num_falsy b then Ok pipString
              else Ok ("$" ++ toFixed2 (add b (div10 pipValue)))
          | None => Ok pipString
          end
      end.

End Conversion.

(* ===================================================================== *)
(** ** The signal card of GoldPage *)
(* ===================================================================== *)

Module GoldPage.

(** The fields of [XAUUSDSignal] that the header of the signal card
    reads. *)
Record XAUUSDSignal : Type := {
  signal : string;
  signal_strength : option string
}.

Definition getSignalColor (signal : string) : string :=
  if String.eqb signal "BUY" then "bg-green-500"
  else if String.eqb signal "SELL" then "bg-red-500"
  else "bg-orange-500".

(** The strength badge: [signal.signal_strength.replace('_', ' ')]. *)
Definition strength_badge (s : XAUUSDSignal) : result string :=
  match signal_strength s with
  | Some t => Ok (Js.replace_first "_" " " t)
  | None => TypeError
  end.

End GoldPage.

(* ===================================================================== *)
(** ** Trade-management alerts *)
(* ===================================================================== *)

Module Alerts.

Record Alert : Type := {
  title : string;
  message : string;
  priority : string;
  action : option string
}.

(** One rendered alert box. *)
Record AlertBox : Type := {
  box_class : string;
  box_title : string;
  box_message : string;
  box_action : option string
}.

Definition alert_class (a : Alert) : string :=
  if String.eqb (priority a) "HIGH" then "bg-red-900 border-red-500"
  else if String.eqb (priority a) "MEDIUM" then "bg-yellow-900 border-yellow-500"
  else "bg-blue-900 border-blue-500".

(** [{alert.action && ...}]: an empty string is falsy. *)
Definition shown_action (a : Alert) : option string :=
  match action a with
  | Some t => if String.eqb t EmptyString then None else Some t
  | None => None
  end.

Definition alert_box (a : Alert) : AlertBox :=
  {| box_class := alert_class a;
     box_title := title a;
     box_message := message a;
     box_action := shown_action a |}.

(** [tradeStatus.alerts && tradeStatus.alerts.length > 0 &&
    tradeStatus.alerts.map(...)]: the boxes of the alert block, top to
    bottom; the block is left out for a missing or empty list. *)
Definition alert_boxes (alerts : option (list Alert)) : list AlertBox :=
  match alerts with
  | Some (a :: l) => map alert_box (a :: l)
  | _ => []
  end.

(** Rank of a priority: HIGH first, then MEDIUM, then the rest. *)
Definition rank (a : Alert) : nat :=
  if String.eqb (priority a) "HIGH" then 0
  else if String.eqb (priority a) "MEDIUM" then 1
  else 2.

Fixpoint sorted_by_rank (l : list Alert) : bool :=
  match l with
  | a :: (b :: _) as tl => (rank a <=? rank b)%nat && sorted_by_rank tl
  | _ => true
  end.

Definition has_rank (r : nat) (a : Alert) : bool := (rank a =? r)%nat.

(** The order the specification asks for, written from its words: the
    HIGH alerts, then the MEDIUM ones, then the others, each group in
    arrival order. *)
Definition spec_prioritize (l : list Alert) : list Alert :=
  filter (has_rank 0) l ++ filter (has_rank 1) l ++ filter (has_rank 2) l.

End Alerts.


(* ===================================================================== *)
(** ** The ProTraderGold component *)
(* ===================================================================== *)

Module Dashboard.
Import Js Conversion.

(** *** Payloads *)

(** [step.entry_timing.early_entry]. *)
Record EarlyEntry : Type := {
  available : bool;
  early_stop_loss : option string
}.

(** [step.entry_timing.confirmation_entry]. *)
Record ConfirmationEntry : Type := {
  confirmation_type : option string
}.

Record EntryTiming : Type := {
  early_entry : option EarlyEntry;
  confirmation_entry : option ConfirmationEntry
}.

Record Step : Type := {
  status : string;
  entry_timing : option EntryTiming
}.

(** [trade_plan.stop_loss], [trade_plan.take_profit_1], ... *)
Record PlanLevel : Type := {
  price : option string
}.

Record TradePlan : Type := {
  plan_status : option string;
  plan_entry_price : option string;
  plan_stop_loss : option PlanLevel;
  plan_take_profit_1 : option PlanLevel;
  plan_take_profit_2 : option PlanLevel
}.

(** [setupData.structure]. *)
Record Structure : Type := {
  structure_type : option string;
  structure_description : option string
}.

(** One trader's setup ([data.bullish] or [data.bearish]). *)
Record Setup : Type := {
  setup_status : option string;
  current_price : option num;
  total_score : option num;
  confluences : option (list Confluence);
  structure : option Structure;
  setup_steps : option (list Step);
  trade_plan : option TradePlan
}.

(** The body of [GET .../analysis]. *)
Record Analysis : Type := {
  bullish_of : option Setup;
  bearish_of : option Setup
}.

Record TradeStatus : Type := {
  in_trade : bool;
  position_size : Z;
  stop_loss : option num;
  take_profit_1 : option num;
  take_profit_2 : option num;
  alerts : option (list Alerts.Alert)
}.

(** [entryFormData], the draft behind the confirmation dialog. *)
Record EntryForm : Type := {
  form_entry_price : option num;
  form_position_size : Z;
  form_stop_loss : option num;
  form_take_profit_1 : option num;
  form_take_profit_2 : option num
}.

(** The JSON body of [POST .../enter-trade]. *)
Record EnterBody : Type := {
  enter_entry_price : option num;
  enter_position_size : Z;
  enter_stop_loss : option num;
  enter_take_profit_1 : option num;
  enter_take_profit_2 : option num;
  trade_direction : string
}.

(** The JSON body of [POST .../exit-trade]. *)
Record ExitBody : Type := {
  exit_price : num;
  exit_position_size : Z;
  reason : string
}.

(** The body of a mutation response.  [pnl] and [pnl_pct] are kept as the
    text they print as. *)
Record MutationResult : Type := {
  success : bool;
  result_error : option string;
  result_message : option string;
  pnl : option string;
  pnl_pct : option string
}.

(** *** Component state *)

Inductive Trader : Type := bullish | bearish.

Record State : Type := {
  setupData : option Setup;
  bullishData : option Setup;
  bearishData : option Setup;
  selectedTrader : Trader;
  tradeStatus : option TradeStatus;
  loading : bool;
  error : string;
  showEnterTradeModal : bool;
  entryFormData : option EntryForm
}.

(** The [useState] initial values. *)
Definition initial : State :=
  {| setupData := None; bullishData := None; bearishData := None;
     selectedTrader := bullish; tradeStatus := None;
     loading := true; error := EmptyString;
     showEnterTradeModal := false; entryFormData := None |}.

Definition setSetupData v s :=
  {| setupData := v; bullishData := bullishData s; bearishData := bearishData s;
     selectedTrader := selectedTrader s; tradeStatus := tradeStatus s;
     loading := loading s; error := error s;
     showEnterTradeModal := showEnterTradeModal s; entryFormData := entryFormData s |}.
Definition setBullishData v s :=
  {| setupData := setupData s; bullishData := v; bearishData := bearishData s;
     selectedTrader := selectedTrader s; tradeStatus := tradeStatus s;
     loading := loading s; error := error s;
     showEnterTradeModal := showEnterTradeModal s; entryFormData := entryFormData s |}.
Definition setBearishData v s :=
  {| setupData := setupData s; bullishData := bullishData s; bearishData := v;
     selectedTrader := selectedTrader s; tradeStatus := tradeStatus s;
     loading := loading s; error := error s;
     showEnterTradeModal := showEnterTradeModal s; entryFormData := entryFormData s |}.
Definition setSelectedTrader v s :=
  {| setupData := setupData s; bullishData := bullishData s; bearishData := bearishData s;
     selectedTrader := v; tradeStatus := tradeStatus s;
     loading := loading s; error := error s;
     showEnterTradeModal := showEnterTradeModal s; entryFormData := entryFormData s |}.
Definition setTradeStatus v s :=
  {| setupData := setupData s; bullishData := bullishData s; bearishData := bearishData s;
     selectedTrader := selectedTrader s; tradeStatus := v;
     loading := loading s; error := error s;
     showEnterTradeModal := showEnterTradeModal s; entryFormData := entryFormData s |}.
Definition setLoading v s :=
  {| setupData := setupData s; bullishData := bullishData s; bearishData := bearishData s;
     selectedTrader := selectedTrader s; tradeStatus := tradeStatus s;
     loading := v; error := error s;
     showEnterTradeModal := showEnterTradeModal s; entryFormData := entryFormData s |}.
Definition setError v s :=
  {| setupData := setupData s; bullishData := bullishData s; bearishData := bearishData s;
     selectedTrader := selectedTrader s; tradeStatus := tradeStatus s;
     loading := loading s; error := v;
     showEnterTradeModal := showEnterTradeModal s; entryFormData := entryFormData s |}.
Definition setShowEnterTradeModal v s :=
  {| setupData := setupData s; bullishData := bullishData s; bearishData := bearishData s;
     selectedTrader := selectedTrader s; tradeStatus := tradeStatus s;
     loading := loading s; error := error s;
     showEnterTradeModal := v; entryFormData := entryFormData s |}.
Definition setEntryFormData v s :=
  {| setupData := setupData s; bullishData := bullishData s; bearishData := bearishData s;
     selectedTrader := selectedTrader s; tradeStatus := tradeStatus s;
     loading := loading s; error := error s;
     showEnterTradeModal := showEnterTradeModal s; entryFormData := v |}.

(** The second effect, run after [selectedTrader], [bullishData] or
    [bearishData] changed. *)
Definition selection_effect (s : State) : State :=
  match bullishData s, bearishData s with
  | Some b, Some r =>
      setSetupData (Some (match selectedTrader s with bullish => b | bearish => r end)) s
  | _, _ => s
  end.

(** [tradeStatus?.in_trade || false]. *)
Definition inTrade (s : State) : bool :=
  match tradeStatus s with
  | Some ts => in_trade ts
  | None => false
  end.

(** *** The world around the component *)

(** What a rejected promise carries. *)
Inductive Exn : Type :=
| ErrorObj (name msg : string)
| NonError (text : string).

(** [String(err)]: for an [Error] its name and message, joined by a colon
    when neither is empty. *)
Definition exn_text (e : Exn) : string :=
  match e with
  | ErrorObj name msg =>
      if String.eqb name EmptyString then msg
      else if String.eqb msg EmptyString then name
      else name ++ ": " ++ msg
  | NonError text => text
  end.

(** What comes back for a request: a JSON body of one of the three
    shapes, a response whose [ok] is false (looked at by the two polls
    only; the mutations read the body whatever the status), or a promise
    that rejects ([fetch] or [json()] failing). *)
Inductive Response : Type :=
| AnalysisJson (d : Analysis)
| StatusJson (d : option TradeStatus)
| MutationJson (r : MutationResult)
| HttpError (status : nat)
| Thrown (e : Exn).

Inductive Request : Type :=
| GetAnalysis
| GetTradeStatus
| PostEnterTrade (b : EnterBody)
| PostExitTrade (b : ExitBody).

(** A suspended call, waiting for its response.  [InFetchTradeStatus
    true] is the call made by [exitTrade], which goes on with
    [fetchSetup]. *)
Inductive Pending : Type :=
| InFetchSetup
| InFetchTradeStatus (then_fetchSetup : bool)
| InEnterTrade
| InExitTrade.

(** The component with its surroundings: the interval timer, the calls
    in flight (numbered in dispatch order), the requests sent and the
    [alert] boxes shown so far. *)
Record World : Type := {
  ui : State;
  timer : bool;
  next_id : nat;
  pending : list (nat * Pending);
  sent : list Request;
  alerted : list string
}.

Definition with_ui (f : State -> State) (w : World) : World :=
  {| ui := f (ui w); timer := timer w; next_id := next_id w;
     pending := pending w; sent := sent w; alerted := alerted w |}.

Definition alert (text : string) (w : World) : World :=
  {| ui := ui w; timer := timer w; next_id := next_id w;
     pending := pending w; sent := sent w; alerted := alerted w ++ [text] |}.

Definition dispatch (p : Pending) (rq : Request) (w : World) : World :=
  {| ui := ui w; timer := timer w; next_id := S (next_id w);
     pending := pending w ++ [(next_id w, p)];
     sent := sent w ++ [rq]; alerted := alerted w |}.

Definition set_timer (b : bool) (w : World) : World :=
  {| ui := ui w; timer := b; next_id := next_id w;
     pending := pending w; sent := sent w; alerted := alerted w |}.

Fixpoint lookup (id : nat) (l : list (nat * Pending)) : option Pending :=
  match l with
  | (i, p) :: r => if (i =? id)%nat then Some p else lookup id r
  | [] => None
  end.

Fixpoint remove (id : nat) (l : list (nat * Pending)) : list (nat * Pending) :=
  match l with
  | (i, p) :: r => if (i =? id)%nat then r else (i, p) :: remove id r
  | [] => []
  end.

Definition settle (id : nat) (w : World) : World :=
  {| ui := ui w; timer := timer w; next_id := next_id w;
     pending := remove id (pending w); sent := sent w; alerted := alerted w |}.

(** *** The asynchronous functions, up to their first [await] *)

Definition fetchSetup (w : World) : World := dispatch InFetchSetup GetAnalysis w.

Definition fetchTradeStatus (then_fetchSetup : bool) (w : World) : World :=
  dispatch (InFetchTradeStatus then_fetchSetup) GetTradeStatus w.

Definition enterTrade (entryData : EnterBody) (w : World) : World :=
  dispatch InEnterTrade (PostEnterTrade entryData) w.

(** [exitTrade(exitPrice, positionSize, reason)]; [confirmed] is the
    operator's answer to the [confirm] box.  [exitPrice.toFixed(2)] is
    evaluated for the question, which throws when the setup has no
    [current_price]. *)
Definition exitTrade (exitPrice : option num) (positionSize : Z) (reason : string)
    (confirmed : bool) (w : World) : World :=
  match exitPrice with
  | None => w
  | Some p =>
      if confirmed
      then dispatch InExitTrade
             (PostExitTrade {| exit_price := p; exit_position_size := positionSize;
                               reason := reason |}) w
      else w
  end.

Definition openEnterTradeModal (entryData : EntryForm) (s : State) : State :=
  setShowEnterTradeModal true (setEntryFormData (Some entryData) s).

(** *** The continuations, run when the response arrives *)

Definition http_error_message (status : nat) : string :=
  "HTTP " ++ dec (Z.of_nat status).

(** [err instanceof Error ? err.message : 'Network error']. *)
Definition setup_error_message (e : Exn) : string :=
  match e with
  | ErrorObj _ msg => msg
  | NonError _ => "Network error"
  end.

Definition fetchSetup_ok (d : Analysis) (s : State) : State :=
  setLoading false
    (selection_effect
       (setError EmptyString (setBearishData (bearish_of d) (setBullishData (bullish_of d) s)))).

Definition fetchSetup_failed (msg : string) (s : State) : State :=
  setLoading false (setError msg s).


Definition or_undefined (o : option string) : string :=
  match o with Some t => t | None => "undefined" end.

Definition newline : string := String (ascii_of_nat 10) EmptyString.

Definition exit_alert (r : MutationResult) : string :=
  or_undefined (result_message r) ++ newline ++ "P&L: $" ++ or_undefined (pnl r)
    ++ " (" ++ or_undefined (pnl_pct r) ++ "%)".

Definition after_status (then_fetchSetup : bool) (w : World) : World :=
  if then_fetchSetup then fetchSetup w else w.

(** The response [r] arrives for the call numbered [id]. *)
Definition complete (id : nat) (r : Response) (w : World) : World :=
  match lookup id (pending w) with
  | None => w
  | Some InFetchSetup =>
      match r with
      | AnalysisJson d => with_ui (fetchSetup_ok d) (settle id w)
      | HttpError st => with_ui (fetchSetup_failed (http_error_message st)) (settle id w)
      | Thrown e => with_ui (fetchSetup_failed (setup_error_message e)) (settle id w)
      | _ => w
      end
  | Some (InFetchTradeStatus k) =>
      match r with
      | StatusJson d => after_status k (with_ui (setTradeStatus d) (settle id w))
      | HttpError _ | Thrown _ => after_status k (settle id w)
      | _ => w
      end
  | Some InEnterTrade =>
      match r with
      | MutationJson res =>
          if success res
          then fetchTradeStatus false (with_ui (setShowEnterTradeModal false) (settle id w))
          else alert ("Failed to enter trade: " ++ or_undefined (result_error res)) (settle id w)
      | Thrown e => alert ("Error entering trade: " ++ exn_text e) (settle id w)
      | _ => w
      end
  | Some InExitTrade =>
      match r with
      | MutationJson res =>
          if success res
          then fetchTradeStatus true (alert (exit_alert res) (settle id w))
          else settle id w
      | Thrown e => alert ("Error exiting trade: " ++ exn_text e) (settle id w)
      | _ => w
      end
  end.

(** *** What the component renders

    The view is the one React shows once the effects of an update have
    run.  Of the page body the model keeps the dual-trader selector, the
    trade-monitoring section (alerts and action buttons), the confluence
    card and the early-entry buttons of the setup plan, the price lines of
    the trade plan and the confirmation dialog; with them it keeps every
    property access of the page that throws when the payload leaves a
    field out. *)

Inductive Button : Type :=
| BtnRetry
| BtnBullish
| BtnBearish
| BtnAddMore
| BtnPartialExit
| BtnClose
| BtnEarlyEntry (idx : nat)
| BtnCancel
| BtnConfirmEntry.

Definition Button_eqb (a b : Button) : bool :=
  match a, b with
  | BtnRetry, BtnRetry | BtnBullish, BtnBullish | BtnBearish, BtnBearish
  | BtnAddMore, BtnAddMore | BtnPartialExit, BtnPartialExit | BtnClose, BtnClose
  | BtnCancel, BtnCancel | BtnConfirmEntry, BtnConfirmEntry => true
  | BtnEarlyEntry i, BtnEarlyEntry j => (i =? j)%nat
  | _, _ => false
  end.

Record Monitoring : Type := {
  monitored : TradeStatus;
  alert_list : list Alerts.AlertBox;
  actions : list Button
}.

(** The confluence card of the setup plan: the titles of the patterns
    and the market-structure line. *)
Record ScoreCard : Type := {
  patterns : list string;
  structure_text : option string
}.

Record Page : Type := {
  shown_setup : Setup;
  selector : bool;
  monitoring : option Monitoring;
  score_card : option ScoreCard;
  setup_plan : option (list Button);
  plan_prices : list (option string);
  modal : option EntryForm
}.

Inductive View : Type :=
| LoadingScreen
| FailedScreen (msg : string)
| MainPage (p : Page).

Definition bind {A B : Type} (x : result A) (f : A -> result B) : result B :=
  match x with
  | Ok a => f a
  | TypeError => TypeError
  end.

Notation "x <- e ;; k" := (bind e (fun x => k))
  (at level 61, e at next level, right associativity).

(** The action buttons of the monitoring section. *)
Definition monitoring_actions (ts : TradeStatus) : list Button :=
  ((if (position_size ts =? 50)%Z then [BtnAddMore] else [])
   ++ (if (position_size ts =? 100)%Z then [BtnPartialExit] else [])
   ++ [BtnClose])%list.

Definition render_monitoring (ts : TradeStatus) : Monitoring :=
  {| monitored := ts;
     alert_list := Alerts.alert_boxes (alerts ts);
     actions := monitoring_actions ts |}.

(** The title of one entry of the confluence list:
    [confluence.type.replace(/_/g, ' ')]. *)
Definition confluence_title (c : Confluence) : result string :=
  match type c with
  | Some t => Ok (replace_all "_" " " t)
  | None => TypeError
  end.

Fixpoint confluence_titles (cs : list Confluence) : result (list string) :=
  match cs with
  | [] => Ok []
  | c :: r =>
      t <- confluence_title c ;;
      ts <- confluence_titles r ;;
      Ok (t :: ts)
  end.

(** The market-structure line, shown for a structure that is not
    NEUTRAL: [structure.description ||
    structure.structure_type.replace(/_/g, ' ')], after
    [structure.structure_type.includes('BOS')] was evaluated for the
    icon. *)
Definition structure_line (d : Setup) : result (option string) :=
  match structure d with
  | None => Ok None
  | Some st =>
      match structure_type st with
      | None => TypeError
      | Some t =>
          if String.eqb t "NEUTRAL" then Ok None
          else Ok (Some (match structure_description st with
                         | Some (String c r) => String c r
                         | _ => replace_all "_" " " t
                         end))
      end
  end.

(** The confluence card, behind [setupData.total_score !== undefined]. *)
Definition render_score_card (d : Setup) : result (option ScoreCard) :=
  match total_score d with
  | None => Ok None
  | Some _ =>
      ps <- match confluences d with
            | Some cs => confluence_titles cs
            | None => Ok []
            end ;;
      st <- structure_line d ;;
      Ok (Some {| patterns := ps; structure_text := st |})
  end.

(** The early-entry button of step number [i] of the list.  The block of
    a step in progress that has an [entry_timing] reads
    [entry_timing.early_entry.available] and
    [entry_timing.confirmation_entry.type]. *)
Definition step_buttons (i : nat) (st : Step) : result (list Button) :=
  if String.eqb (status st) "in_progress" then
    match entry_timing st with
    | None => Ok []
    | Some et =>
        match early_entry et, confirmation_entry et with
        | Some ee, Some _ => Ok (if available ee then [BtnEarlyEntry i] else [])
        | _, _ => TypeError
        end
    end
  else Ok [].

Fixpoint steps_buttons (i : nat) (l : list Step) : result (list Button) :=
  match l with
  | [] => Ok []
  | st :: r =>
      b <- step_buttons i st ;;
      bs <- steps_buttons (S i) r ;;
      Ok (b ++ bs)%list
  end.

Definition render_setup_plan (d : Setup) : result (list Button) :=
  match setup_steps d with
  | None => Ok []
  | Some l => steps_buttons 0 l
  end.

(** [convertPipToPrice(x)] where [x] may be [undefined]. *)
Definition convert (d : Setup) (x : option string) : result (option string) :=
  match x with
  | None => Ok None
  | Some pipString => t <- convertPipToPrice (confluences d) pipString ;; Ok (Some t)
  end.

Definition level_line (d : Setup) (l : option PlanLevel) : result (list (option string)) :=
  match l with
  | None => Ok []
  | Some lv => t <- convert d (price lv) ;; Ok [t]
  end.

Definition plan_ready (tp : TradePlan) : bool :=
  match plan_status tp with
  | Some t => negb (String.eqb t "Not ready yet")
  | None => true
  end.

(** The price lines of the trade-plan section, top to bottom. *)
Definition render_trade_plan (d : Setup) : result (list (option string)) :=
  match trade_plan d with
  | None => Ok []
  | Some tp =>
      if plan_ready tp then
        e <- convert d (plan_entry_price tp) ;;
        sl <- level_line d (plan_stop_loss tp) ;;
        t1 <- level_line d (plan_take_profit_1 tp) ;;
        t2 <- level_line d (plan_take_profit_2 tp) ;;
        Ok (e :: sl ++ t1 ++ t2)%list
      else Ok []
  end.

Definition both_present (s : State) : bool :=
  match bullishData s, bearishData s with
  | Some _, Some _ => true
  | _, _ => false
  end.

Definition render (s : State) : result View :=
  if loading s then Ok LoadingScreen
  else if negb (String.eqb (error s) EmptyString) then Ok (FailedScreen (error s))
  else
    match setupData s with
    | None => Ok (FailedScreen (error s))
    | Some d =>
        card <- (if inTrade s then Ok None else render_score_card d) ;;
        plan <- (if inTrade s then Ok None
                 else bs <- render_setup_plan d ;; Ok (Some bs)) ;;
        prices <- render_trade_plan d ;;
        Ok (MainPage
              {| shown_setup := d;
                 selector := negb (inTrade s) && both_present s;
                 monitoring :=
                   (if inTrade s
                    then match tradeStatus s with
                         | Some ts => Some (render_monitoring ts)
                         | None => None
                         end
                    else None);
                 score_card := card;
                 setup_plan := plan;
                 plan_prices := prices;
                 modal := (if showEnterTradeModal s then entryFormData s else None) |})
    end.

(** The buttons a view offers. *)
Definition buttons (v : View) : list Button :=
  match v with
  | LoadingScreen => []
  | FailedScreen _ => [BtnRetry]
  | MainPage p =>
      ((if selector p then [BtnBullish; BtnBearish] else [])
       ++ match monitoring p with Some m => actions m | None => [] end
       ++ match setup_plan p with Some bs => bs | None => [] end
       ++ match modal p with Some _ => [BtnCancel; BtnConfirmEntry] | None => [] end)%list
  end.

Definition offered (b : Button) (s : State) : bool :=
  match render s with
  | Ok v => existsb (Button_eqb b) (buttons v)
  | TypeError => false
  end.

(** *** Click handlers *)

(** [x ? parseFloat(x.replace('$', '')) : current_price + k]. *)
Definition target_or_default (l : option PlanLevel) (current : option num) (k : Q) : num :=
  match match l with Some lv => price lv | None => None end with
  | Some (String c r) => parseFloat (replace_first "$" EmptyString (String c r))
  | _ => match current with
         | Some c => add c (Fin k)
         | None => NaN
         end
  end.

(** The argument the early-entry button of step [st] passes to
    [openEnterTradeModal]. *)
Definition early_entry_form (d : Setup) (st : Step) : result EntryForm :=
  match entry_timing st with
  | None => TypeError
  | Some et =>
      match early_entry et with
      | None => TypeError
      | Some ee =>
          match early_stop_loss ee with
          | None => TypeError
          | Some sl =>
              let tp1 := match trade_plan d with Some tp => plan_take_profit_1 tp | None => None end in
              let tp2 := match trade_plan d with Some tp => plan_take_profit_2 tp | None => None end in
              Ok {| form_entry_price := current_price d;
                    form_position_size := 50;
                    form_stop_loss := Some (parseFloat (replace_first "$" EmptyString sl));
                    form_take_profit_1 := Some (target_or_default tp1 (current_price d) 10);
                    form_take_profit_2 := Some (target_or_default tp2 (current_price d) 20) |}
          end
      end
  end.

Definition add_more_form (d : Setup) (ts : TradeStatus) : EntryForm :=
  {| form_entry_price := current_price d;
     form_position_size := 50;
     form_stop_loss := stop_loss ts;
     form_take_profit_1 := take_profit_1 ts;
     form_take_profit_2 := take_profit_2 ts |}.

(** The argument of [enterTrade] built by the Confirm Entry button. *)
Definition confirm_body (f : EntryForm) : EnterBody :=
  {| enter_entry_price := form_entry_price f;
     enter_position_size := form_position_size f;
     enter_stop_loss := form_stop_loss f;
     enter_take_profit_1 := form_take_profit_1 f;
     enter_take_profit_2 := form_take_profit_2 f;
     trade_direction := "LONG" |}.

Definition select (t : Trader) (s : State) : State :=
  selection_effect
    (setSetupData (match t with bullish => bullishData s | bearish => bearishData s end)
       (setSelectedTrader t s)).

(** The [onClick] of button [b], for a click on the page showing setup
    [d]; [confirmed] answers the [confirm] box, should one open. *)
Definition on_click (b : Button) (confirmed : bool) (d : option Setup) (w : World) : World :=
  match b, d with
  | BtnRetry, _ => fetchSetup w
  | BtnBullish, _ => with_ui (select bullish) w
  | BtnBearish, _ => with_ui (select bearish) w
  | BtnAddMore, Some d =>
      match tradeStatus (ui w) with
      | Some ts => with_ui (openEnterTradeModal (add_more_form d ts)) w
      | None => w
      end
  | BtnPartialExit, Some d =>
      exitTrade (current_price d) 50 "Partial profit taking" confirmed w
  | BtnClose, Some d =>
      match tradeStatus (ui w) with
      | Some ts => exitTrade (current_price d) (position_size ts) "Manual exit" confirmed w
      | None => w
      end
  | BtnEarlyEntry i, Some d =>
      match nth_error (match setup_steps d with Some l => l | None => [] end) i with
      | Some st =>
          match early_entry_form d st with
          | Ok f => with_ui (openEnterTradeModal f) w
          | TypeError => w
          end
      | None => w
      end
  | BtnCancel, _ => with_ui (setShowEnterTradeModal false) w
  | BtnConfirmEntry, _ =>
      match entryFormData (ui w) with
      | Some f => enterTrade (confirm_body f) w
      | None => w
      end
  | _, None => w
  end.

(** The inputs of the confirmation dialog. *)
Inductive Field : Type :=
| EntryPrice (v : num)
| PositionSize (v : Z)
| StopLoss (v : num)
| TakeProfit1 (v : num).

Definition edit (fd : Field) (f : EntryForm) : EntryForm :=
  match fd with
  | EntryPrice v =>
      {| form_entry_price := Some v; form_position_size := form_position_size f;
         form_stop_loss := form_stop_loss f; form_take_profit_1 := form_take_profit_1 f;
         form_take_profit_2 := form_take_profit_2 f |}
  | PositionSize v =>
      {| form_entry_price := form_entry_price f; form_position_size := v;
         form_stop_loss := form_stop_loss f; form_take_profit_1 := form_take_profit_1 f;
         form_take_profit_2 := form_take_profit_2 f |}
  | StopLoss v =>
      {| form_entry_price := form_entry_price f; form_position_size := form_position_size f;
         form_stop_loss := Some v; form_take_profit_1 := form_take_profit_1 f;
         form_take_profit_2 := form_take_profit_2 f |}
  | TakeProfit1 v =>
      {| form_entry_price := form_entry_price f; form_position_size := form_position_size f;
         form_stop_loss := form_stop_loss f; form_take_profit_1 := Some v;
         form_take_profit_2 := form_take_profit_2 f |}
  end.

(** *** Events *)

Inductive Event : Type :=
| Tick
| Unmount
| Complete (id : nat) (r : Response)
| Click (b : Button) (confirmed : bool)
| Edit (fd : Field).

(** The component right after mounting: the first effect has called
    [fetchSetup] and [fetchTradeStatus] and started the interval. *)
Definition mounted : World :=
  fetchTradeStatus false
    (fetchSetup
       {| ui := initial; timer := true; next_id := 0;
          pending := []; sent := []; alerted := [] |}).

(** One event.  A click counts only on a button the current view offers,
    an edit only while the dialog is open, a tick only while the interval
    runs, a response only for a call in flight.

    A render that throws takes the component off the page: React unmounts
    it and runs the cleanup of the first effect.  That is the [Unmount]
    event, which follows such a render in every session of the page; a
    trace that goes on without it describes no session. *)
Definition step (e : Event) (w : World) : World :=
  match e with
  | Tick => if timer w then fetchTradeStatus false (fetchSetup w) else w
  | Unmount => set_timer false w
  | Complete id r => complete id r w
  | Click b confirmed =>
      if offered b (ui w) then on_click b confirmed (setupData (ui w)) w else w
  | Edit fd =>
      if offered BtnConfirmEntry (ui w)
      then match entryFormData (ui w) with
           | Some f => with_ui (setEntryFormData (Some (edit fd f))) w
           | None => w
           end
      else w
  end.

Fixpoint run (trace : list Event) (w : World) : World :=
  match trace with
  | [] => w
  | e :: rest => run rest (step e w)
  end.

(** *** Bookkeeping over a trace *)

(** What the polls own: the two setups and the trade status. *)
Definition store (w : World) : option Setup * option Setup * option TradeStatus :=
  (bullishData (ui w), bearishData (ui w), tradeStatus (ui w)).

(** The analysis that event [e] makes [fetchSetup] apply in world [w],
    with the number of the call it answers. *)
Definition setup_arrival (e : Event) (w : World) : option (nat * Analysis) :=
  match e with
  | Complete id (AnalysisJson d) =>
      match lookup id (pending w) with
      | Some InFetchSetup => Some (id, d)
      | _ => None
      end
  | _ => None
  end.

(** Likewise for [fetchTradeStatus]. *)
Definition status_arrival (e : Event) (w : World) : option (nat * option TradeStatus) :=
  match e with
  | Complete id (StatusJson d) =>
      match lookup id (pending w) with
      | Some (InFetchTradeStatus _) => Some (id, d)
      | _ => None
      end
  | _ => None
  end.

(** The results applied along a trace, in the order of their arrival. *)
Fixpoint arrivals {A : Type} (arrival : Event -> World -> option A)
    (trace : list Event) (w : World) : list A :=
  match trace with
  | [] => []
  | e :: rest =>
      match arrival e w with
      | Some a => a :: arrivals arrival rest (step e w)
      | None => arrivals arrival rest (step e w)
      end
  end.

(** The result that arrived last. *)
Fixpoint latest {A : Type} (l : list A) : option A :=
  match l with
  | [] => None
  | a :: r => match latest r with Some b => Some b | None => Some a end
  end.

(** The result of the call dispatched last among those that arrived. *)
Fixpoint freshest {A : Type} (l : list (nat * A)) : option (nat * A) :=
  match l with
  | [] => None
  | (i, a) :: r =>
      match freshest r with
      | Some (j, b) => if (i <? j)%nat then Some (j, b) else Some (i, a)
      | None => Some (i, a)
      end
  end.

(** Every enter-trade request of a log is a LONG one. *)
Definition is_long (rq : Request) : Prop :=
  match rq with
  | PostEnterTrade b => trade_direction b = "LONG"
  | _ => True
  end.

End Dashboard.

(* ===================================================================== *)
(** ** Sample payloads and sessions *)
(* ===================================================================== *)

Module Scenario.
Import Js Conversion Dashboard.

(** A confluence list whose liquidity grab names the level $4000.00. *)
Definition grab_at_4000 : option (list Confluence) :=
  Some [ {| type := Some "FVG"; score := Some 2%Z;
            description := Some "Fair value gap above" |};
         {| type := Some "LIQUIDITY_GRAB"; score := Some 3%Z;
            description := Some "Liquidity Grab at H4 support $4000.00!" |} ].

(** A confluence list with no liquidity grab. *)
Definition no_grab : option (list Confluence) :=
  Some [ {| type := Some "ORDER_BLOCK"; score := Some 2%Z;
            description := Some "Order block at $3990.00" |} ].




(** A liquidity grab that came without its description. *)
Definition undescribed_grab : Confluence :=
  {| type := Some "LIQUIDITY_GRAB"; score := Some 3%Z; description := None |}.

Definition grab_without_description : option (list Confluence) :=
  Some [undescribed_grab].

Definition alert_A : Alerts.Alert :=
  {| Alerts.title := "A"; Alerts.message := "Session closing";
     Alerts.priority := "LOW"; Alerts.action := None |}.
Definition alert_B : Alerts.Alert :=
  {| Alerts.title := "B"; Alerts.message := "Price near stop";
     Alerts.priority := "HIGH"; Alerts.action := Some "Tighten stop" |}.
Definition alert_C : Alerts.Alert :=
  {| Alerts.title := "C"; Alerts.message := "Halfway to TP1";
     Alerts.priority := "MEDIUM"; Alerts.action := None |}.
Definition alert_D : Alerts.Alert :=
  {| Alerts.title := "D"; Alerts.message := "Structure broken";
     Alerts.priority := "HIGH"; Alerts.action := Some "Exit" |}.

(** The alert list of the specification's example. *)
Definition mixed_alerts : list Alerts.Alert := [alert_A; alert_B; alert_C; alert_D].

Definition early : EarlyEntry :=
  {| available := true; early_stop_loss := Some "$3995.00" |}.

Definition plan : TradePlan :=
  {| plan_status := Some "Ready";
     plan_entry_price := Some "$2.00";
     plan_stop_loss := Some {| price := Some "$-5.00" |};
     plan_take_profit_1 := Some {| price := Some "$4010.00" |};
     plan_take_profit_2 := None |}.

Definition a_setup (st : string) (px : Q) : Setup :=
  {| setup_status := Some st;
     current_price := Some (Fin px);
     total_score := Some (Fin 8);
     confluences := grab_at_4000;
     structure :=
       Some {| structure_type := Some "BULLISH_BOS"; structure_description := None |};
     setup_steps :=
       Some [ {| status := "complete"; entry_timing := None |};
              {| status := "in_progress";
                 entry_timing :=
                   Some {| early_entry := Some early;
                           confirmation_entry :=
                             Some {| confirmation_type := Some "Confirmation Entry" |} |} |} ];
     trade_plan := Some plan |}.

Definition buy_setup : Setup := a_setup "RETEST_WAITING" 4001.
Definition sell_setup : Setup := a_setup "SCANNING" 4001.

(** Two analyses, the second taken a minute after the first. *)
Definition older : Analysis :=
  {| bullish_of := Some buy_setup; bearish_of := Some sell_setup |}.
Definition newer : Analysis :=
  {| bullish_of := Some (a_setup "READY" 4003);
     bearish_of := Some (a_setup "SCANNING" 4003) |}.

Definition flat : TradeStatus :=
  {| in_trade := false; position_size := 0; stop_loss := None;
     take_profit_1 := None; take_profit_2 := None; alerts := None |}.

Definition holding (size : Z) : TradeStatus :=
  {| in_trade := true; position_size := size; stop_loss := Some (Fin 3995);
     take_profit_1 := Some (Fin 4010); take_profit_2 := Some (Fin 4020);
     alerts := Some mixed_alerts |}.

Definition rejected : MutationResult :=
  {| success := false; result_error := Some "No open position";
     result_message := None; pnl := None; pnl_pct := None |}.

(** A setup whose trade plan is ready but whose liquidity grab has no
    description. *)
Definition setup_without_description : Setup :=
  {| setup_status := Some "READY";
     current_price := Some (Fin 4001);
     total_score := Some (Fin 3);
     confluences := grab_without_description;
     structure := None;
     setup_steps := None;
     trade_plan := Some plan |}.

(** A setup whose early entry is available but carries no stop loss. *)
Definition step_without_stop_loss : Step :=
  {| status := "in_progress";
     entry_timing :=
       Some {| early_entry := Some {| available := true; early_stop_loss := None |};
               confirmation_entry := Some {| confirmation_type := None |} |} |}.

(** Two polls overlap and the later one is answered first. *)
Definition overtaking : list Event :=
  [ Tick;
    Complete 2 (AnalysisJson newer);
    Complete 3 (StatusJson (Some (holding 50)));
    Complete 0 (AnalysisJson older);
    Complete 1 (StatusJson (Some flat)) ].

(** Three good polls, and the tick that starts the fourth. *)
Definition three_good_polls : list Event :=
  [ Complete 0 (AnalysisJson older); Complete 1 (StatusJson (Some flat));
    Tick;
    Complete 2 (AnalysisJson older); Complete 3 (StatusJson (Some flat));
    Tick;
    Complete 4 (AnalysisJson newer); Complete 5 (StatusJson (Some flat));
    Tick ].

(** Three good polls, then the analysis endpoint answers HTTP 500. *)
Definition three_good_polls_then_500 : list Event :=
  (three_good_polls
   ++ [ Complete 6 (HttpError 500); Complete 7 (StatusJson (Some flat)) ])%list.

(** The operator holds half a position and a poll fails. *)
Definition in_trade_then_500 : list Event :=
  [ Complete 0 (AnalysisJson older); Complete 1 (StatusJson (Some (holding 50)));
    Tick;
    Complete 2 (HttpError 500); Complete 3 (StatusJson (Some (holding 50))) ].

(** Both polls of the mount are answered; the operator holds half a
    position. *)
Definition holding_half : list Event :=
  [ Complete 0 (AnalysisJson older); Complete 1 (StatusJson (Some (holding 50))) ].

(** The same with a full position. *)
Definition holding_full : list Event :=
  [ Complete 0 (AnalysisJson older); Complete 1 (StatusJson (Some (holding 100))) ].

(** The operator, holding half a position, closes it and confirms. *)
Definition close_submitted : list Event :=
  [ Complete 0 (AnalysisJson older); Complete 1 (StatusJson (Some (holding 50)));
    Click BtnClose true ].

(** The backend refuses the exit. *)
Definition close_rejected : list Event :=
  (close_submitted ++ [ Complete 2 (MutationJson rejected) ])%list.

(** The operator confirms an entry and the backend refuses. *)
Definition entry_rejected : list Event :=
  [ Complete 0 (AnalysisJson older); Complete 1 (StatusJson (Some flat));
    Click (BtnEarlyEntry 1) false;
    Click BtnConfirmEntry false;
    Complete 2 (MutationJson rejected) ].

(** The operator picks the bearish trader and confirms its early entry. *)
Definition bearish_entry : list Event :=
  [ Complete 0 (AnalysisJson older); Complete 1 (StatusJson (Some flat));
    Click BtnBearish false;
    Click (BtnEarlyEntry 1) false;
    Click BtnConfirmEntry false ].

(** The operator opens the add-more dialog at half a position; a poll
    then reports a full position; the operator confirms the dialog. *)
Definition stale_dialog : list Event :=
  [ Complete 0 (AnalysisJson older); Complete 1 (StatusJson (Some (holding 50)));
    Click BtnAddMore false;
    Tick;
    Complete 2 (AnalysisJson older); Complete 3 (StatusJson (Some (holding 100)));
    Click BtnConfirmEntry false ].

(** An analysis whose setups lack the description of their liquidity
    grab. *)
Definition analysis_without_description : Analysis :=
  {| bullish_of := Some setup_without_description;
     bearish_of := Some setup_without_description |}.

(** A step in progress whose entry timing came without its confirmation
    entry, and an analysis of setups with that step. *)
Definition step_without_confirmation : Step :=
  {| status := "in_progress";
     entry_timing := Some {| early_entry := Some early; confirmation_entry := None |} |}.

Definition setup_without_confirmation : Setup :=
  {| setup_status := Some "RETEST_WAITING";
     current_price := Some (Fin 4001);
     total_score := Some (Fin 8);
     confluences := grab_at_4000;
     structure := None;
     setup_steps := Some [step_without_confirmation];
     trade_plan := None |}.

Definition analysis_without_confirmation : Analysis :=
  {| bullish_of := Some setup_without_confirmation;
     bearish_of := Some setup_without_confirmation |}.

(** The world a session leads to, from the freshly mounted component. *)
Definition after (trace : list Event) : World := run trace mounted.

End Scenario.

(* ===================================================================== *)
(** ** Score, progress and exit displays of ProTraderGold *)
(* ===================================================================== *)

Module Display.
Import Js Dashboard.

Local Open Scope Q_scope.

(** [a >= b] and [a < b] on the finite numbers a JSON body can hold. *)
Definition ge (a b : Q) : bool := Qle_bool b a.
Definition lt (a b : Q) : bool := negb (Qle_bool b a).

(** One star badge of the confluence header: the number of stars it shows
    (none for the warning sign) and its colour class. *)
Record StarBadge : Type := {
  stars : nat;
  star_class : string
}.

(** The four badges of the score header, each behind its own condition. *)
Definition star_badges (total_score : Q) : list StarBadge :=
  ((if ge total_score 10
    then [ {| stars := 3; star_class := "text-yellow-400" |} ] else [])
   ++ (if ge total_score 7 && lt total_score 10
       then [ {| stars := 2; star_class := "text-blue-400" |} ] else [])
   ++ (if ge total_score 5 && lt total_score 7
       then [ {| stars := 1; star_class := "text-green-400" |} ] else [])
   ++ (if lt total_score 5
       then [ {| stars := 0; star_class := "text-gray-500" |} ] else []))%list.

(** The colour of the "points" text. *)
Definition points_class (total_score : Q) : string :=
  if ge total_score 10 then "text-yellow-400"
  else if ge total_score 7 then "text-blue-400"
  else if ge total_score 5 then "text-green-400"
  else "text-gray-400".

(** The colour of the entry-threshold bar. *)
Definition bar_class (total_score : Q) : string :=
  if ge total_score 10 then "bg-gradient-to-r from-yellow-500 to-yellow-400"
  else if ge total_score 7 then "bg-gradient-to-r from-blue-500 to-blue-400"
  else if ge total_score 5 then "bg-gradient-to-r from-green-500 to-green-400"
  else "bg-gray-600".

(** Width in percent of the entry-threshold bar:
    [Math.min((total_score / 12) * 100, 100)].  The bar is shown for a
    [total_score] that is there. *)
Definition bar_width (total_score : num) : num :=
  Js.min (mul (div total_score 12) 100) (Fin 100).


(** Width in percent of the candle bar:
    [((60 - live_candle.time_remaining) / 60) * 100]. *)
Definition candle_width (time_remaining : option num) : num :=
  mul (div (sub (Fin 60) (of_field time_remaining)) 60) 100.

(** The quantity named on the close button:
    [position_size === 100 ? 'ALL' : '50%']. *)
Definition close_label (ts : TradeStatus) : string :=
  if (position_size ts =? 100)%Z then "ALL" else "50%".

(** The low-confluence note: [confluences && confluences.length === 0 &&
    total_score < 5]. *)
Definition low_confluence_note (confluences : option (list Conversion.Confluence))
    (total_score : Q) : bool :=
  match confluences with
  | Some [] => lt total_score 5
  | _ => false
  end.

End Display.

(* ===================================================================== *)
(** ** The GoldPage component *)
(* ===================================================================== *)

Module GoldAnalysis.
Import Js.

(** *** Payload *)

Record KeyLevel : Type := {
  level : Q;
  distance_pips : Q;
  bounce_rate : Q
}.

(** [XAUUSDSignal]; the fields the card would throw on when missing are
    options. *)
Record Signal : Type := {
  signal : string;
  signal_strength : option string;
  entry_price : option Q;
  stop_loss : option Q;
  take_profit : option Q;
  key_levels : option (list KeyLevel);
  trade_reasons : option (list string)
}.

Record SkipInfo : Type := {
  skip_reason : option string;
  context : option string
}.

Record PsychLevel : Type := {
  psych_level : Q;
  psych_distance_pips : Q;
  direction : string;
  is_major : bool
}.

(** [analysisData.data]. *)
Record Payload : Type := {
  signal_of : option Signal;
  skip_info : option SkipInfo;
  levels : option (list PsychLevel);
  last_update : option string
}.

Record AnalysisData : Type := {
  status : string;
  data : option Payload
}.

(** *** Component state *)

Record State : Type := {
  analysisData : option AnalysisData;
  loading : bool;
  error : string;
  lastUpdate : string
}.

Definition initial : State :=
  {| analysisData := None; loading := true; error := EmptyString;
     lastUpdate := EmptyString |}.

Definition setAnalysisData v s :=
  {| analysisData := v; loading := loading s; error := error s;
     lastUpdate := lastUpdate s |}.
Definition setLoading v s :=
  {| analysisData := analysisData s; loading := v; error := error s;
     lastUpdate := lastUpdate s |}.
Definition setError v s :=
  {| analysisData := analysisData s; loading := loading s; error := v;
     lastUpdate := lastUpdate s |}.
Definition setLastUpdate v s :=
  {| analysisData := analysisData s; loading := loading s; error := error s;
     lastUpdate := v |}.

(** *** The world around the component *)

(** The call [fetch(url, { method, headers })] makes. *)
Record Request : Type := {
  url_path : string;
  method : string;
  json_header : bool
}.

(** What comes back: a JSON object, a response whose [ok] is false, or a
    rejected promise. *)
Inductive Response : Type :=
| Json (d : AnalysisData)
| HttpError (status : nat) (statusText : string)
| Thrown (e : Dashboard.Exn).

(** A call of [fetchAnalysis(force_refresh)] waiting for its response; the
    forced one was made by [manualScan]. *)
Record World : Type := {
  ui : State;
  timer : bool;
  next_id : nat;
  pending : list (nat * bool);
  sent : list Request
}.

Definition with_ui (f : State -> State) (w : World) : World :=
  {| ui := f (ui w); timer := timer w; next_id := next_id w;
     pending := pending w; sent := sent w |}.

Definition set_timer (b : bool) (w : World) : World :=
  {| ui := ui w; timer := b; next_id := next_id w;
     pending := pending w; sent := sent w |}.

Fixpoint lookup (id : nat) (l : list (nat * bool)) : option bool :=
  match l with
  | (i, p) :: r => if (i =? id)%nat then Some p else lookup id r
  | [] => None
  end.

Fixpoint remove (id : nat) (l : list (nat * bool)) : list (nat * bool) :=
  match l with
  | (i, p) :: r => if (i =? id)%nat then r else (i, p) :: remove id r
  | [] => []
  end.

Definition settle (id : nat) (w : World) : World :=
  {| ui := ui w; timer := timer w; next_id := next_id w;
     pending := remove id (pending w); sent := sent w |}.

(** [fetchAnalysis(force_refresh)] up to its [await fetch]. *)
Definition request_of (force_refresh : bool) : Request :=
  {| url_path := (if force_refresh then "/api/xauusd/scan" else "/api/xauusd/analysis");
     method := (if force_refresh then "POST" else "GET");
     json_header := force_refresh |}.

Definition fetchAnalysis (force_refresh : bool) (w : World) : World :=
  {| ui := ui w; timer := timer w; next_id := S (next_id w);
     pending := (pending w ++ [(next_id w, force_refresh)])%list;
     sent := (sent w ++ [request_of force_refresh])%list |}.

(** [manualScan()] up to its [await]. *)
Definition manualScan (w : World) : World :=
  fetchAnalysis true (with_ui (setLoading true) w).

(** [HTTP ${response.status}: ${response.statusText}]. *)
Definition http_error_message (status : nat) (statusText : string) : string :=
  "HTTP " ++ dec (Z.of_nat status) ++ ": " ++ statusText.

(** [err instanceof Error ? err.message : 'Unknown error']. *)
Definition error_message (e : Dashboard.Exn) : string :=
  match e with
  | Dashboard.ErrorObj _ msg => msg
  | Dashboard.NonError _ => "Unknown error"
  end.

(** [data.data?.last_update], when truthy. *)
Definition stamp_of (d : AnalysisData) : option string :=
  match data d with
  | Some p =>
      match last_update p with
      | Some (String c r) => Some (String c r)
      | _ => None
      end
  | None => None
  end.

(** The [try] block after the response was parsed.  [toLocale] stands for
    [new Date(x).toLocaleString()]. *)
Definition fetch_ok (toLocale : string -> string) (d : AnalysisData) (s : State) : State :=
  let s1 := setError EmptyString (setAnalysisData (Some d) s) in
  setLoading false
    (match stamp_of d with
     | Some t => setLastUpdate (toLocale t) s1
     | None => s1
     end).

Definition fetch_failed (msg : string) (s : State) : State :=
  setLoading false (setError ("Network Error: " ++ msg) s).

(** The response [r] arrives for the call numbered [id].  The call made by
    [manualScan] goes on with [setLoading(false)], which the [finally] of
    [fetchAnalysis] has done already. *)
Definition complete (toLocale : string -> string) (id : nat) (r : Response) (w : World)
  : World :=
  match lookup id (pending w) with
  | None => w
  | Some forced =>
      let after := if forced then with_ui (setLoading false) else (fun w => w) in
      match r with
      | Json d => after (with_ui (fetch_ok toLocale d) (settle id w))
      | HttpError st txt =>
          after (with_ui (fetch_failed (http_error_message st txt)) (settle id w))
      | Thrown e => after (with_ui (fetch_failed (error_message e)) (settle id w))
      end
  end.

(** *** What the page shows *)

Definition getSignalColor (signal : string) : string :=
  if String.eqb signal "BUY" then "bg-green-500"
  else if String.eqb signal "SELL" then "bg-red-500"
  else "bg-orange-500".

Definition getSignalTextColor (signal : string) : string :=
  if String.eqb signal "BUY" then "text-green-500"
  else if String.eqb signal "SELL" then "text-red-500"
  else "text-orange-500".

(** The colour of a key level: [bounce_rate > 80], [> 60], else. *)
Definition bounce_class (l : KeyLevel) : string :=
  if negb (Qle_bool (bounce_rate l) 80) then "text-green-500"
  else if negb (Qle_bool (bounce_rate l) 60) then "text-orange-500"
  else "text-gray-500".

(** [x.slice(0, n)]. *)
Definition slice0 {A : Type} (n : nat) (l : list A) : list A := firstn n l.

Record SignalCard : Type := {
  border_class : string;
  pill_class : string;
  pill_text : string;
  strength : string;
  entry_text : string;
  stop_text : string;
  target_text : string;
  level_rows : list (KeyLevel * string);
  reasons : list string
}.

Inductive Card : Type :=
| ShowSignal (c : SignalCard)
| NoSignal (reason : string) (note : option string).

Inductive Button : Type := BtnForceScan | BtnRefresh.

Record Page : Type := {
  updated : option string;
  card : Card;
  psych_rows : list PsychLevel;
  banner : option string
}.

Inductive View : Type :=
| LoadingScreen
| FailedScreen (msg : string)
| MainPage (p : Page).

(** [x && ...] on a string: the empty string is falsy. *)
Definition nonempty (t : string) : option string :=
  match t with
  | EmptyString => None
  | _ => Some t
  end.

Definition price_text (x : option Q) : result string :=
  match x with
  | Some q => Ok ("$" ++ toFixed2 (Fin q))
  | None => TypeError
  end.

Definition render_signal (sg : Signal) : result SignalCard :=
  match GoldPage.strength_badge
          {| GoldPage.signal := signal sg;
             GoldPage.signal_strength := signal_strength sg |} with
  | TypeError => TypeError
  | Ok badge =>
      match price_text (entry_price sg), price_text (stop_loss sg),
            price_text (take_profit sg) with
      | Ok e, Ok sl, Ok tp =>
          Ok {| border_class := getSignalTextColor (signal sg);
                pill_class := getSignalColor (signal sg);
                pill_text := signal sg;
                strength := badge;
                entry_text := e;
                stop_text := sl;
                target_text := tp;
                level_rows :=
                  match key_levels sg with
                  | Some (k :: ks) =>
                      map (fun l => (l, bounce_class l)) (slice0 3 (k :: ks))
                  | _ => []
                  end;
                reasons :=
                  match trade_reasons sg with
                  | Some rs => slice0 3 rs
                  | None => []
                  end |}
      | _, _, _ => TypeError
      end
  end.

(** [skipInfo?.skip_reason || 'Waiting for optimal setup...'] and
    [skipInfo?.context && ...]. *)
Definition render_skip (sk : option SkipInfo) : Card :=
  NoSignal
    (match sk with
     | Some i =>
         match skip_reason i with
         | Some (String c r) => String c r
         | _ => "Waiting for optimal setup..."
         end
     | None => "Waiting for optimal setup..."
     end)
    (match sk with
     | Some i => match context i with Some t => nonempty t | None => None end
     | None => None
     end).

Definition render (s : State) : result View :=
  if loading s then Ok LoadingScreen
  else
    match analysisData s with
    | None => Ok (FailedScreen (error s))
    | Some a =>
        match data a with
        | None => TypeError
        | Some p =>
            match
              (match signal_of p with
               | Some sg =>
                   if String.eqb (status a) "signal"
                   then match render_signal sg with
                        | Ok c => Ok (ShowSignal c)
                        | TypeError => TypeError
                        end
                   else Ok (render_skip (skip_info p))
               | None => Ok (render_skip (skip_info p))
               end)
            with
            | TypeError => TypeError
            | Ok c =>
                Ok (MainPage
                      {| updated := nonempty (lastUpdate s);
                         card := c;
                         psych_rows :=
                           match levels p with
                           | Some l => slice0 6 l
                           | None => []
                           end;
                         banner := nonempty (error s) |})
            end
        end
    end.

(** Both buttons sit on the main page only. *)
Definition buttons (v : View) : list Button :=
  match v with
  | MainPage _ => [BtnForceScan; BtnRefresh]
  | _ => []
  end.

Definition offered (s : State) : bool :=
  match render s with
  | Ok (MainPage _) => true
  | _ => false
  end.

(** *** Events *)

Inductive Event : Type :=
| Tick
| Unmount
| Complete (id : nat) (r : Response)
| Click (b : Button).

Definition mounted : World :=
  fetchAnalysis false
    {| ui := initial; timer := true; next_id := 0; pending := []; sent := [] |}.

Definition step (toLocale : string -> string) (e : Event) (w : World) : World :=
  match e with
  | Tick => if timer w then fetchAnalysis false w else w
  | Unmount => set_timer false w
  | Complete id r => complete toLocale id r w
  | Click b =>
      if offered (ui w)
      then match b with
           | BtnForceScan => manualScan w
           | BtnRefresh => fetchAnalysis false w
           end
      else w
  end.

Fixpoint run (toLocale : string -> string) (trace : list Event) (w : World) : World :=
  match trace with
  | [] => w
  | e :: rest => run toLocale rest (step toLocale e w)
  end.

End GoldAnalysis.

(* ===================================================================== *)
(** ** The score cards of the dashboard home page *)
(* ===================================================================== *)

Module HomeScores.

Local Open Scope Q_scope.

(** What [/bullish] or [/bearish] answers, as far as [fetchPairData] reads
    it. *)
Record TraderInfo : Type := {
  total_score : option Q;
  current_price : option Q;
  tradable : bool
}.

(** One of the two fetches of a pair: it failed (the fetch rejected or the
    body did not parse), or gave a body, [None] for JSON [null]. *)
Inductive Fetched : Type :=
| Failed
| Body (b : option TraderInfo).

Record PairScore : Type := {
  pair : string;
  buyScore : Q;
  sellScore : Q;
  price : Q;
  buyStatus : string;
  sellStatus : string;
  loading : bool;
  error : option string
}.

Definition getStatus (score : Q) (tradable : bool) : string :=
  if Qle_bool 5 score && tradable then "READY"
  else if Qle_bool 5 score then "SETUP"
  else "NO SIGNAL".


(** [x?.total_score || 0]. *)
Definition score_of (b : option TraderInfo) : Q :=
  match b with
  | Some i => match total_score i with Some q => q | None => 0 end
  | None => 0
  end.

(** [x?.current_price], when truthy. *)
Definition price_of (b : option TraderInfo) : option Q :=
  match b with
  | Some i =>
      match current_price i with
      | Some q => if Qeq_bool q 0 then None else Some q
      | None => None
      end
  | None => None
  end.

Definition tradable_of (b : option TraderInfo) : bool :=
  match b with
  | Some i => tradable i
  | None => false
  end.

(** The value [fetchPairData(pair, endpoint)] resolves to, given how its
    two fetches went. *)
Definition fetchPairData (pair : string) (bullishRes bearishRes : Fetched) : PairScore :=
  match bullishRes, bearishRes with
  | Body bullish, Body bearish =>
      {| pair := pair;
         buyScore := score_of bullish;
         sellScore := score_of bearish;
         price := match price_of bullish with
                  | Some q => q
                  | None => match price_of bearish with Some q => q | None => 0 end
                  end;
         buyStatus := getStatus (score_of bullish) (tradable_of bullish);
         sellStatus := getStatus (score_of bearish) (tradable_of bearish);
         loading := false;
         error := None |}
  | _, _ =>
      {| pair := pair; buyScore := 0; sellScore := 0; price := 0;
         buyStatus := "ERROR"; sellStatus := "ERROR";
         loading := false; error := Some "Failed to load" |}
  end.

End HomeScores.

(* ===================================================================== *)
(** ** Invariants and helpers for sessions of ProTraderGold *)
(* ===================================================================== *)

Module Reachable.
Import Dashboard.

(** With both setups present, the setup on display is the one of the
    selected trader. *)
Definition selection_consistent (s : State) : Prop :=
  match bullishData s, bearishData s with
  | Some b, Some r =>
      setupData s = Some (match selectedTrader s with bullish => b | bearish => r end)
  | _, _ => True
  end.

(** Every call in flight has a number below the next one to be given. *)
Definition fresh (w : World) : Prop :=
  Forall (fun ip => (fst ip < next_id w)%nat) (pending w).

(** The responses that make a poll fail. *)
Definition is_failure (r : Response) : bool :=
  match r with
  | HttpError _ | Thrown _ => true
  | _ => false
  end.

(** The responses [fetchTradeStatus] can get. *)
Definition answers_status (r : Response) : bool :=
  match r with
  | StatusJson _ | HttpError _ | Thrown _ => true
  | _ => false
  end.

(** The responses [fetchSetup] can get. *)
Definition answers_setup (r : Response) : bool :=
  match r with
  | AnalysisJson _ | HttpError _ | Thrown _ => true
  | _ => false
  end.

(** The draft after the operator changed the inputs one after the other. *)
Definition apply_edits (fds : list Field) (f : EntryForm) : EntryForm :=
  fold_left (fun f fd => edit fd f) fds f.

(** The requests of [n] polls. *)
Definition polls (n : nat) : list Request :=
  concat (repeat [GetAnalysis; GetTradeStatus] n).

(** An open dialog has a draft to show. *)
Definition dialog_has_draft (s : State) : Prop :=
  match showEnterTradeModal s, entryFormData s with
  | true, None => False
  | _, _ => True
  end.

(** The event is the answer to an [enterTrade] or [exitTrade] call. *)
Definition answers_mutation (e : Event) (w : World) : bool :=
  match e with
  | Complete id _ =>
      match lookup id (pending w) with
      | Some InEnterTrade | Some InExitTrade => true
      | _ => false
      end
  | _ => false
  end.

End Reachable.

(* ===================================================================== *)
(** ** More sample payloads *)
(* ===================================================================== *)

Module Samples.
Import Js Dashboard.

Definition accepted : MutationResult :=
  {| success := true; result_error := None;
     result_message := Some "Position closed"; pnl := Some "12.5";
     pnl_pct := Some "0.31" |}.

Definition a_level (l : Q) (rate : Q) : GoldAnalysis.KeyLevel :=
  {| GoldAnalysis.level := l; GoldAnalysis.distance_pips := 12;
     GoldAnalysis.bounce_rate := rate |}.

Definition buy_signal : GoldAnalysis.Signal :=
  {| GoldAnalysis.signal := "BUY";
     GoldAnalysis.signal_strength := Some "VERY_STRONG";
     GoldAnalysis.entry_price := Some 4001;
     GoldAnalysis.stop_loss := Some 3995;
     GoldAnalysis.take_profit := Some 4013;
     GoldAnalysis.key_levels :=
       Some [a_level 4000 85; a_level 3990 70; a_level 3980 50; a_level 3970 90];
     GoldAnalysis.trade_reasons := Some ["sweep"; "retest"; "session"; "trend"] |}.

Definition a_signal_body (stamp : option string) : GoldAnalysis.AnalysisData :=
  {| GoldAnalysis.status := "signal";
     GoldAnalysis.data :=
       Some {| GoldAnalysis.signal_of := Some buy_signal;
               GoldAnalysis.skip_info := None;
               GoldAnalysis.levels := None;
               GoldAnalysis.last_update := stamp |} |}.

Definition a_waiting_body : GoldAnalysis.AnalysisData :=
  {| GoldAnalysis.status := "no_signal";
     GoldAnalysis.data :=
       Some {| GoldAnalysis.signal_of := Some buy_signal;
               GoldAnalysis.skip_info :=
                 Some {| GoldAnalysis.skip_reason := Some EmptyString;
                         GoldAnalysis.context := None |};
               GoldAnalysis.levels := None;
               GoldAnalysis.last_update := None |} |}.

(** A stand-in for the locale formatting of dates. *)
Definition stamp (t : string) : string := "at " ++ t.

(** GoldPage after its first analysis arrived. *)
Definition gold_loaded : GoldAnalysis.World :=
  GoldAnalysis.step stamp
    (GoldAnalysis.Complete 0 (GoldAnalysis.Json (a_signal_body (Some "2025-01-01T10:00:00Z"))))
    GoldAnalysis.mounted.

End Samples.

(* ===================================================================== *)
(** * Properties *)
(* ===================================================================== *)

(** ** Rounding to the nearest double *)

Section RoundingFacts.
Import Js.

Local Open Scope Q_scope.

Lemma Qle_bool_false (a b : Q) : Qle_bool a b = false -> b < a.
Proof.
  intros H. apply Qnot_le_lt. intros Hle. apply Qle_bool_iff in Hle. congruence.
Qed.

Lemma pow2_pos (e : Z) : 0 < pow2 e.
Proof. apply Qpower_0_lt. reflexivity. Qed.

Lemma pow2_plus (a b : Z) : pow2 (a + b) == pow2 a * pow2 b.
Proof. apply Qpower_plus. discriminate. Qed.

Lemma pow2_le (a b : Z) : (a <= b)%Z -> pow2 a <= pow2 b.
Proof. intros H. apply Qpower_le_compat_l; [exact H | discriminate]. Qed.

Lemma pow2_lt (a b : Z) : (a < b)%Z -> pow2 a < pow2 b.
Proof. intros H. apply Qpower_lt_compat_l; [exact H | reflexivity]. Qed.

Lemma pow2_lt_inv (a b : Z) : pow2 a < pow2 b -> (a < b)%Z.
Proof. intros H. apply (Qpower_lt_compat_l_inv 2); [exact H | reflexivity]. Qed.

Lemma pow2_Z (z : Z) : (0 <= z)%Z -> pow2 z == inject_Z (2 ^ z).
Proof. intros H. unfold pow2. now rewrite (Zpower_Qpower 2 z H). Qed.

Lemma pow2_succ (a : Z) : pow2 (a + 1) == 2 * pow2 a.
Proof. rewrite pow2_plus. change (pow2 1) with 2. ring. Qed.

(** Between two powers of two there is room for one exponent only. *)
Lemma pow2_unique (a : Q) (i j : Z) :
  pow2 i <= a -> a < pow2 (i + 1) -> pow2 j <= a -> a < pow2 (j + 1) -> i = j.
Proof.
  intros Hi Hi' Hj Hj'.
  assert (i < j + 1)%Z by (apply pow2_lt_inv; lra).
  assert (j < i + 1)%Z by (apply pow2_lt_inv; lra).
  lia.
Qed.

Lemma Zlog2_bounds (n : Z) :
  (0 < n)%Z -> inject_Z (2 ^ Z.log2 n) <= inject_Z n /\ inject_Z n < inject_Z (2 ^ (Z.log2 n + 1)).
Proof.
  intros H. destruct (Z.log2_spec n H) as [H1 H2]. split.
  - now rewrite <- Zle_Qle.
  - rewrite <- Zlt_Qlt. exact H2.
Qed.

Lemma ilog2_spec (a : Q) : 0 < a -> pow2 (ilog2 a) <= a /\ a < pow2 (ilog2 a + 1).
Proof.
  intros Ha. unfold ilog2.
  set (n := Qnum a). set (d := Z.pos (Qden a)).
  assert (Hn : (0 < n)%Z).
  { unfold Qlt in Ha. cbn in Ha. unfold n. lia. }
  assert (Hd : (0 < d)%Z) by (unfold d; lia).
  destruct (Zlog2_bounds n Hn) as [Hn1 Hn2].
  destruct (Zlog2_bounds d Hd) as [Hd1 Hd2].
  rewrite <- pow2_Z in Hn1, Hn2, Hd1, Hd2 by (pose proof (Z.log2_nonneg n); pose proof (Z.log2_nonneg d); lia).
  assert (Ea : a * inject_Z d == inject_Z n).
  { unfold d, n. destruct a as [p q]. cbn. unfold Qeq, Qmult, inject_Z. cbn. lia. }
  assert (Hd0 : 0 < inject_Z d) by (change 0 with (inject_Z 0); now rewrite <- Zlt_Qlt).
  set (k := (Z.log2 n - Z.log2 d)%Z).
  assert (Hlo : pow2 (k - 1) < a).
  { assert (E : pow2 (Z.log2 n) == pow2 (k - 1) * pow2 (Z.log2 d + 1)).
    { rewrite <- pow2_plus. unfold k. f_equiv. lia. }
    pose proof (pow2_pos (k - 1)). pose proof (pow2_pos (Z.log2 d + 1)).
    apply Qnot_le_lt. intros Hc.
    assert (a * inject_Z d <= pow2 (k - 1) * inject_Z d) by (apply Qmult_le_compat_r; lra).
    assert (pow2 (k - 1) * inject_Z d < pow2 (k - 1) * pow2 (Z.log2 d + 1))
      by (apply Qmult_lt_l; lra).
    lra. }
  assert (Hhi : a < pow2 (k + 1)).
  { assert (E : pow2 (Z.log2 n + 1) == pow2 (k + 1) * pow2 (Z.log2 d)).
    { rewrite <- pow2_plus. unfold k. f_equiv. lia. }
    pose proof (pow2_pos (k + 1)). pose proof (pow2_pos (Z.log2 d)).
    apply Qnot_le_lt. intros Hc.
    assert (pow2 (k + 1) * inject_Z d <= a * inject_Z d) by (apply Qmult_le_compat_r; lra).
    assert (pow2 (k + 1) * pow2 (Z.log2 d) <= pow2 (k + 1) * inject_Z d)
      by (apply Qmult_le_l; lra).
    lra. }
  destruct (Qle_bool (pow2 k) a) eqn:E.
  - apply Qle_bool_iff in E. split; [exact E | exact Hhi].
  - assert (a < pow2 k).
    { apply Qnot_le_lt. intros Hc. apply Qle_bool_iff in Hc. congruence. }
    split; [lra|]. now replace (k - 1 + 1)%Z with k by lia.
Qed.

Lemma ilog2_unique (a : Q) (k : Z) :
  pow2 k <= a -> a < pow2 (k + 1) -> ilog2 a = k.
Proof.
  intros H1 H2.
  assert (Ha : 0 < a) by (pose proof (pow2_pos k); lra).
  destruct (ilog2_spec a Ha) as [H3 H4].
  now apply (pow2_unique a).
Qed.

Lemma ilog2_comp (a b : Q) : 0 < a -> a == b -> ilog2 a = ilog2 b.
Proof.
  intros Ha E. assert (Hb : 0 < b) by now rewrite <- E.
  destruct (ilog2_spec b Hb) as [H1 H2].
  apply ilog2_unique; now rewrite E.
Qed.

Lemma ilog2_mono (a b : Q) : 0 < a -> a <= b -> (ilog2 a <= ilog2 b)%Z.
Proof.
  intros Ha Hab. assert (Hb : 0 < b) by lra.
  destruct (ilog2_spec a Ha) as [H1 _]. destruct (ilog2_spec b Hb) as [_ H2].
  assert (ilog2 a < ilog2 b + 1)%Z by (apply pow2_lt_inv; lra).
  lia.
Qed.

(** *** The nearest integer *)

Lemma round_even_cases (x : Q) :
  round_even x = Qfloor x \/ round_even x = (Qfloor x + 1)%Z.
Proof.
  unfold round_even.
  destruct (x - inject_Z (Qfloor x) ?= 1 # 2); auto.
  destruct (Z.even (Qfloor x)); auto.
Qed.

Lemma round_even_comp (x y : Q) : x == y -> round_even x = round_even y.
Proof.
  intros E. unfold round_even. rewrite (Qfloor_comp x y E).
  assert (H : (x - inject_Z (Qfloor y) ?= 1 # 2) = (y - inject_Z (Qfloor y) ?= 1 # 2))
    by now rewrite E.
  now rewrite H.
Qed.

Lemma round_even_Z (z : Z) : round_even (inject_Z z) = z.
Proof.
  unfold round_even. rewrite Qfloor_Z.
  assert (H : (inject_Z z - inject_Z z ?= 1 # 2) = Lt).
  { apply Qlt_alt. setoid_replace (inject_Z z - inject_Z z) with 0 by ring. reflexivity. }
  now rewrite H.
Qed.

Lemma round_even_mono (x y : Q) : x <= y -> (round_even x <= round_even y)%Z.
Proof.
  intros Hxy. pose proof (Qfloor_resp_le x y Hxy) as Hf.
  destruct (Z.eq_dec (Qfloor x) (Qfloor y)) as [E|Hne].
  - unfold round_even. rewrite E.
    destruct (x - inject_Z (Qfloor y) ?= 1 # 2) eqn:Cx;
      destruct (y - inject_Z (Qfloor y) ?= 1 # 2) eqn:Cy;
      try lia; try (destruct (Z.even (Qfloor y)); lia);
      exfalso;
      repeat match goal with
             | H : (_ ?= _) = Eq |- _ => apply Qeq_alt in H
             | H : (_ ?= _) = Lt |- _ => apply Qlt_alt in H
             | H : (_ ?= _) = Gt |- _ => apply Qgt_alt in H
             end; lra.
  - destruct (round_even_cases x) as [-> | ->], (round_even_cases y) as [-> | ->]; lia.
Qed.

Lemma round_even_nonneg (x : Q) : 0 <= x -> (0 <= round_even x)%Z.
Proof.
  intros H. rewrite <- (round_even_Z 0). now apply round_even_mono.
Qed.

(** *** The nearest double *)

Lemma ulp_exponent_comp (a b : Q) : 0 < a -> a == b -> ulp_exponent a = ulp_exponent b.
Proof. intros Ha E. unfold ulp_exponent. now rewrite (ilog2_comp a b Ha E). Qed.

Lemma nearest_comp (a b : Q) : 0 < a -> a == b -> nearest a == nearest b.
Proof.
  intros Ha E. unfold nearest. rewrite (ulp_exponent_comp a b Ha E).
  rewrite (round_even_comp (a / pow2 (ulp_exponent b)) (b / pow2 (ulp_exponent b)));
    [reflexivity | now rewrite E].
Qed.

Lemma nearest_nonneg (a : Q) : 0 < a -> 0 <= nearest a.
Proof.
  intros Ha. unfold nearest. pose proof (pow2_pos (ulp_exponent a)) as Hp.
  apply Qmult_le_0_compat; [|lra].
  change 0 with (inject_Z 0). rewrite <- Zle_Qle. apply round_even_nonneg.
  apply Qle_shift_div_l; lra.
Qed.

(** The scaled value stays below 2^53, and reaches 2^52 unless [a] is
    subnormal. *)
Lemma scaled_bounds (a : Q) :
  0 < a ->
  a / pow2 (ulp_exponent a) < pow2 53
  /\ ((-1074 <= ilog2 a - 52)%Z -> pow2 52 <= a / pow2 (ulp_exponent a)).
Proof.
  intros Ha. destruct (ilog2_spec a Ha) as [H1 H2].
  pose proof (pow2_pos (ulp_exponent a)) as Hp.
  split.
  - apply Qlt_shift_div_r; [exact Hp|]. rewrite <- pow2_plus.
    assert (pow2 (ilog2 a + 1) <= pow2 (53 + ulp_exponent a))
      by (apply pow2_le; unfold ulp_exponent; lia).
    lra.
  - intros Hn. apply Qle_shift_div_l; [exact Hp|]. rewrite <- pow2_plus.
    assert (pow2 (52 + ulp_exponent a) <= pow2 (ilog2 a))
      by (apply pow2_le; unfold ulp_exponent; lia).
    lra.
Qed.

Lemma mantissa_bounds (a : Q) :
  0 < a ->
  (0 <= round_even (a / pow2 (ulp_exponent a)) <= 2 ^ 53)%Z
  /\ ((-1074 <= ilog2 a - 52)%Z -> (2 ^ 52 <= round_even (a / pow2 (ulp_exponent a)))%Z).
Proof.
  intros Ha. destruct (scaled_bounds a Ha) as [H1 H2].
  pose proof (pow2_pos (ulp_exponent a)) as Hp.
  split; [split|].
  - apply round_even_nonneg. apply Qle_shift_div_l; lra.
  - rewrite <- (round_even_Z (2 ^ 53)). apply round_even_mono.
    rewrite <- pow2_Z by lia. lra.
  - intros Hn. rewrite <- (round_even_Z (2 ^ 52)). apply round_even_mono.
    rewrite <- pow2_Z by lia. now apply H2.
Qed.

Lemma nearest_mono (a b : Q) : 0 < a -> a <= b -> nearest a <= nearest b.
Proof.
  intros Ha Hab. assert (Hb : 0 < b) by lra.
  pose proof (ilog2_mono a b Ha Hab) as Hl.
  pose proof (pow2_pos (ulp_exponent a)) as Hpa.
  pose proof (pow2_pos (ulp_exponent b)) as Hpb.
  destruct (Z.eq_dec (ulp_exponent a) (ulp_exponent b)) as [E|Hne].
  - unfold nearest. rewrite E. apply Qmult_le_compat_r; [|lra].
    rewrite <- Zle_Qle. apply round_even_mono.
    unfold Qdiv. apply Qmult_le_compat_r; [exact Hab|].
    apply Qlt_le_weak, Qinv_lt_0_compat, Hpb.
  - assert (Hlt : (ulp_exponent a < ulp_exponent b)%Z) by (unfold ulp_exponent in *; lia).
    assert (Hnb : (-1074 <= ilog2 b - 52)%Z) by (unfold ulp_exponent in *; lia).
    destruct (mantissa_bounds a Ha) as [[_ Hma] _].
    destruct (mantissa_bounds b Hb) as [_ Hmb]. specialize (Hmb Hnb).
    apply Qle_trans with (pow2 (53 + ulp_exponent a)).
    + unfold nearest. rewrite pow2_plus. apply Qmult_le_compat_r; [|lra].
      rewrite (pow2_Z 53) by lia. now rewrite <- Zle_Qle.
    + apply Qle_trans with (pow2 (52 + ulp_exponent b)); [apply pow2_le; lia|].
      unfold nearest. rewrite pow2_plus. apply Qmult_le_compat_r; [|lra].
      rewrite (pow2_Z 52) by lia. now rewrite <- Zle_Qle.
Qed.

(** A value that is a double already is left alone. *)
Lemma nearest_fixed (a : Q) : 0 < a -> 0 < nearest a -> nearest (nearest a) == nearest a.
Proof.
  intros Ha Hv.
  set (e := ulp_exponent a) in *. set (m := round_even (a / pow2 e)) in *.
  assert (Hval : nearest a == inject_Z m * pow2 e) by reflexivity.
  destruct (mantissa_bounds a Ha) as [[Hm0 Hm1] Hm2]. fold e in Hm0, Hm1, Hm2. fold m in Hm0, Hm1, Hm2.
  pose proof (pow2_pos e) as Hp.
  assert (Hm : (0 < m)%Z).
  { destruct (Z.eq_dec m 0) as [E|]; [|lia].
    rewrite Hval, E in Hv. change (inject_Z 0) with 0 in Hv. lra. }
  assert (He : (-1074 <= e)%Z) by (unfold e, ulp_exponent; lia).
  destruct (Z.eq_dec m (2 ^ 53)) as [Etop|Hntop].
  - (* the mantissa carried into the next binade *)
    assert (Hv' : nearest a == pow2 (e + 53)).
    { rewrite Hval, Etop, <- pow2_Z by lia. rewrite <- pow2_plus. f_equiv. lia. }
    assert (Hl : ilog2 (nearest a) = (e + 53)%Z).
    { apply ilog2_unique; rewrite Hv'; [lra | apply pow2_lt; lia]. }
    assert (Hu : ulp_exponent (nearest a) = (e + 1)%Z) by (unfold ulp_exponent; lia).
    unfold nearest at 1. rewrite Hu.
    rewrite (round_even_comp _ (inject_Z (2 ^ 52))).
    + rewrite round_even_Z, Hv', <- pow2_Z by lia. rewrite <- pow2_plus. f_equiv. lia.
    + rewrite Hv', <- pow2_Z by lia. pose proof (pow2_pos (e + 1)).
      apply Qmult_inj_r with (pow2 (e + 1)); [lra|].
      unfold Qdiv. rewrite <- Qmult_assoc, (Qmult_comm (/ _)), Qmult_inv_r by lra.
      rewrite <- pow2_plus, Qmult_1_r. f_equiv. lia.
  - assert (Hl : ilog2 (nearest a) = (Z.log2 m + e)%Z).
    { destruct (Zlog2_bounds m Hm) as [B1 B2].
      rewrite <- pow2_Z in B1, B2 by (pose proof (Z.log2_nonneg m); lia).
      apply ilog2_unique; rewrite Hval.
      - rewrite pow2_plus. apply Qmult_le_compat_r; lra.
      - replace (Z.log2 m + e + 1)%Z with ((Z.log2 m + 1) + e)%Z by lia.
        rewrite pow2_plus. apply Qmult_lt_compat_r; lra. }
    assert (Hlog : (Z.log2 m <= 52)%Z).
    { assert (Z.log2 m < 53)%Z by (apply Z.log2_lt_pow2; lia). lia. }
    assert (Hu : ulp_exponent (nearest a) = e).
    { unfold ulp_exponent. rewrite Hl.
      destruct (Z_le_gt_dec (-1074) (ilog2 a - 52)) as [Hn|Hs].
      - specialize (Hm2 Hn).
        assert (52 <= Z.log2 m)%Z by (apply Z.log2_le_pow2; lia).
        unfold e, ulp_exponent in *. lia.
      - unfold e, ulp_exponent in *. lia. }
    unfold nearest at 1. rewrite Hu.
    rewrite (round_even_comp _ (inject_Z m)); [now rewrite round_even_Z|].
    rewrite Hval. unfold Qdiv. rewrite <- Qmult_assoc, Qmult_inv_r, Qmult_1_r by lra.
    reflexivity.
Qed.

(** *** The Number value *)

Lemma Qcompare_Gt (q : Q) : 0 < q -> (q ?= 0) = Gt.
Proof. intros H. now apply Qgt_alt. Qed.

Lemma Qcompare_Lt (q : Q) : q < 0 -> (q ?= 0) = Lt.
Proof. intros H. now apply Qlt_alt. Qed.

Lemma Qle_bool_comp_r (a b c : Q) : b == c -> Qle_bool a b = Qle_bool a c.
Proof.
  intros E. destruct (Qle_bool a b) eqn:Hb, (Qle_bool a c) eqn:Hc; try reflexivity.
  - apply Qle_bool_iff in Hb. rewrite E in Hb. apply Qle_bool_iff in Hb. congruence.
  - apply Qle_bool_iff in Hc. rewrite <- E in Hc. apply Qle_bool_iff in Hc. congruence.
Qed.

Lemma round64_pos (q : Q) :
  0 < q ->
  round64 q = if Qle_bool (pow2 1024) (nearest q) then PInf else Fin (Qred (nearest q)).
Proof. intros H. unfold round64. now rewrite (Qcompare_Gt q H). Qed.

Lemma round64_neg (q : Q) :
  q < 0 ->
  round64 q = if Qle_bool (pow2 1024) (nearest (- q)) then NInf
              else Fin (Qred (- nearest (- q))).
Proof. intros H. unfold round64. now rewrite (Qcompare_Lt q H). Qed.

Lemma round64_zero (q : Q) : q == 0 -> round64 q = Fin 0.
Proof. intros H. unfold round64. apply Qeq_alt in H. now rewrite H. Qed.

(** Equal rationals round to the same double. *)
Lemma round64_comp (a b : Q) : a == b -> round64 a = round64 b.
Proof.
  intros E. destruct (Q_dec a 0) as [[Ha|Ha]|Ha].
  - assert (Hb : b < 0) by now rewrite <- E.
    rewrite (round64_neg a Ha), (round64_neg b Hb).
    assert (En : nearest (- a) == nearest (- b)) by (apply nearest_comp; [lra | now rewrite E]).
    rewrite (Qle_bool_comp_r _ _ _ En).
    destruct (Qle_bool (pow2 1024) (nearest (- b))); [reflexivity|].
    f_equal. apply Qred_complete. now rewrite En.
  - assert (Hb : 0 < b) by now rewrite <- E.
    rewrite (round64_pos a Ha), (round64_pos b Hb).
    assert (En : nearest a == nearest b) by now apply nearest_comp.
    rewrite (Qle_bool_comp_r _ _ _ En).
    destruct (Qle_bool (pow2 1024) (nearest b)); [reflexivity|].
    f_equal. now apply Qred_complete.
  - rewrite (round64_zero a Ha). symmetry. apply round64_zero. now rewrite <- E.
Qed.

(** A number that is not negative rounds to one that is not negative. *)
Lemma round64_nonneg (q : Q) :
  0 <= q -> round64 q = PInf \/ exists v, round64 q = Fin v /\ 0 <= v.
Proof.
  intros H. destruct (Qle_lt_or_eq _ _ H) as [Hp|Hz].
  - rewrite (round64_pos q Hp).
    destruct (Qle_bool (pow2 1024) (nearest q)); [now left|].
    right. eexists. split; [reflexivity|]. rewrite Qred_correct. now apply nearest_nonneg.
  - right. exists 0. split; [apply round64_zero; now symmetry | apply Qle_refl].
Qed.

Lemma round64_nonpos (q : Q) :
  q <= 0 -> round64 q = NInf \/ exists v, round64 q = Fin v /\ v <= 0.
Proof.
  intros H. destruct (Qle_lt_or_eq _ _ H) as [Hp|Hz].
  - rewrite (round64_neg q Hp).
    destruct (Qle_bool (pow2 1024) (nearest (- q))); [now left|].
    right. eexists. split; [reflexivity|]. rewrite Qred_correct.
    assert (0 <= nearest (- q)) by (apply nearest_nonneg; lra). lra.
  - right. exists 0. split; [now apply round64_zero | apply Qle_refl].
Qed.

(** Rounding keeps the order. *)
Lemma round64_mono (a b : Q) : a <= b -> le (round64 a) (round64 b) = true.
Proof.
  intros Hab.
  destruct (Qlt_le_dec 0 a) as [Ha|Ha].
  - assert (Hb : 0 < b) by lra.
    rewrite (round64_pos a Ha), (round64_pos b Hb).
    pose proof (nearest_mono a b Ha Hab) as Hn.
    destruct (Qle_bool (pow2 1024) (nearest a)) eqn:Ea;
      destruct (Qle_bool (pow2 1024) (nearest b)) eqn:Eb; try reflexivity.
    + apply Qle_bool_iff in Ea. apply Qle_bool_false in Eb. lra.
    + unfold le. apply Qle_bool_iff. now rewrite !Qred_correct.
  - destruct (Qlt_le_dec b 0) as [Hb|Hb].
    + assert (Ha' : a < 0) by lra.
      rewrite (round64_neg a Ha'), (round64_neg b Hb).
      assert (Hn : nearest (- b) <= nearest (- a)) by (apply nearest_mono; lra).
      destruct (Qle_bool (pow2 1024) (nearest (- a))) eqn:Ea;
        destruct (Qle_bool (pow2 1024) (nearest (- b))) eqn:Eb; try reflexivity.
      * apply Qle_bool_iff in Eb. apply Qle_bool_false in Ea. lra.
      * unfold le. apply Qle_bool_iff. rewrite !Qred_correct. lra.
    + destruct (round64_nonpos a Ha) as [-> | (va & -> & Hva)];
        destruct (round64_nonneg b Hb) as [-> | (vb & -> & Hvb)]; try reflexivity.
      unfold le. apply Qle_bool_iff. lra.
Qed.

(** What [round64] yields is a double: rounding it again changes
    nothing. *)
Lemma round64_fixed (q v w : Q) : round64 q = Fin v -> w == v -> round64 w = Fin v.
Proof.
  intros H Ew. rewrite (round64_comp w v Ew). clear w Ew.
  destruct (Q_dec q 0) as [[Hq|Hq]|Hq].
  - rewrite (round64_neg q Hq) in H.
    destruct (Qle_bool (pow2 1024) (nearest (- q))) eqn:Eo; [discriminate|].
    assert (Hv : v = Qred (- nearest (- q))) by congruence. subst v. clear H.
    assert (Hq' : 0 < - q) by lra.
    pose proof (nearest_nonneg (- q) Hq') as Hn.
    destruct (Qle_lt_or_eq _ _ Hn) as [Hp|Hz].
    + assert (Hneg : Qred (- nearest (- q)) < 0) by (rewrite Qred_correct; lra).
      rewrite (round64_neg _ Hneg).
      assert (E : nearest (- Qred (- nearest (- q))) == nearest (- q)).
      { rewrite (nearest_comp _ (nearest (- q))).
        - now apply nearest_fixed.
        - rewrite Qred_correct. lra.
        - rewrite Qred_correct. ring. }
      rewrite (Qle_bool_comp_r _ _ _ E), Eo.
      f_equal. apply Qred_complete. now rewrite E.
    + rewrite round64_zero; [|rewrite Qred_correct; lra].
      f_equal. change 0 with (Qred 0). apply Qred_complete. lra.
  - rewrite (round64_pos q Hq) in H.
    destruct (Qle_bool (pow2 1024) (nearest q)) eqn:Eo; [discriminate|].
    assert (Hv : v = Qred (nearest q)) by congruence. subst v. clear H.
    pose proof (nearest_nonneg q Hq) as Hn.
    destruct (Qle_lt_or_eq _ _ Hn) as [Hp|Hz].
    + assert (Hpos : 0 < Qred (nearest q)) by now rewrite Qred_correct.
      rewrite (round64_pos _ Hpos).
      assert (E : nearest (Qred (nearest q)) == nearest q).
      { rewrite (nearest_comp _ (nearest q)).
        - now apply nearest_fixed.
        - exact Hpos.
        - apply Qred_correct. }
      rewrite (Qle_bool_comp_r _ _ _ E), Eo.
      f_equal. now apply Qred_complete.
    + rewrite round64_zero; [|rewrite Qred_correct; lra].
      f_equal. change 0 with (Qred 0). apply Qred_complete. lra.
  - rewrite (round64_zero q Hq) in H. inversion H. now apply round64_zero.
Qed.

(** Adding zero to a double gives the double back. *)
Lemma add_zero (q v : Q) : round64 q = Fin v -> add (Fin v) (Fin 0) = Fin v.
Proof. intros H. unfold add. apply (round64_fixed q v); [exact H | ring]. Qed.

(** A rational between two doubles rounds to a double between them. *)
Lemma round64_between (lo hi q : Q) :
  round64 lo = Fin lo -> round64 hi = Fin hi -> lo <= q <= hi ->
  exists v, round64 q = Fin v /\ lo <= v <= hi.
Proof.
  intros Hlo Hhi [H1 H2].
  pose proof (round64_mono lo q H1) as Ml. pose proof (round64_mono q hi H2) as Mh.
  rewrite Hlo in Ml. rewrite Hhi in Mh.
  destruct (round64 q) as [| | |v]; try discriminate.
  exists v. split; [reflexivity|].
  unfold le in Ml, Mh. apply Qle_bool_iff in Ml. apply Qle_bool_iff in Mh. now split.
Qed.

End RoundingFacts.

(** ** Conversion engine *)

Section ConversionFacts.
Import Js Conversion.

Lemma digit_not_space (c : ascii) : is_digit c = true -> is_space c = false.
Proof.
  destruct c as [[] [] [] [] [] [] [] []]; vm_compute; congruence.
Qed.

(** No white space starts with a digit, whatever its length in bytes. *)
Lemma trimStart_digit (c : ascii) (r : string) :
  is_digit c = true -> trimStart (String c r) = String c r.
Proof.
  intros Hc.
  destruct c as [[] [] [] [] [] [] [] []]; try discriminate Hc;
    destruct r as [|c2 [|c3 r3]]; reflexivity.
Qed.

Lemma span_digits_head (s ds rest : string) (c : ascii) :
  span_digits s = (String c ds, rest) -> is_digit c = true.
Proof.
  destruct s as [|a r]; simpl; [discriminate|].
  destruct (is_digit a) eqn:Ha; [|discriminate].
  destruct (span_digits r) as [ds' rest']. intros E. now inversion E; subst.
Qed.

Lemma digits_cons (acc : Z) (c : ascii) (r : string) :
  digits acc (String c r)
  = if is_digit c
    then let '(v, n, rest) := digits (10 * acc + digit_val c) r in (v, S n, rest)
    else (acc, O, String c r).
Proof. reflexivity. Qed.

Lemma digits_nonneg (s : string) : forall acc v n rest,
  (0 <= acc)%Z -> digits acc s = (v, n, rest) -> (0 <= v)%Z.
Proof.
  induction s as [|c r IH]; intros acc v n rest Hacc.
  - cbn. intros E. inversion E. now subst.
  - rewrite digits_cons. destruct (is_digit c) eqn:Hc.
    + destruct (digits (10 * acc + digit_val c) r) as [[v' n'] rest'] eqn:E'.
      intros E. inversion E; subst.
      eapply (IH (10 * acc + digit_val c)%Z); [|exact E'].
      assert (0 <= digit_val c)%Z.
      { unfold digit_val. unfold is_digit in Hc. apply andb_true_iff in Hc.
        destruct Hc as [Hlo _]. apply Nat.leb_le in Hlo. lia. }
      lia.
    + intros E. inversion E. now subst.
Qed.

(** A string that starts with a digit parses to the double nearest to a
    decimal value that is not negative. *)
Lemma parseFloat_digit_head (c : ascii) (r : string) :
  is_digit c = true -> exists q, 0 <= q /\ parseFloat (String c r) = round64 q.
Proof.
  intros Hc. unfold parseFloat. rewrite (trimStart_digit c r Hc).
  assert (Hs : (match String c r with
                | String "+" r0 => (false, r0)
                | String "-" r0 => (true, r0)
                | _ => (false, String c r)
                end) = (false, String c r)).
  { destruct c as [[] [] [] [] [] [] [] []]; try reflexivity; discriminate Hc. }
  rewrite Hs.
  assert (Hp : String.prefix "Infinity" (String c r) = false).
  { destruct c as [[] [] [] [] [] [] [] []]; try reflexivity; discriminate Hc. }
  rewrite Hp.
  destruct (digits 0 (String c r)) as [[ip ni] s3] eqn:Ei.
  assert (Hip : (0 <= ip)%Z) by (eapply digits_nonneg; [|exact Ei]; lia).
  assert (Hni : ni <> 0%nat).
  { rewrite digits_cons, Hc in Ei.
    destruct (digits _ r) as [[v' n'] rest']. inversion Ei. discriminate. }
  destruct (match s3 with String "." r0 => digits 0 r0 | _ => (0%Z, 0%nat, s3) end)
    as [[fp nf] s4] eqn:Ef.
  assert (Hfp : (0 <= fp)%Z).
  { destruct s3 as [|c3 r3]; [inversion Ef; lia|].
    destruct (Ascii.eqb_spec c3 ".") as [->|Hne].
    - eapply digits_nonneg; [|exact Ef]. lia.
    - destruct c3 as [[] [] [] [] [] [] [] []];
        try (inversion Ef; lia); exfalso; apply Hne; reflexivity. }
  destruct ni as [|ni']; [contradiction|].
  eexists. split; [|reflexivity].
  apply Qmult_le_0_compat.
  - unfold Qdiv. apply Qmult_le_0_compat.
    + change 0 with (inject_Z 0). rewrite <- Zle_Qle.
      assert (0 <= 10 ^ Z.of_nat nf)%Z by (apply Z.pow_nonneg; lia). nia.
    + apply Qinv_le_0_compat. change 0 with (inject_Z 0). rewrite <- Zle_Qle.
      apply Z.pow_nonneg. lia.
  - apply Qpower_0_le. discriminate.
Qed.

Lemma anchor_rounded (d m : string) :
  match_dollar_number d = Some m -> exists q, 0 <= q /\ parseFloat m = round64 q.
Proof.
  induction d as [|c r IH]; simpl; [discriminate|].
  destruct (Ascii.eqb c "$"); [|exact IH].
  destruct (span_digits r) as [ds rest] eqn:E.
  destruct ds as [|a ds']; [exact IH|].
  intros H. inversion H; subst. simpl.
  apply parseFloat_digit_head. eapply span_digits_head; eauto.
Qed.

(** The anchor, when there is one, is the double nearest to the decimal
    number that the description spells, which is not negative. *)
Lemma getLiquidityGrabLevel_rounded confluences (a : num) :
  getLiquidityGrabLevel confluences = Ok (Some a) -> exists q, 0 <= q /\ a = round64 q.
Proof.
  unfold getLiquidityGrabLevel.
  destruct confluences as [cs|]; [|discriminate].
  destruct (find is_liquidity_grab cs) as [lg|]; [|discriminate].
  destruct (description lg) as [d|]; [|discriminate].
  destruct (match_dollar_number d) as [m|] eqn:E; [|discriminate].
  intros H. inversion H; subst. eapply anchor_rounded; eauto.
Qed.

(** [getLiquidityGrabLevel] throws exactly when the first liquidity grab
    of the list has no description. *)
Lemma getLiquidityGrabLevel_throws confluences :
  getLiquidityGrabLevel confluences = TypeError
  <-> exists cs lg, confluences = Some cs
                    /\ find is_liquidity_grab cs = Some lg
                    /\ description lg = None.
Proof.
  unfold getLiquidityGrabLevel. split.
  - destruct confluences as [cs|]; [|discriminate].
    destruct (find is_liquidity_grab cs) as [lg|] eqn:Ef; [|discriminate].
    destruct (description lg) as [d|] eqn:Ed.
    + destruct (match_dollar_number d); discriminate.
    + intros _. now exists cs, lg.
  - intros (cs & lg & -> & Ef & Ed). now rewrite Ef, Ed.
Qed.


Lemma convert_no_anchor confluences (s : string) :
  getLiquidityGrabLevel confluences = Ok None ->
  convertPipToPrice confluences s = Ok s.
Proof.
  intros H. unfold convertPipToPrice. rewrite H.
  destruct (String.eqb s EmptyString); [reflexivity|].
  now destruct (isNaN _).
Qed.


Lemma convert_throws confluences (s : string) :
  s <> EmptyString ->
  isNaN (parseFloat (replace_first "$" EmptyString s)) = false ->
  getLiquidityGrabLevel confluences = TypeError ->
  convertPipToPrice confluences s = TypeError.
Proof.
  intros Hs Hn H. unfold convertPipToPrice. rewrite Hn, H.
  destruct (String.eqb_spec s EmptyString); [contradiction | reflexivity].
Qed.

(** With an anchor, a string that parses to a number is read as an offset
    in tenths of a dollar. *)
Lemma convert_with_anchor confluences (s : string) (b : num) :
  s <> EmptyString ->
  isNaN (parseFloat (replace_first "$" EmptyString s)) = false ->
  getLiquidityGrabLevel confluences = Ok (Some b) ->
  num_falsy b = false ->
  convertPipToPrice confluences s
  = Ok ("$" ++ toFixed2 (add b (div10 (parseFloat (replace_first "$" EmptyString s))))).
Proof.
  intros Hs Hn Hb Hz. unfold convertPipToPrice. rewrite Hn, Hb, Hz.
  destruct (String.eqb_spec s EmptyString); [contradiction|reflexivity].
Qed.

(** Converting "$0.00" with an anchor prints the anchor. *)
Lemma convert_zero_offset confluences (anchor : num) :
  getLiquidityGrabLevel confluences = Ok (Some anchor) ->
  convertPipToPrice confluences "$0.00" = Ok ("$" ++ toFixed2 anchor).
Proof.
  intros H. destruct (getLiquidityGrabLevel_rounded _ _ H) as (q & Hq & Ea).
  unfold convertPipToPrice. rewrite H.
  change (String.eqb "$0.00" EmptyString) with false.
  assert (Ep : parseFloat (replace_first "$" EmptyString "$0.00") = Fin 0)
    by (vm_compute; reflexivity).
  rewrite Ep. cbn [isNaN].
  assert (Ez : div10 (Fin 0) = Fin 0) by (vm_compute; reflexivity).
  rewrite Ez.
  destruct (round64_nonneg q Hq) as [Hi | (v & Hv & Hv0)].
  - rewrite Hi in Ea. subst anchor. reflexivity.
  - rewrite Hv in Ea. subst anchor. cbn [num_falsy].
    destruct (Qeq_bool v 0) eqn:Hz.
    + apply Qeq_bool_eq in Hz.
      assert (E0 : round64 0 = Fin v) by (apply (round64_fixed q v 0 Hv); now symmetry).
      assert (E1 : round64 0 = Fin 0) by reflexivity.
      rewrite E1 in E0. now rewrite <- E0.
    + now rewrite (add_zero q v Hv).
Qed.

End ConversionFacts.

Section ConversionClaims.
Import Js Conversion Scenario.




(** C7 on the code: the round trip holds wherever an anchor is extracted
    (converting "$0.00" prints the anchor with two decimals behind a
    dollar sign) and wherever [getLiquidityGrabLevel] returns [null] (every
    offset string comes back unchanged).  It breaks for a liquidity grab
    that came without its description: no anchor can be extracted from
    such a list, and the conversion of "$2.00" throws instead of returning
    "$2.00". *)
Theorem pip_conversion_roundtrip (confluences : option (list Confluence)) :
  (forall anchor, getLiquidityGrabLevel confluences = Ok (Some anchor) ->
     convertPipToPrice confluences "$0.00" = Ok ("$" ++ toFixed2 anchor))
  /\ (getLiquidityGrabLevel confluences = Ok None ->
        forall pipString, convertPipToPrice confluences pipString = Ok pipString)
  /\ (forall cs lg, confluences = Some cs -> find is_liquidity_grab cs = Some lg ->
        description lg = None ->
        getLiquidityGrabLevel confluences = TypeError
        /\ convertPipToPrice confluences "$2.00" = TypeError
        /\ convertPipToPrice confluences "$2.00" <> Ok "$2.00")
  /\ convertPipToPrice grab_without_description "$2.00" = TypeError.
Proof.
  split; [|split; [|split]].
  - apply convert_zero_offset.
  - intros H pipString. now apply convert_no_anchor.
  - intros cs lg Hc Hf Hd.
    assert (Ht : getLiquidityGrabLevel confluences = TypeError)
      by (apply getLiquidityGrabLevel_throws; now exists cs, lg).
    assert (Hx : convertPipToPrice confluences "$2.00" = TypeError)
      by (apply convert_throws; [discriminate | vm_compute; reflexivity | exact Ht]).
    split; [exact Ht|]. split; [exact Hx|]. rewrite Hx. discriminate.
  - reflexivity.
Qed.

Lemma pip_conversion_roundtrip_witness :
  convertPipToPrice grab_at_4000 "$0.00" = Ok "$4000.00"
  /\ convertPipToPrice no_grab "$2.00" = Ok "$2.00"
  /\ convertPipToPrice grab_without_description "$2.00" = TypeError.
Proof.
  split; [|split].
  - apply (proj1 (pip_conversion_roundtrip grab_at_4000) (Fin 4000)).
    vm_compute. reflexivity.
  - apply (proj1 (proj2 (pip_conversion_roundtrip no_grab))). reflexivity.
  - apply (proj1 (proj2 (proj2 (pip_conversion_roundtrip grab_without_description)))
             [undescribed_grab] undescribed_grab eq_refl eq_refl eq_refl).
Defined.

End ConversionClaims.

(** ** Alert list *)

Section AlertFacts.
Import Alerts Scenario.

Lemma rank_le_2 (a : Alert) : (rank a <= 2)%nat.
Proof.
  unfold rank. destruct (String.eqb (priority a) "HIGH"); [lia|].
  destruct (String.eqb (priority a) "MEDIUM"); lia.
Qed.

Lemma sorted_by_rank_tail (a : Alert) (l : list Alert) :
  sorted_by_rank (a :: l) = true ->
  sorted_by_rank l = true /\ Forall (fun b => (rank a <= rank b)%nat) l.
Proof.
  revert a. induction l as [|b l IH]; intros a H.
  - split; [reflexivity | constructor].
  - change (((rank a <=? rank b)%nat && sorted_by_rank (b :: l)) = true) in H.
    apply andb_true_iff in H. destruct H as [Hab Hs].
    apply Nat.leb_le in Hab.
    split; [exact Hs|].
    constructor; [exact Hab|].
    destruct (IH b Hs) as [_ Hb].
    eapply Forall_impl; [|exact Hb]. simpl. intros c Hc. lia.
Qed.

Lemma filter_below (r : nat) (l : list Alert) :
  Forall (fun b => (r < rank b)%nat) l -> filter (has_rank r) l = [].
Proof.
  induction 1 as [|b l Hb _ IH]; [reflexivity|].
  simpl. unfold has_rank at 1.
  destruct (Nat.eqb_spec (rank b) r); [lia | exact IH].
Qed.

Lemma filter_rank_cons (r : nat) (a : Alert) (l : list Alert) :
  filter (has_rank r) (a :: l)
  = if (rank a =? r)%nat then a :: filter (has_rank r) l else filter (has_rank r) l.
Proof. reflexivity. Qed.

(** A list that already has HIGH before MEDIUM before the rest is left
    as it is by the order the specification asks for. *)
Lemma spec_prioritize_sorted (l : list Alert) :
  sorted_by_rank l = true -> spec_prioritize l = l.
Proof.
  induction l as [|a l IH]; [reflexivity|].
  intros H. destruct (sorted_by_rank_tail a l H) as [Hs Hall].
  specialize (IH Hs). unfold spec_prioritize in *.
  pose proof (rank_le_2 a) as Ha.
  rewrite !filter_rank_cons.
  destruct (rank a) as [|[|[|n]]] eqn:Er; simpl Nat.eqb; cbv iota.
  - simpl. now rewrite IH.
  - rewrite (filter_below 0 l) in *
      by (eapply Forall_impl; [|exact Hall]; simpl; intros; lia).
    simpl in *. now rewrite IH.
  - rewrite (filter_below 0 l) in *
      by (eapply Forall_impl; [|exact Hall]; simpl; intros; lia).
    rewrite (filter_below 1 l) in *
      by (eapply Forall_impl; [|exact Hall]; simpl; intros; lia).
    simpl in *. now rewrite IH.
  - lia.
Qed.

(** C2, as stated, fails: for the alerts LOW A, HIGH B, MEDIUM C, HIGH D
    the boxes come out as A, B, C, D, the order of arrival, and not in
    the order B, D, C, A that a stable sort by priority gives. *)
Lemma alerts_are_not_sorted :
  map box_title (alert_boxes (Some mixed_alerts)) = ["A"; "B"; "C"; "D"]
  /\ map box_title (map alert_box (spec_prioritize mixed_alerts)) = ["B"; "D"; "C"; "A"]
  /\ alert_boxes (Some mixed_alerts) <> map alert_box (spec_prioritize mixed_alerts).
Proof.
  split; [reflexivity|]. split; [reflexivity|].
  intros H. apply (f_equal (map box_title)) in H. vm_compute in H. discriminate H.
Qed.

(** C2, amended: the alert boxes are the received alerts in their order
    of arrival, one box per alert and none dropped; the priority of an
    alert only picks the colour of its box.  The order is the one HIGH
    before MEDIUM before LOW whenever the alerts arrive in that order. *)
Theorem alerts_shown_in_arrival_order (l : list Alert) :
  alert_boxes (Some l) = map alert_box l
  /\ length (alert_boxes (Some l)) = length l
  /\ (forall i a, nth_error l i = Some a ->
        nth_error (alert_boxes (Some l)) i = Some (alert_box a))
  /\ (sorted_by_rank l = true ->
        alert_boxes (Some l) = map alert_box (spec_prioritize l)).
Proof.
  assert (E : alert_boxes (Some l) = map alert_box l) by (now destruct l).
  rewrite E. split; [reflexivity|]. split; [apply length_map|]. split.
  - intros i a H. now apply map_nth_error.
  - intros H. now rewrite spec_prioritize_sorted.
Qed.

Lemma alerts_shown_in_arrival_order_witness :
  nth_error (alert_boxes (Some mixed_alerts)) 1 = Some (alert_box alert_B)
  /\ alert_boxes (Some [alert_B; alert_D; alert_C; alert_A])
     = map alert_box (spec_prioritize [alert_B; alert_D; alert_C; alert_A]).
Proof.
  split.
  - apply (proj1 (proj2 (proj2 (alerts_shown_in_arrival_order mixed_alerts))) 1%nat alert_B).
    reflexivity.
  - apply (proj2 (proj2 (proj2 (alerts_shown_in_arrival_order
                                   [alert_B; alert_D; alert_C; alert_A])))).
    reflexivity.
Defined.

End AlertFacts.

(** ** The component *)

Section DashboardFacts.
Import Js Conversion Dashboard Scenario.

Ltac break_match :=
  match goal with
  | |- context [match ?x with _ => _ end] => destruct x eqn:?
  end.

Ltac cases := cbn; repeat (break_match; cbn); try reflexivity; try congruence; auto.

Lemma store_on_click b confirmed d w : store (on_click b confirmed d w) = store w.
Proof.
  unfold store, on_click, exitTrade, select, selection_effect.
  destruct b; cases.
Qed.

Lemma store_edit fd w : store (step (Edit fd) w) = store w.
Proof. unfold store, step. cases. Qed.

Lemma selected_complete id r w :
  selectedTrader (ui (complete id r w)) = selectedTrader (ui w).
Proof.
  unfold complete, after_status, fetchSetup_ok, selection_effect.
  cases.
Qed.

Lemma store_step_other e w :
  setup_arrival e w = None -> status_arrival e w = None -> store (step e w) = store w.
Proof.
  destruct e as [| |id r|b c|fd]; intros Hs Ht.
  - unfold step. now destruct (timer w).
  - reflexivity.
  - revert Hs Ht. unfold store, step, complete, setup_arrival, status_arrival, after_status.
    destruct r; cases.
  - unfold step. destruct (offered b (ui w)); [apply store_on_click | reflexivity].
  - apply store_edit.
Qed.

Lemma step_setup_arrival e w id d :
  setup_arrival e w = Some (id, d) ->
  bullishData (ui (step e w)) = bullish_of d
  /\ bearishData (ui (step e w)) = bearish_of d
  /\ tradeStatus (ui (step e w)) = tradeStatus (ui w).
Proof.
  destruct e as [| |id' r|b c|fd]; try discriminate.
  unfold setup_arrival, step, complete.
  destruct r; try discriminate.
  destruct (lookup id' (pending w)) as [[]|]; try discriminate.
  intros H. inversion H; subst.
  unfold fetchSetup_ok, selection_effect. cbn.
  destruct (bullish_of d), (bearish_of d); cbn; auto.
Qed.

Lemma step_status_arrival e w id d :
  status_arrival e w = Some (id, d) ->
  tradeStatus (ui (step e w)) = d
  /\ bullishData (ui (step e w)) = bullishData (ui w)
  /\ bearishData (ui (step e w)) = bearishData (ui w).
Proof.
  destruct e as [| |id' r|b c|fd]; try discriminate.
  unfold status_arrival, step, complete, after_status.
  destruct r; try discriminate.
  destruct (lookup id' (pending w)) as [[|k| |]|]; try discriminate.
  intros H. inversion H; subst.
  destruct k; cbn; auto.
Qed.

Lemma arrivals_exclusive e w a :
  setup_arrival e w = Some a -> status_arrival e w = None.
Proof.
  destruct e as [| |id r|b c|fd]; try discriminate.
  unfold setup_arrival, status_arrival. destruct r; try discriminate; reflexivity.
Qed.

Lemma setups_follow_arrivals trace : forall w,
  match latest (arrivals setup_arrival trace w) with
  | Some (_, d) =>
      bullishData (ui (run trace w)) = bullish_of d
      /\ bearishData (ui (run trace w)) = bearish_of d
  | None =>
      bullishData (ui (run trace w)) = bullishData (ui w)
      /\ bearishData (ui (run trace w)) = bearishData (ui w)
  end.
Proof.
  induction trace as [|e rest IH]; intros w; [now split|].
  specialize (IH (step e w)). cbn [run arrivals].
  destruct (setup_arrival e w) as [[id d]|] eqn:Ea.
  - cbn [latest].
    destruct (latest (arrivals setup_arrival rest (step e w))) as [[j d']|]; [exact IH|].
    destruct (step_setup_arrival e w id d Ea) as (Hb & Hr & _).
    destruct IH as [IHb IHr]. now rewrite IHb, IHr.
  - destruct (latest (arrivals setup_arrival rest (step e w))) as [[j d']|]; [exact IH|].
    destruct IH as [IHb IHr]. rewrite IHb, IHr.
    destruct (status_arrival e w) as [[id d]|] eqn:Et.
    + destruct (step_status_arrival e w id d Et) as (_ & Hb & Hr). now split.
    + pose proof (store_step_other e w Ea Et) as H. unfold store in H.
      inversion H. now split.
Qed.

Lemma status_follows_arrivals trace : forall w,
  match latest (arrivals status_arrival trace w) with
  | Some (_, d) => tradeStatus (ui (run trace w)) = d
  | None => tradeStatus (ui (run trace w)) = tradeStatus (ui w)
  end.
Proof.
  induction trace as [|e rest IH]; intros w; [reflexivity|].
  specialize (IH (step e w)). cbn [run arrivals].
  destruct (status_arrival e w) as [[id d]|] eqn:Et.
  - cbn [latest].
    destruct (latest (arrivals status_arrival rest (step e w))) as [[j d']|]; [exact IH|].
    destruct (step_status_arrival e w id d Et) as (Ht & _). now rewrite IH.
  - destruct (latest (arrivals status_arrival rest (step e w))) as [[j d']|]; [exact IH|].
    rewrite IH.
    destruct (setup_arrival e w) as [[id d]|] eqn:Ea.
    + now destruct (step_setup_arrival e w id d Ea) as (_ & _ & Ht).
    + pose proof (store_step_other e w Ea Et) as H. unfold store in H.
      now inversion H.
Qed.

Lemma lookup_remove_ne (i j : nat) (l : list (nat * Pending)) :
  i <> j -> lookup i (remove j l) = lookup i l.
Proof.
  intros Hne. induction l as [|[k p] l IH]; [reflexivity|].
  cbn. destruct (Nat.eqb_spec k j) as [Ej|Ej].
  - subst k. destruct (Nat.eqb_spec j i); [congruence | reflexivity].
  - cbn. now rewrite IH.
Qed.

(** Two setup calls are in flight; the one numbered [j] is answered first,
    the one numbered [i] afterwards: the store ends with the answer to [i],
    also when [i] was dispatched before [j]. *)
Lemma late_result_replaces (w : World) (i j : nat) (di dj : Analysis) :
  i <> j ->
  lookup i (pending w) = Some InFetchSetup ->
  lookup j (pending w) = Some InFetchSetup ->
  bullishData (ui (run [Complete j (AnalysisJson dj); Complete i (AnalysisJson di)] w))
  = bullish_of di
  /\ bearishData (ui (run [Complete j (AnalysisJson dj); Complete i (AnalysisJson di)] w))
     = bearish_of di.
Proof.
  intros Hne Hi Hj.
  pose proof (setups_follow_arrivals
                [Complete j (AnalysisJson dj); Complete i (AnalysisJson di)] w) as H.
  cbn [arrivals setup_arrival] in H. rewrite Hj in H.
  assert (Hi' : lookup i (pending (step (Complete j (AnalysisJson dj)) w))
                = Some InFetchSetup).
  { unfold step, complete. rewrite Hj. cbn. now rewrite lookup_remove_ne. }
  rewrite Hi' in H. exact H.
Qed.

(** C1, as stated, fails: two polls overlap, the later one (calls 2 and
    3) is answered first, the earlier one (calls 0 and 1) afterwards.  The
    results of the earlier poll are applied and replace those of the later
    one: the store ends with the older analysis and the older trade
    status. *)
Lemma stale_result_overwrites_store :
  freshest (arrivals setup_arrival overtaking mounted) = Some (2%nat, newer)
  /\ bullishData (ui (after overtaking)) = bullish_of older
  /\ bullishData (ui (after overtaking)) <> bullish_of newer
  /\ freshest (arrivals status_arrival overtaking mounted) = Some (3%nat, Some (holding 50))
  /\ tradeStatus (ui (after overtaking)) = Some flat
  /\ tradeStatus (ui (after overtaking)) <> Some (holding 50).
Proof.
  repeat split; try reflexivity; vm_compute; discriminate.
Qed.

(** C1, amended: the component has no staleness guard.  After every
    interleaving of events the stored setups are those of the analysis that
    arrived last, and the stored trade status is the one that arrived last,
    whichever call was dispatched first; before any arrival the store is
    as it was. *)
Theorem store_follows_arrival_order (trace : list Event) (w : World) :
  match latest (arrivals setup_arrival trace w) with
  | Some (_, d) =>
      bullishData (ui (run trace w)) = bullish_of d
      /\ bearishData (ui (run trace w)) = bearish_of d
  | None =>
      bullishData (ui (run trace w)) = bullishData (ui w)
      /\ bearishData (ui (run trace w)) = bearishData (ui w)
  end
  /\ match latest (arrivals status_arrival trace w) with
     | Some (_, d) => tradeStatus (ui (run trace w)) = d
     | None => tradeStatus (ui (run trace w)) = tradeStatus (ui w)
     end.
Proof.
  split; [apply setups_follow_arrivals | apply status_follows_arrivals].
Qed.

(** *** Failed polls *)








(** *** Rejected mutations *)

(** A mutation answered with [success: false] changes no component state
    and sends nothing. *)
Lemma rejected_mutation_leaves_state id res w :
  lookup id (pending w) = Some InEnterTrade \/ lookup id (pending w) = Some InExitTrade ->
  success res = false ->
  ui (step (Complete id (MutationJson res)) w) = ui w
  /\ sent (step (Complete id (MutationJson res)) w) = sent w.
Proof.
  intros [H|H] Hs; unfold step, complete; rewrite H, Hs; now split.
Qed.

(** The exit path raises no [alert] for a refusal. *)
Lemma rejected_exit_is_dropped id res w :
  lookup id (pending w) = Some InExitTrade ->
  success res = false ->
  alerted (step (Complete id (MutationJson res)) w) = alerted w.
Proof. intros H Hs. unfold step, complete. now rewrite H, Hs. Qed.

(** The enter path reports the refusal with the backend's text. *)
Lemma rejected_entry_is_reported id res w :
  lookup id (pending w) = Some InEnterTrade ->
  success res = false ->
  alerted (step (Complete id (MutationJson res)) w)
  = (alerted w ++ [("Failed to enter trade: " ++ or_undefined (result_error res))%string])%list.
Proof. intros H Hs. unfold step, complete. now rewrite H, Hs. Qed.

(** C5 on the code: an exit that the backend refuses with the text
    "No open position" is dropped without a word.  The request was sent,
    the answer arrived, no [alert] was raised and the state is as before;
    the same refusal of an entry is reported. *)
Theorem exit_rejection_is_silent :
  sent (after close_submitted)
  = [GetAnalysis; GetTradeStatus;
     PostExitTrade {| exit_price := Fin 4001; exit_position_size := 50;
                      reason := "Manual exit" |}]
  /\ lookup 2 (pending (after close_submitted)) = Some InExitTrade
  /\ pending (after close_rejected) = []
  /\ alerted (after close_rejected) = []
  /\ ui (after close_rejected) = ui (after close_submitted)
  /\ sent (after close_rejected) = sent (after close_submitted)
  /\ alerted (after entry_rejected) = ["Failed to enter trade: No open position"].
Proof. repeat split. Qed.

(** *** The page while a trade is open *)

Lemma Button_eqb_eq (a b : Button) : Button_eqb a b = true <-> a = b.
Proof.
  destruct a, b; cbn; split; intros H; try reflexivity; try discriminate.
  - apply Nat.eqb_eq in H. now subst.
  - inversion H. apply Nat.eqb_refl.
Qed.

Lemma offered_In (b : Button) (s : State) (v : View) :
  render s = Ok v -> (offered b s = true <-> In b (buttons v)).
Proof.
  intros H. unfold offered. rewrite H. rewrite existsb_exists. split.
  - intros (x & Hx & E). apply Button_eqb_eq in E. now subst.
  - intros Hb. exists b. split; [exact Hb | now apply Button_eqb_eq].
Qed.

Lemma not_offered (b : Button) (s : State) (v : View) :
  render s = Ok v -> ~ In b (buttons v) -> offered b s = false.
Proof.
  intros H Hn. destruct (offered b s) eqn:E; [|reflexivity].
  apply (offered_In b s v H) in E. contradiction.
Qed.

(** The main page of a state whose trade status says [in_trade]. *)
Lemma render_in_trade (s : State) (ts : TradeStatus) (p : Page) :
  tradeStatus s = Some ts -> in_trade ts = true -> render s = Ok (MainPage p) ->
  setupData s = Some (shown_setup p)
  /\ selector p = false
  /\ monitoring p = Some (render_monitoring ts)
  /\ setup_plan p = None
  /\ modal p = (if showEnterTradeModal s then entryFormData s else None).
Proof.
  intros Hts Hin. unfold render, inTrade. rewrite Hts, Hin.
  destruct (loading s); [discriminate|].
  destruct (negb (String.eqb (error s) EmptyString)); [discriminate|].
  destruct (setupData s) as [d|]; [|discriminate].
  cbn. destruct (render_trade_plan d) as [prices|]; [|discriminate].
  cbn. intros H. inversion H; subst. cbn. repeat split.
Qed.

Lemma buttons_in_trade (s : State) (ts : TradeStatus) (p : Page) :
  tradeStatus s = Some ts -> in_trade ts = true -> render s = Ok (MainPage p) ->
  buttons (MainPage p)
  = (monitoring_actions ts
     ++ match modal p with Some _ => [BtnCancel; BtnConfirmEntry] | None => [] end)%list.
Proof.
  intros Hts Hin Hr.
  destruct (render_in_trade s ts p Hts Hin Hr) as (_ & Hsel & Hmon & Hplan & _).
  cbn. now rewrite Hsel, Hmon, Hplan.
Qed.

Lemma actions_add_more (ts : TradeStatus) (tail : list Button) :
  ~ In BtnAddMore tail ->
  (In BtnAddMore (monitoring_actions ts ++ tail) <-> position_size ts = 50%Z).
Proof.
  intros Ht. unfold monitoring_actions.
  destruct (Z.eqb_spec (position_size ts) 50) as [E|E];
    destruct (Z.eqb_spec (position_size ts) 100) as [E'|E']; cbn; split; auto;
    intros H; repeat (destruct H as [H|H]; try discriminate H); try contradiction.
Qed.

Lemma actions_partial_exit (ts : TradeStatus) (tail : list Button) :
  ~ In BtnPartialExit tail ->
  (In BtnPartialExit (monitoring_actions ts ++ tail) <-> position_size ts = 100%Z).
Proof.
  intros Ht. unfold monitoring_actions.
  destruct (Z.eqb_spec (position_size ts) 50) as [E|E];
    destruct (Z.eqb_spec (position_size ts) 100) as [E'|E']; cbn; split; auto;
    intros H; repeat (destruct H as [H|H]; try discriminate H); try contradiction.
Qed.

Lemma actions_close (ts : TradeStatus) (tail : list Button) :
  In BtnClose (monitoring_actions ts ++ tail).
Proof.
  unfold monitoring_actions. rewrite <- !app_assoc.
  apply in_or_app. right. apply in_or_app. right. now left.
Qed.

Lemma modal_buttons_other (m : option EntryForm) (b : Button) :
  b <> BtnCancel -> b <> BtnConfirmEntry ->
  ~ In b (match m with Some _ => [BtnCancel; BtnConfirmEntry] | None => [] end).
Proof.
  intros H1 H2. destruct m; cbn; [|tauto].
  intros [E|[E|[]]]; congruence.
Qed.

(** C3, as stated, fails: an add-more is issued at size 100.  The
    operator opens the add-more dialog while holding half a position; a
    poll then reports a full position, at which the page offers no
    add-more button; the dialog is still open and its Confirm Entry button
    sends the entry that add-more prepared. *)
Lemma open_dialog_outlives_size :
  option_map position_size (tradeStatus (ui (after (removelast stale_dialog))))
  = Some 100%Z
  /\ offered BtnAddMore (ui (after (removelast stale_dialog))) = false
  /\ offered BtnConfirmEntry (ui (after (removelast stale_dialog))) = true
  /\ sent (after stale_dialog)
     = (sent (after (removelast stale_dialog))
        ++ [PostEnterTrade (confirm_body (add_more_form buy_setup (holding 50)))])%list.
Proof.
  split; [vm_compute; reflexivity|]. split; [vm_compute; reflexivity|].
  split; vm_compute; reflexivity.
Qed.

(** C3, amended: on the main page of a state whose trade status has
    [in_trade] true, the add-more button is offered exactly when
    [position_size] is 50, the partial-exit button exactly when it is 100,
    and the close button always.  A click on close that the operator
    confirms sends one exit request for the whole current [position_size]
    when the setup has a current price, and nothing when it has none; a
    click that the operator declines sends nothing.  A click on add-more
    at another size than 50, or on partial exit at another size than 100,
    finds no button and changes nothing.  At size 50 add-more sends
    nothing either: it opens the dialog, and the entry is sent by Confirm
    Entry, which is offered with the dialog at every size. *)
Theorem monitoring_actions_guarded (s : State) (ts : TradeStatus) (p : Page) :
  tradeStatus s = Some ts -> in_trade ts = true -> render s = Ok (MainPage p) ->
  (In BtnAddMore (buttons (MainPage p)) <-> position_size ts = 50%Z)
  /\ (In BtnPartialExit (buttons (MainPage p)) <-> position_size ts = 100%Z)
  /\ In BtnClose (buttons (MainPage p))
  /\ (forall w px, ui w = s -> current_price (shown_setup p) = Some px ->
        step (Click BtnClose true) w
        = dispatch InExitTrade
            (PostExitTrade {| exit_price := px;
                              exit_position_size := position_size ts;
                              reason := "Manual exit" |}) w)
  /\ (forall w, ui w = s -> current_price (shown_setup p) = None ->
        step (Click BtnClose true) w = w)
  /\ (forall w, ui w = s -> step (Click BtnClose false) w = w)
  /\ (forall w confirmed, ui w = s -> position_size ts <> 50%Z ->
        step (Click BtnAddMore confirmed) w = w)
  /\ (forall w confirmed, ui w = s -> position_size ts <> 100%Z ->
        step (Click BtnPartialExit confirmed) w = w)
  /\ (forall w confirmed, ui w = s -> position_size ts = 50%Z ->
        step (Click BtnAddMore confirmed) w
        = with_ui (openEnterTradeModal (add_more_form (shown_setup p) ts)) w)
  /\ (forall w confirmed f, ui w = s -> modal p = Some f ->
        step (Click BtnConfirmEntry confirmed) w = enterTrade (confirm_body f) w).
Proof.
  intros Hts Hin Hr.
  pose proof (buttons_in_trade s ts p Hts Hin Hr) as Hb.
  destruct (render_in_trade s ts p Hts Hin Hr) as (Hd & _ & _ & _ & Hmodal).
  assert (Hadd : In BtnAddMore (buttons (MainPage p)) <-> position_size ts = 50%Z)
    by (rewrite Hb; apply actions_add_more, modal_buttons_other; discriminate).
  assert (Hpart : In BtnPartialExit (buttons (MainPage p)) <-> position_size ts = 100%Z)
    by (rewrite Hb; apply actions_partial_exit, modal_buttons_other; discriminate).
  assert (Hclose : In BtnClose (buttons (MainPage p)))
    by (rewrite Hb; apply actions_close).
  split; [exact Hadd|]. split; [exact Hpart|]. split; [exact Hclose|].
  split; [|split; [|split; [|split; [|split; [|split]]]]].
  - intros w px Hw Hpx. subst s. unfold step.
    rewrite (proj2 (offered_In BtnClose _ _ Hr) Hclose).
    rewrite Hd. cbn. now rewrite Hts, Hpx.
  - intros w Hw Hpx. subst s. unfold step.
    rewrite (proj2 (offered_In BtnClose _ _ Hr) Hclose).
    rewrite Hd. cbn. now rewrite Hts, Hpx.
  - intros w Hw. subst s. unfold step.
    rewrite (proj2 (offered_In BtnClose _ _ Hr) Hclose).
    rewrite Hd. cbn. rewrite Hts. unfold exitTrade.
    now destruct (current_price (shown_setup p)).
  - intros w c Hw Hne. subst s. unfold step.
    rewrite (not_offered BtnAddMore _ _ Hr); [reflexivity|].
    intros H. apply Hadd in H. contradiction.
  - intros w c Hw Hne. subst s. unfold step.
    rewrite (not_offered BtnPartialExit _ _ Hr); [reflexivity|].
    intros H. apply Hpart in H. contradiction.
  - intros w c Hw Hsz. subst s. unfold step.
    rewrite (proj2 (offered_In BtnAddMore _ _ Hr) (proj2 Hadd Hsz)).
    rewrite Hd. cbn. now rewrite Hts.
  - intros w c f Hw Hf. subst s. unfold step.
    assert (Hc : In BtnConfirmEntry (buttons (MainPage p))).
    { rewrite Hb, Hf. apply in_or_app. right. right. now left. }
    rewrite (proj2 (offered_In BtnConfirmEntry _ _ Hr) Hc).
    rewrite Hmodal in Hf. cbn.
    destruct (showEnterTradeModal (ui w)); [|discriminate]. now rewrite Hf.
Qed.

Lemma monitoring_actions_guarded_witness :
  step (Click BtnAddMore false) (after holding_full) = after holding_full
  /\ step (Click BtnClose true) (after holding_full)
     = dispatch InExitTrade
         (PostExitTrade {| exit_price := Fin 4001; exit_position_size := 100;
                           reason := "Manual exit" |}) (after holding_full).
Proof.
  pose proof (fun p H =>
                monitoring_actions_guarded (ui (after holding_full)) (holding 100) p
                  eq_refl eq_refl H) as T.
  edestruct T as (_ & _ & _ & Hclose & _ & _ & Hadd & _); [vm_compute; reflexivity|].
  split.
  - apply Hadd; [reflexivity | discriminate].
  - apply Hclose; reflexivity.
Defined.

(** *** Selection and the trade view *)

Lemma inTrade_status (s : State) :
  inTrade s = true -> exists ts, tradeStatus s = Some ts /\ in_trade ts = true.
Proof.
  unfold inTrade. destruct (tradeStatus s) as [ts|]; [|discriminate].
  intros H. now exists ts.
Qed.

Lemma actions_other (ts : TradeStatus) (b : Button) :
  b <> BtnAddMore -> b <> BtnPartialExit -> b <> BtnClose ->
  ~ In b (monitoring_actions ts).
Proof.
  intros H1 H2 H3. unfold monitoring_actions.
  destruct (position_size ts =? 50)%Z, (position_size ts =? 100)%Z; cbn;
    intros H; repeat (destruct H as [H|H]; try congruence); contradiction.
Qed.

Lemma selector_hidden_in_trade (s : State) (b : Button) :
  b = BtnBullish \/ b = BtnBearish -> inTrade s = true -> offered b s = false.
Proof.
  intros Hb Hin. destruct (inTrade_status s Hin) as (ts & Hts & Ht).
  destruct (render s) as [[| msg | p]|] eqn:Hr.
  - apply (not_offered b s _ Hr). cbn. tauto.
  - apply (not_offered b s _ Hr). cbn. intros [E|[]]. destruct Hb; congruence.
  - apply (not_offered b s _ Hr).
    rewrite (buttons_in_trade s ts p Hts Ht Hr). intros H.
    apply in_app_or in H. destruct H as [H|H].
    + revert H. apply actions_other; destruct Hb; congruence.
    + revert H. apply modal_buttons_other; destruct Hb; congruence.
  - unfold offered. now rewrite Hr.
Qed.

Lemma selected_tick w : selectedTrader (ui (step Tick w)) = selectedTrader (ui w).
Proof. unfold step. now destruct (timer w). Qed.

(** C9, as stated, fails: the operator holds half a position, the trade
    status says [in_trade], and the next setup poll is answered HTTP 500.
    The page is the failure screen; the trade-monitoring section is not
    shown. *)
Lemma monitoring_hidden_by_failed_poll :
  inTrade (ui (after in_trade_then_500)) = true
  /\ render (ui (after in_trade_then_500)) = Ok (FailedScreen "HTTP 500")
  /\ (forall p, render (ui (after in_trade_then_500)) <> Ok (MainPage p)).
Proof.
  split; [reflexivity|]. split; [reflexivity|].
  intros p. vm_compute. discriminate.
Qed.

(** C9, amended: the selected trader starts as bullish and no response to
    a poll (nor any other response, nor a tick) changes it.  Whenever the
    trade status says [in_trade], the bullish and bearish selector buttons
    are offered by no view; and whenever the main page is rendered in such
    a state (loading is over, no error is recorded, a setup is selected),
    it shows the trade-monitoring section and neither the selector nor the
    setup plan. *)
Theorem selection_and_trade_view :
  selectedTrader (ui mounted) = bullish
  /\ (forall id r w,
        selectedTrader (ui (step (Complete id r) w)) = selectedTrader (ui w))
  /\ (forall w, selectedTrader (ui (step Tick w)) = selectedTrader (ui w))
  /\ (forall s, inTrade s = true ->
        offered BtnBullish s = false /\ offered BtnBearish s = false)
  /\ (forall s p, inTrade s = true -> render s = Ok (MainPage p) ->
        selector p = false
        /\ setup_plan p = None
        /\ exists ts, tradeStatus s = Some ts
                      /\ monitoring p = Some (render_monitoring ts)).
Proof.
  split; [reflexivity|]. split; [exact selected_complete|]. split; [exact selected_tick|].
  split.
  - intros s H. split; apply selector_hidden_in_trade; auto.
  - intros s p Hin Hr. destruct (inTrade_status s Hin) as (ts & Hts & Ht).
    destruct (render_in_trade s ts p Hts Ht Hr) as (_ & Hsel & Hmon & Hplan & _).
    split; [exact Hsel|]. split; [exact Hplan|]. now exists ts.
Qed.

Lemma selection_and_trade_view_witness :
  offered BtnBullish (ui (after holding_half)) = false
  /\ exists p, render (ui (after holding_half)) = Ok (MainPage p)
               /\ monitoring p = Some (render_monitoring (holding 50)).
Proof.
  destruct selection_and_trade_view as (_ & _ & _ & Hoff & Hpage).
  split.
  - apply (Hoff (ui (after holding_half))). reflexivity.
  - eexists. split; [vm_compute; reflexivity|].
    edestruct (Hpage (ui (after holding_half))) as (_ & _ & ts & Hts & Hmon);
      [reflexivity | vm_compute; reflexivity |].
    rewrite Hmon. vm_compute in Hts. inversion Hts. reflexivity.
Defined.

(** *** Entry requests *)

Lemma sent_step e w :
  exists l, sent (step e w) = (sent w ++ l)%list /\ Forall is_long l.
Proof.
  assert (none : exists l, sent w = (sent w ++ l)%list /\ Forall is_long l)
    by (exists []; split; [now rewrite app_nil_r | constructor]).
  assert (one : forall rq, is_long rq ->
            exists l, (sent w ++ [rq])%list = (sent w ++ l)%list /\ Forall is_long l)
    by (intros rq Hrq; exists [rq]; split; [reflexivity | now constructor]).
  destruct e as [| |id r|b c|fd]; unfold step.
  - destruct (timer w); [|exact none]. cbn.
    exists [GetAnalysis; GetTradeStatus]. split; [now rewrite <- app_assoc|].
    repeat constructor.
  - exact none.
  - unfold complete, after_status.
    destruct (lookup id (pending w)) as [[|k| |]|]; [| | | |exact none];
      destruct r; try exact none; cbn;
      repeat (break_match; cbn); try exact none; try (apply one; exact I).
  - destruct (offered b (ui w)); [|exact none].
    unfold on_click, exitTrade.
    destruct b; cbn; repeat (break_match; cbn); try exact none;
      try (apply one; exact I); apply one; reflexivity.
  - repeat (break_match; cbn); exact none.
Qed.

Lemma long_run trace : forall w,
  Forall is_long (sent w) -> Forall is_long (sent (run trace w)).
Proof.
  induction trace as [|e rest IH]; intros w H; [exact H|].
  cbn [run]. apply IH.
  destruct (sent_step e w) as (l & -> & Hl). apply Forall_app. now split.
Qed.

(** C10: every enter-trade request the component ever sends carries
    [trade_direction] "LONG", whatever the operator selected before: after
    any sequence of events, any request in the log of sent requests that is
    an enter-trade one has that direction. *)
Theorem every_entry_request_is_long (trace : list Event) (b : EnterBody) :
  In (PostEnterTrade b) (sent (after trace)) -> trade_direction b = "LONG".
Proof.
  intros H. unfold after in H.
  assert (Hall : Forall is_long (sent (run trace mounted)))
    by (apply long_run; repeat constructor).
  rewrite Forall_forall in Hall. exact (Hall _ H).
Qed.

Lemma every_entry_request_is_long_witness :
  selectedTrader (ui (after bearish_entry)) = bearish
  /\ exists b, last (sent (after bearish_entry)) GetAnalysis = PostEnterTrade b
               /\ trade_direction b = "LONG".
Proof.
  split; [reflexivity|].
  eexists. split; [vm_compute; reflexivity|].
  apply (every_entry_request_is_long bearish_entry).
  vm_compute. right. right. left. reflexivity.
Defined.

(** *** Missing fields *)

(** C8 on the code: three accesses that throw.  A liquidity grab without
    a description makes [getLiquidityGrabLevel] throw, and with it the
    conversion of "$2.00" and the whole render of a page whose trade plan
    is ready; an early entry without a stop loss makes the click handler
    of its button throw; a signal without [signal_strength] makes the
    strength badge of GoldPage throw. *)
Theorem missing_fields_throw :
  getLiquidityGrabLevel grab_without_description = TypeError
  /\ convertPipToPrice grab_without_description "$2.00" = TypeError
  /\ render (ui (after [Complete 0 (AnalysisJson analysis_without_description)]))
     = TypeError
  /\ early_entry_form buy_setup step_without_stop_loss = TypeError
  /\ GoldPage.strength_badge
       {| GoldPage.signal := "BUY"; GoldPage.signal_strength := None |} = TypeError.
Proof. repeat split. Qed.

End DashboardFacts.

(** ** Further properties of the conversion engine *)

Section ConversionExtras.
Import Js Conversion Scenario.

Lemma find_first_grab (before rest : list Confluence) (lg : Confluence) :
  (forall c, In c before -> is_liquidity_grab c = false) ->
  is_liquidity_grab lg = true ->
  find is_liquidity_grab (before ++ lg :: rest)%list = Some lg.
Proof.
  intros Hb Hlg. induction before as [|c before IH]; cbn.
  - now rewrite Hlg.
  - rewrite (Hb c (or_introl eq_refl)). apply IH. intros c' Hc'. apply Hb. now right.
Qed.

(** The anchor is read from the first LIQUIDITY_GRAB entry of the list and
    from nothing else: what precedes it (entries of other types) and
    whatever follows it, later liquidity grabs included, do not matter. *)
Theorem first_grab_decides (before rest : list Confluence) (lg : Confluence) :
  (forall c, In c before -> is_liquidity_grab c = false) ->
  is_liquidity_grab lg = true ->
  getLiquidityGrabLevel (Some (before ++ lg :: rest)%list)
  = getLiquidityGrabLevel (Some [lg]).
Proof.
  intros Hb Hlg. unfold getLiquidityGrabLevel.
  rewrite (find_first_grab before rest lg Hb Hlg). cbn. now rewrite Hlg.
Qed.

Lemma first_grab_decides_witness :
  getLiquidityGrabLevel
    (Some ([ {| type := Some "FVG"; score := Some 2%Z; description := Some "gap at $3990" |} ]
           ++ {| type := Some "LIQUIDITY_GRAB"; score := Some 3%Z;
                 description := Some "swept the low" |}
           :: [ {| type := Some "LIQUIDITY_GRAB"; score := Some 3%Z;
                   description := Some "Liquidity Grab at $4000.00" |} ])%list)
  = Ok None.
Proof.
  rewrite first_grab_decides; [reflexivity | | reflexivity].
  intros c [<-|[]]. reflexivity.
Defined.



End ConversionExtras.

(** ** Score, progress and exit displays *)

Section DisplayFacts.
Import Js Dashboard Display.

Local Open Scope Q_scope.

Ltac bools :=
  repeat match goal with
         | H : Qle_bool _ _ = true |- _ => apply Qle_bool_iff in H
         | H : Qle_bool _ _ = false |- _ => apply Qle_bool_false in H
         end.

(** For every score exactly one of the four star badges is shown: the
    four separate conditions never overlap and leave no gap.  The badge has
    at least one star exactly for scores of 5 and more, and from 5 on its
    colour is the colour of the points text; below 5 the warning sign is
    gray-500 next to points in gray-400. *)
Theorem one_star_badge (total_score : Q) :
  exists b, star_badges total_score = [b]
            /\ (5 <= total_score <-> (1 <= stars b)%nat)
            /\ (5 <= total_score -> star_class b = points_class total_score)
            /\ (total_score < 5 ->
                star_class b = "text-gray-500"
                /\ points_class total_score = "text-gray-400").
Proof.
  unfold star_badges, points_class, ge, lt.
  destruct (Qle_bool 10 total_score) eqn:H10;
    destruct (Qle_bool 7 total_score) eqn:H7;
    destruct (Qle_bool 5 total_score) eqn:H5; bools; cbn;
    try (exfalso; lra);
    (eexists; split; [reflexivity|]; cbn; repeat split; intros; try lia; try lra;
     try reflexivity).
Qed.

Lemma one_star_badge_witness :
  exists b, star_badges 6 = [b] /\ star_class b = "text-green-400".
Proof.
  destruct (one_star_badge 6) as (b & Hb & _ & Hc & _).
  exists b. split; [exact Hb|]. rewrite Hc; [reflexivity | discriminate].
Defined.

(** What rounding makes of a bound that is a double itself. *)
Lemma round64_above (c q : Q) :
  round64 c = Fin c -> c <= q -> le (Fin c) (round64 q) = true.
Proof. intros Hc H. rewrite <- Hc. now apply round64_mono. Qed.

Lemma round64_below (c q : Q) :
  round64 c = Fin c -> q <= c -> le (round64 q) (Fin c) = true.
Proof. intros Hc H. rewrite <- Hc. now apply round64_mono. Qed.

Lemma round64_not_NaN (q : Q) : isNaN (round64 q) = false.
Proof.
  unfold round64. destruct (q ?= 0); [reflexivity | |].
  - now destruct (Qle_bool (pow2 1024) (nearest (- q))).
  - now destruct (Qle_bool (pow2 1024) (nearest q)).
Qed.

(** A double that compares equal to 100 is 100. *)
Lemma round64_is_100 (q v : Q) : round64 q = Fin v -> v == 100 -> v = 100.
Proof.
  intros H E.
  assert (H1 : round64 100 = Fin v) by (apply (round64_fixed q v 100 H); now symmetry).
  assert (H2 : round64 100 = Fin 100) by (vm_compute; reflexivity).
  congruence.
Qed.

Lemma scaled_not_NaN (x : num) (k m : positive) :
  isNaN x = false -> isNaN (mul (div x k) m) = false.
Proof.
  intros H. destruct x as [| | |s]; try discriminate; try reflexivity.
  unfold div. pose proof (round64_not_NaN (s / inject_Z (Z.pos k))) as H1.
  destruct (round64 (s / inject_Z (Z.pos k))) as [| | |v]; try discriminate;
    try reflexivity.
  unfold mul. apply round64_not_NaN.
Qed.

Lemma min_le_r (x : num) (c : Q) :
  isNaN x = false -> le (Js.min x (Fin c)) (Fin c) = true.
Proof.
  intros H. destruct x as [| | |v]; try discriminate; try reflexivity.
  - unfold Js.min, le. apply Qle_bool_iff, Qle_refl.
  - unfold Js.min. unfold le at 2. destruct (Qle_bool v c) eqn:Hv.
    + exact Hv.
    + unfold le. apply Qle_bool_iff, Qle_refl.
Qed.

(** The entry-threshold bar is capped at 100 percent and is full from 12
    points on; it is not floored: a score of zero or less gives a width of
    zero or less, -25 percent for a score of -3. *)
Theorem bar_width_capped (total_score : num) :
  isNaN total_score = false ->
  le (bar_width total_score) (Fin 100) = true
  /\ (le (Fin 12) total_score = true -> bar_width total_score = Fin 100)
  /\ (le total_score (Fin 0) = true -> le (bar_width total_score) (Fin 0) = true)
  /\ bar_width (Fin (-3)) = Fin (-25).
Proof.
  intros Hn. split; [|split; [|split]]; [| | |vm_compute; reflexivity].
  - unfold bar_width. apply min_le_r. now apply scaled_not_NaN.
  - intros H12. unfold bar_width.
    destruct total_score as [| | |s]; try discriminate; [reflexivity|].
    unfold le in H12. apply Qle_bool_iff in H12.
    assert (H1 : le (Fin 1) (round64 (s / inject_Z 12)) = true).
    { apply round64_above; [vm_compute; reflexivity|].
      apply Qle_shift_div_l; [reflexivity|]. exact H12. }
    cbn [div]. destruct (round64 (s / inject_Z 12)) as [| | |v1] eqn:E1;
      try discriminate; [reflexivity|].
    unfold le in H1. apply Qle_bool_iff in H1.
    assert (H2 : le (Fin 100) (round64 (v1 * inject_Z 100)) = true).
    { apply round64_above; [vm_compute; reflexivity|].
      change (inject_Z 100) with 100. lra. }
    cbn [mul]. destruct (round64 (v1 * inject_Z 100)) as [| | |v2] eqn:E2;
      try discriminate; [reflexivity|].
    unfold le in H2. apply Qle_bool_iff in H2.
    unfold Js.min, le. destruct (Qle_bool v2 100) eqn:Hc; [|reflexivity].
    apply Qle_bool_iff in Hc. f_equal.
    apply (round64_is_100 _ _ E2). now apply Qle_antisym.
  - intros H0. unfold bar_width.
    destruct total_score as [| | |s]; try discriminate; [reflexivity|].
    unfold le in H0. apply Qle_bool_iff in H0.
    assert (H1 : le (round64 (s / inject_Z 12)) (Fin 0) = true).
    { apply round64_below; [vm_compute; reflexivity|].
      apply Qle_shift_div_r; [reflexivity|]. lra. }
    cbn [div]. destruct (round64 (s / inject_Z 12)) as [| | |v1] eqn:E1;
      try discriminate; [reflexivity|].
    unfold le in H1. apply Qle_bool_iff in H1.
    assert (H2 : le (round64 (v1 * inject_Z 100)) (Fin 0) = true).
    { apply round64_below; [vm_compute; reflexivity|].
      change (inject_Z 100) with 100. lra. }
    cbn [mul]. destruct (round64 (v1 * inject_Z 100)) as [| | |v2] eqn:E2;
      try discriminate; [reflexivity|].
    unfold le in H2. apply Qle_bool_iff in H2.
    unfold Js.min. unfold le at 2.
    destruct (Qle_bool v2 100) eqn:Hc.
    + unfold le. now apply Qle_bool_iff.
    + apply Qle_bool_false in Hc. lra.
Qed.

Lemma bar_width_capped_witness :
  bar_width (Fin 15) = Fin 100 /\ le (bar_width (Fin (-3))) (Fin 0) = true.
Proof.
  split.
  - apply (proj1 (proj2 (bar_width_capped (Fin 15) eq_refl))). reflexivity.
  - apply (proj1 (proj2 (proj2 (bar_width_capped (Fin (-3)) eq_refl)))). reflexivity.
Defined.



(** The candle bar is not clamped.  For a time remaining between 0 and 60
    minutes its width lies between 0 and 100 percent; 75 minutes give -25
    percent, -60 minutes give 200 percent, and a candle without
    [time_remaining] gives NaN. *)
Theorem candle_width_in_range (time_remaining : Q) :
  0 <= time_remaining <= 60 ->
  (exists w, candle_width (Some (Fin time_remaining)) = Fin w /\ 0 <= w <= 100)
  /\ candle_width (Some (Fin 75)) = Fin (-25)
  /\ candle_width (Some (Fin (-60))) = Fin 200
  /\ candle_width None = NaN.
Proof.
  intros [H0 H60]. split; [|repeat split; vm_compute; reflexivity].
  unfold candle_width, of_field, sub, neg, add.
  destruct (round64_between 0 60 (60 + - time_remaining)) as (v1 & E1 & [L1 U1]);
    [vm_compute; reflexivity | vm_compute; reflexivity | split; lra |].
  rewrite E1. cbn [div].
  destruct (round64_between 0 1 (v1 / inject_Z 60)) as (v2 & E2 & [L2 U2]);
    [vm_compute; reflexivity | vm_compute; reflexivity | |].
  { change (inject_Z 60) with 60.
    split; [apply Qle_shift_div_l | apply Qle_shift_div_r]; lra. }
  rewrite E2. cbn [mul].
  destruct (round64_between 0 100 (v2 * inject_Z 100)) as (v3 & E3 & [L3 U3]);
    [vm_compute; reflexivity | vm_compute; reflexivity | |].
  { change (inject_Z 100) with 100. split; lra. }
  exists v3. now split.
Qed.

Lemma candle_width_in_range_witness :
  exists w, candle_width (Some (Fin 45)) = Fin w /\ 0 <= w <= 100.
Proof.
  apply (proj1 (candle_width_in_range 45 ltac:(split; discriminate))).
Defined.

(** The close button names its quantity "ALL" exactly when the view also
    offers the partial exit, that is at size 100; at every other size it
    reads "50%", while the exit it submits is for the whole
    [position_size]. *)
Theorem close_label_matches_actions (ts : TradeStatus) :
  (close_label ts = "ALL" <-> In BtnPartialExit (monitoring_actions ts))
  /\ (close_label ts = "50%" <-> position_size ts <> 100%Z).
Proof.
  unfold close_label, monitoring_actions.
  destruct (Z.eqb_spec (position_size ts) 100) as [E|E];
    destruct (Z.eqb_spec (position_size ts) 50) as [E'|E']; cbn;
    repeat split; intros; try reflexivity; try discriminate; try congruence; auto;
    repeat match goal with H : _ \/ _ |- _ => destruct H end;
    try discriminate; try contradiction.
Qed.

Lemma close_label_matches_actions_witness :
  close_label (Scenario.holding 100) = "ALL"
  /\ close_label (Scenario.holding 75) = "50%".
Proof.
  split.
  - apply (proj2 (proj1 (close_label_matches_actions (Scenario.holding 100)))).
    left. reflexivity.
  - apply (proj2 (proj2 (close_label_matches_actions (Scenario.holding 75)))).
    discriminate.
Defined.

End DisplayFacts.

(** ** Further properties of the component *)

Section DashboardExtras.
Import Js Conversion Dashboard Scenario Reachable.

Ltac break_match' :=
  match goal with
  | |- context [match ?x with _ => _ end] => destruct x eqn:?
  end.

(** *** Polling *)

Lemma ticks_poll (n : nat) : forall w,
  timer w = true ->
  sent (run (repeat Tick n) w) = (sent w ++ polls n)%list
  /\ length (pending (run (repeat Tick n) w)) = (length (pending w) + 2 * n)%nat
  /\ ui (run (repeat Tick n) w) = ui w.
Proof.
  induction n as [|n IH]; intros w Ht.
  - cbn. rewrite app_nil_r. repeat split. lia.
  - cbn [repeat run]. unfold step at 1 2 3. rewrite Ht.
    destruct (IH (fetchTradeStatus false (fetchSetup w)) Ht) as (Hs & Hp & Hu).
    rewrite Hs, Hp, Hu. unfold polls. cbn. rewrite !length_app. cbn.
    rewrite <- !app_assoc. cbn. repeat split. lia.
Qed.

(** Ticks are never skipped: while the interval runs, [n] ticks send [n]
    pairs of requests and put [2n] more calls in flight, however many calls
    are still unanswered; the component state is not touched. *)
Theorem polls_never_skip (n : nat) (w : World) :
  timer w = true ->
  sent (run (repeat Tick n) w) = (sent w ++ polls n)%list
  /\ length (pending (run (repeat Tick n) w)) = (length (pending w) + 2 * n)%nat
  /\ ui (run (repeat Tick n) w) = ui w.
Proof. apply ticks_poll. Qed.

Lemma polls_never_skip_witness :
  length (pending (run (repeat Tick 3) mounted)) = 8%nat
  /\ sent (run (repeat Tick 3) mounted)
     = [GetAnalysis; GetTradeStatus; GetAnalysis; GetTradeStatus;
        GetAnalysis; GetTradeStatus; GetAnalysis; GetTradeStatus].
Proof.
  destruct (polls_never_skip 3 mounted eq_refl) as (Hs & Hp & _).
  split; [rewrite Hp; reflexivity | rewrite Hs; reflexivity].
Defined.

Lemma timer_step (e : Event) (w : World) :
  timer (step e w) = match e with Unmount => false | _ => timer w end.
Proof.
  destruct e as [| |id r|b c|fd]; unfold step.
  - destruct (timer w) eqn:E; cbn; auto.
  - reflexivity.
  - unfold complete, after_status. repeat break_match'; reflexivity.
  - destruct (offered b (ui w)); [|reflexivity].
    unfold on_click, exitTrade. repeat break_match'; reflexivity.
  - destruct (offered BtnConfirmEntry (ui w)); [|reflexivity].
    now destruct (entryFormData (ui w)).
Qed.

Lemma timer_off (trace : list Event) : forall w,
  timer w = false -> timer (run trace w) = false.
Proof.
  induction trace as [|e rest IH]; intros w H; [exact H|].
  cbn [run]. apply IH. rewrite timer_step. now destruct e.
Qed.

Lemma ticks_off (n : nat) (w : World) :
  timer w = false -> run (repeat Tick n) w = w.
Proof.
  intros H. induction n as [|n IH]; [reflexivity|].
  cbn [repeat run]. unfold step at 1. now rewrite H.
Qed.

(** Leaving the page clears the interval and nothing else.  No later event
    starts it again and ticks do nothing from then on; but a response to a
    call that was in flight is applied exactly as it would have been
    before: clearing the interval commutes with every response. *)
Theorem unmount_stops_ticks_only (w : World) :
  (forall trace, timer (run trace (step Unmount w)) = false)
  /\ (forall n, run (repeat Tick n) (step Unmount w) = step Unmount w)
  /\ (forall id r,
        step (Complete id r) (step Unmount w) = step Unmount (step (Complete id r) w)).
Proof.
  split; [|split].
  - intros trace. now apply timer_off.
  - intros n. now apply ticks_off.
  - intros id r. unfold step, complete, after_status. cbn.
    repeat break_match'; reflexivity.
Qed.

(** *** Loading *)

Lemma loading_step (e : Event) (w : World) :
  loading (ui w) = false -> loading (ui (step e w)) = false.
Proof.
  intros H. destruct e as [| |id r|b c|fd]; unfold step.
  - now destruct (timer w).
  - exact H.
  - unfold complete, after_status, fetchSetup_ok, selection_effect.
    repeat (break_match'; cbn); auto.
  - destruct (offered b (ui w)); [|exact H].
    unfold on_click, exitTrade, select, selection_effect.
    destruct b; cbn; repeat (break_match'; cbn); auto.
  - destruct (offered BtnConfirmEntry (ui w)); [|exact H].
    now destruct (entryFormData (ui w)).
Qed.

(** The loading screen belongs to the time before the first answer to
    [fetchSetup]: every answer to such a call, good or bad, ends loading,
    and no event ever brings it back. *)
Theorem loading_never_returns :
  (forall w id r, lookup id (pending w) = Some InFetchSetup ->
     answers_setup r = true -> loading (ui (step (Complete id r) w)) = false)
  /\ (forall trace w, loading (ui w) = false -> loading (ui (run trace w)) = false).
Proof.
  split.
  - intros w id r Hl Hr. unfold step, complete. rewrite Hl.
    destruct r; try discriminate Hr; reflexivity.
  - induction trace as [|e rest IH]; intros w H; [exact H|].
    cbn [run]. apply IH. now apply loading_step.
Qed.

Lemma loading_never_returns_witness :
  loading (ui (run (tl three_good_polls_then_500)
                 (step (Complete 0 (AnalysisJson older)) mounted))) = false.
Proof.
  apply (proj2 loading_never_returns
           (tl three_good_polls_then_500)
           (step (Complete 0 (AnalysisJson older)) mounted)).
  apply (proj1 loading_never_returns mounted 0%nat (AnalysisJson older));
    reflexivity.
Defined.

(** *** Selection *)

Lemma on_click_keeps_selection b c d w :
  b <> BtnBullish -> b <> BtnBearish ->
  setupData (ui (on_click b c d w)) = setupData (ui w)
  /\ bullishData (ui (on_click b c d w)) = bullishData (ui w)
  /\ bearishData (ui (on_click b c d w)) = bearishData (ui w)
  /\ selectedTrader (ui (on_click b c d w)) = selectedTrader (ui w).
Proof.
  intros H1 H2. unfold on_click, exitTrade.
  destruct b; try contradiction; cbn; repeat (break_match'; cbn); auto.
Qed.

Lemma consistent_step (e : Event) (w : World) :
  selection_consistent (ui w) -> selection_consistent (ui (step e w)).
Proof.
  intros H. destruct e as [| |id r|b c|fd]; unfold step.
  - now destruct (timer w).
  - exact H.
  - unfold complete, after_status.
    destruct (lookup id (pending w)) as [[|k| |]|]; [| | | |exact H];
      destruct r; try exact H;
      try solve [cbn; exact H];
      try solve [destruct k; cbn; exact H];
      try solve [match goal with
                 | |- context [success ?x] => destruct (success x)
                 end; cbn; exact H].
    unfold selection_consistent, fetchSetup_ok, selection_effect. cbn.
    destruct (bullish_of d), (bearish_of d); cbn; auto.
  - destruct (offered b (ui w)); [|exact H].
    assert (Hb : b = BtnBullish \/ b = BtnBearish
                 \/ (b <> BtnBullish /\ b <> BtnBearish))
      by (destruct b; auto; right; right; split; discriminate).
    destruct Hb as [->|[->|[H1 H2]]].
    3: { destruct (on_click_keeps_selection b c (setupData (ui w)) w H1 H2)
           as (E1 & E2 & E3 & E4).
         unfold selection_consistent. rewrite E1, E2, E3, E4. exact H. }
    + unfold selection_consistent. cbn. unfold select, selection_effect. cbn.
      destruct (bullishData (ui w)) eqn:Eb, (bearishData (ui w)) eqn:Er;
        cbn; rewrite ?Eb, ?Er; cbn; rewrite ?Eb, ?Er; auto.
    + unfold selection_consistent. cbn. unfold select, selection_effect. cbn.
      destruct (bullishData (ui w)) eqn:Eb, (bearishData (ui w)) eqn:Er;
        cbn; rewrite ?Eb, ?Er; cbn; rewrite ?Eb, ?Er; auto.
  - destruct (offered BtnConfirmEntry (ui w)); [|exact H].
    now destruct (entryFormData (ui w)).
Qed.

(** In every state the component can reach, when both the bullish and the
    bearish setup are present, the setup shown in detail is the one of the
    selected trader: polls and clicks keep the two in step. *)
Theorem details_follow_selection (trace : list Event) (b r : Setup) :
  bullishData (ui (after trace)) = Some b ->
  bearishData (ui (after trace)) = Some r ->
  setupData (ui (after trace))
  = Some (match selectedTrader (ui (after trace)) with bullish => b | bearish => r end).
Proof.
  assert (Hinv : forall trace w, selection_consistent (ui w) ->
                                 selection_consistent (ui (run trace w))).
  { clear trace. induction trace as [|e rest IH]; intros w H; [exact H|].
    cbn [run]. apply IH. now apply consistent_step. }
  intros Hb Hr.
  pose proof (Hinv trace mounted I) as H.
  unfold selection_consistent in H. fold (after trace) in H.
  now rewrite Hb, Hr in H.
Qed.

Lemma details_follow_selection_witness :
  setupData (ui (after bearish_entry)) = Some sell_setup.
Proof.
  apply (details_follow_selection bearish_entry buy_setup sell_setup); reflexivity.
Defined.

(** *** Failed and successful polls *)

(** A failed trade-status poll is swallowed: whatever the failure, the
    component state (the error string included), the alerts and the log of
    requests stay as they are, so the page keeps showing the last known
    trade status with no sign that it is stale. *)
Theorem trade_status_failure_is_silent (w : World) (id : nat) (r : Response) :
  lookup id (pending w) = Some (InFetchTradeStatus false) ->
  is_failure r = true ->
  ui (step (Complete id r) w) = ui w
  /\ alerted (step (Complete id r) w) = alerted w
  /\ sent (step (Complete id r) w) = sent w
  /\ render (ui (step (Complete id r) w)) = render (ui w).
Proof.
  intros H Hr. unfold step, complete. rewrite H.
  destruct r; try discriminate Hr; repeat split.
Qed.

Lemma trade_status_failure_is_silent_witness :
  ui (step (Complete 1 (HttpError 503)) mounted) = ui mounted
  /\ alerted (step (Complete 1 (HttpError 503)) mounted) = [].
Proof.
  destruct (trade_status_failure_is_silent mounted 1 (HttpError 503) eq_refl eq_refl)
    as (Hu & Ha & _).
  split; [exact Hu | exact Ha].
Defined.

(** A good poll that brings both setups clears the error, ends loading and
    puts the selected trader's new setup on display: whatever failure came
    before, the page is neither the loading nor the failure screen any
    more. *)
Theorem successful_poll_recovers (w : World) (id : nat) (d : Analysis) (b r : Setup) :
  lookup id (pending w) = Some InFetchSetup ->
  bullish_of d = Some b -> bearish_of d = Some r ->
  error (ui (step (Complete id (AnalysisJson d)) w)) = EmptyString
  /\ loading (ui (step (Complete id (AnalysisJson d)) w)) = false
  /\ setupData (ui (step (Complete id (AnalysisJson d)) w))
     = Some (match selectedTrader (ui w) with bullish => b | bearish => r end)
  /\ render (ui (step (Complete id (AnalysisJson d)) w)) <> Ok LoadingScreen
  /\ (forall msg,
        render (ui (step (Complete id (AnalysisJson d)) w)) <> Ok (FailedScreen msg)).
Proof.
  intros H Hb Hr.
  assert (E : ui (step (Complete id (AnalysisJson d)) w) = fetchSetup_ok d (ui w))
    by (unfold step, complete; now rewrite H).
  rewrite E. unfold fetchSetup_ok, selection_effect. cbn. rewrite Hb, Hr. cbn.
  split; [reflexivity|]. split; [reflexivity|]. split; [reflexivity|].
  unfold render, bind. cbn.
  split; [|intros msg];
    destruct (selectedTrader (ui w)); destruct (inTrade _); cbn;
    repeat match goal with
           | |- context [render_score_card ?x] => destruct (render_score_card x); cbn
           | |- context [render_setup_plan ?x] => destruct (render_setup_plan x); cbn
           | |- context [render_trade_plan ?x] => destruct (render_trade_plan x); cbn
           end;
    discriminate.
Qed.

Lemma successful_poll_recovers_witness :
  error (ui (step (Complete 8 (AnalysisJson newer))
               (step Tick (after three_good_polls_then_500)))) = EmptyString
  /\ setupData (ui (step (Complete 8 (AnalysisJson newer))
                      (step Tick (after three_good_polls_then_500))))
     = bullish_of newer.
Proof.
  destruct (successful_poll_recovers
              (step Tick (after three_good_polls_then_500)) 8 newer
              (a_setup "READY" 4003) (a_setup "SCANNING" 4003)
              eq_refl eq_refl eq_refl) as (He & _ & Hd & _).
  split; [exact He | exact Hd].
Defined.

(** *** Mutations that succeed *)

Lemma fresh_step (e : Event) (w : World) : fresh w -> fresh (step e w).
Proof.
  unfold fresh.
  assert (Hrem : forall id l n,
            Forall (fun ip : nat * Pending => (fst ip < n)%nat) l ->
            Forall (fun ip => (fst ip < n)%nat) (remove id l)).
  { intros id l n H0. induction H0 as [|[i p] l Hi Hl IH]; [constructor|].
    cbn. destruct (i =? id)%nat; [assumption | now constructor]. }
  intros H. pose proof (fun id => Hrem id _ _ H) as H'.
  assert (Hfin : forall (l : list (nat * Pending)) (n m : nat),
            Forall (fun ip => (fst ip < n)%nat) l -> (n <= m)%nat ->
            Forall (fun ip => (fst ip < m)%nat) l).
  { intros l n m Hl Hnm. eapply Forall_impl; [|exact Hl]. cbn. intros; lia. }
  destruct e as [| |id r|b c|fd]; unfold step.
  - destruct (timer w); [|exact H]. cbn.
    repeat (apply Forall_app; split);
      try (eapply Hfin; [exact H | lia]); repeat constructor; cbn; lia.
  - exact H.
  - unfold complete, after_status.
    destruct (lookup id (pending w)) as [[|k| |]|]; [| | | |exact H];
      destruct r; try exact H;
      try (destruct k);
      try match goal with
          | |- context [success ?x] => destruct (success x)
          end;
      cbn; try exact (H' id);
      repeat (apply Forall_app; split);
      try (eapply Hfin; [exact (H' id) | lia]); repeat constructor; cbn; lia.
  - destruct (offered b (ui w)); [|exact H].
    unfold on_click, exitTrade.
    destruct b; repeat break_match'; cbn; try exact H;
      repeat (apply Forall_app; split);
      try (eapply Hfin; [exact H | lia]); repeat constructor; cbn; lia.
  - destruct (offered BtnConfirmEntry (ui w)); [|exact H].
    now destruct (entryFormData (ui w)).
Qed.

Lemma fresh_after (trace : list Event) : fresh (after trace).
Proof.
  assert (H : forall w, fresh w -> fresh (run trace w)).
  { induction trace as [|e rest IH]; intros w Hw; [exact Hw|].
    cbn [run]. apply IH. now apply fresh_step. }
  apply H. unfold fresh. cbn. repeat constructor.
Qed.

Lemma lookup_fresh (l : list (nat * Pending)) (n : nat) :
  Forall (fun ip => (fst ip < n)%nat) l -> lookup n l = None.
Proof.
  induction 1 as [|[i p] l Hi _ IH]; [reflexivity|].
  cbn in *. destruct (Nat.eqb_spec i n); [lia | exact IH].
Qed.

Lemma lookup_appended (w : World) (id : nat) (p : Pending) :
  fresh w ->
  lookup (next_id w) (remove id (pending w) ++ [(next_id w, p)])%list = Some p.
Proof.
  intros H. unfold fresh in H.
  assert (Hn : lookup (next_id w) (remove id (pending w)) = None).
  { apply lookup_fresh. clear -H. induction H as [|[i q] l Hi Hl IH]; [constructor|].
    cbn. destruct (i =? id)%nat; [assumption | now constructor]. }
  revert Hn. generalize (remove id (pending w)). intros l.
  induction l as [|[i q] l IH]; cbn.
  - now rewrite Nat.eqb_refl.
  - destruct (i =? next_id w)%nat; [discriminate | exact IH].
Qed.

(** An exit that the backend accepts is followed up in two stages: the
    operator is told the result at once and the trade status is fetched
    again; however that fetch ends, good or bad, the setup is fetched again
    after it. *)
Theorem exit_success_chain (trace : list Event) (id : nat)
    (res : MutationResult) (r : Response) (w1 w2 : World) :
  lookup id (pending (after trace)) = Some InExitTrade ->
  success res = true ->
  answers_status r = true ->
  w1 = step (Complete id (MutationJson res)) (after trace) ->
  w2 = step (Complete (next_id (after trace)) r) w1 ->
  alerted w1 = (alerted (after trace) ++ [exit_alert res])%list
  /\ sent w1 = (sent (after trace) ++ [GetTradeStatus])%list
  /\ ui w1 = ui (after trace)
  /\ sent w2 = (sent (after trace) ++ [GetTradeStatus; GetAnalysis])%list
  /\ alerted w2 = alerted w1.
Proof.
  intros Hl Hs Hr E1 E2.
  assert (F1 : w1 = fetchTradeStatus true
                      (alert (exit_alert res) (settle id (after trace))))
    by (rewrite E1; unfold step, complete; now rewrite Hl, Hs).
  assert (Hp : lookup (next_id (after trace)) (pending w1)
               = Some (InFetchTradeStatus true)).
  { rewrite F1. cbn. apply lookup_appended. apply fresh_after. }
  assert (F2 : sent w2 = (sent w1 ++ [GetAnalysis])%list /\ alerted w2 = alerted w1).
  { rewrite E2. unfold step, complete. rewrite Hp.
    destruct r; try discriminate Hr; cbn; split; reflexivity. }
  destruct F2 as [F2 F3]. rewrite F2, F3. rewrite F1. cbn.
  rewrite <- app_assoc. repeat split.
Qed.

(** An entry that the backend accepts closes the dialog and fetches the
    trade status again, and nothing more: the position shown changes only
    when that answer arrives, to whatever the backend reports, and the
    setup is not fetched again. *)
Theorem enter_success_refetches_status (trace : list Event) (id : nat)
    (res : MutationResult) (d : option TradeStatus) (w1 w2 : World) :
  lookup id (pending (after trace)) = Some InEnterTrade ->
  success res = true ->
  w1 = step (Complete id (MutationJson res)) (after trace) ->
  w2 = step (Complete (next_id (after trace)) (StatusJson d)) w1 ->
  showEnterTradeModal (ui w1) = false
  /\ tradeStatus (ui w1) = tradeStatus (ui (after trace))
  /\ entryFormData (ui w1) = entryFormData (ui (after trace))
  /\ alerted w1 = alerted (after trace)
  /\ tradeStatus (ui w2) = d
  /\ sent w2 = (sent (after trace) ++ [GetTradeStatus])%list.
Proof.
  intros Hl Hs E1 E2.
  assert (F1 : w1 = fetchTradeStatus false
                      (with_ui (setShowEnterTradeModal false) (settle id (after trace))))
    by (rewrite E1; unfold step, complete; now rewrite Hl, Hs).
  assert (Hp : lookup (next_id (after trace)) (pending w1)
               = Some (InFetchTradeStatus false)).
  { rewrite F1. cbn. apply lookup_appended. apply fresh_after. }
  assert (F2 : tradeStatus (ui w2) = d /\ sent w2 = sent w1).
  { rewrite E2. unfold step, complete. rewrite Hp. cbn. split; reflexivity. }
  destruct F2 as [F2 F3]. rewrite F2, F3. rewrite F1. cbn. repeat split.
Qed.

Lemma exit_success_chain_witness :
  sent (step (Complete 3 (HttpError 500))
          (step (Complete 2 (MutationJson Samples.accepted)) (after close_submitted)))
  = (sent (after close_submitted) ++ [GetTradeStatus; GetAnalysis])%list.
Proof.
  destruct (exit_success_chain close_submitted 2 Samples.accepted (HttpError 500)
              (step (Complete 2 (MutationJson Samples.accepted)) (after close_submitted))
              (step (Complete 3 (HttpError 500))
                 (step (Complete 2 (MutationJson Samples.accepted))
                    (after close_submitted)))
              eq_refl eq_refl eq_refl eq_refl eq_refl)
    as (_ & _ & _ & H & _).
  exact H.
Defined.

Lemma enter_success_refetches_status_witness :
  tradeStatus
    (ui (step (Complete 3 (StatusJson (Some (holding 50))))
           (step (Complete 2 (MutationJson Samples.accepted)) (after bearish_entry))))
  = Some (holding 50).
Proof.
  destruct (enter_success_refetches_status bearish_entry 2 Samples.accepted
              (Some (holding 50))
              (step (Complete 2 (MutationJson Samples.accepted)) (after bearish_entry))
              (step (Complete 3 (StatusJson (Some (holding 50))))
                 (step (Complete 2 (MutationJson Samples.accepted))
                    (after bearish_entry)))
              eq_refl eq_refl eq_refl eq_refl)
    as (_ & _ & _ & _ & H & _).
  exact H.
Defined.

(** *** The confirmation dialog *)

Lemma offered_confirm_edit (s : State) (f : EntryForm) :
  entryFormData s <> None ->
  offered BtnConfirmEntry (setEntryFormData (Some f) s) = offered BtnConfirmEntry s.
Proof.
  intros Hf. unfold offered, render.
  change (loading (setEntryFormData (Some f) s)) with (loading s).
  change (error (setEntryFormData (Some f) s)) with (error s).
  change (setupData (setEntryFormData (Some f) s)) with (setupData s).
  change (inTrade (setEntryFormData (Some f) s)) with (inTrade s).
  change (tradeStatus (setEntryFormData (Some f) s)) with (tradeStatus s).
  change (both_present (setEntryFormData (Some f) s)) with (both_present s).
  change (showEnterTradeModal (setEntryFormData (Some f) s))
    with (showEnterTradeModal s).
  change (entryFormData (setEntryFormData (Some f) s)) with (Some f).
  destruct (loading s); [reflexivity|].
  destruct (negb (String.eqb (error s) EmptyString)); [reflexivity|].
  destruct (setupData s) as [d|]; [|reflexivity].
  unfold bind.
  destruct (if inTrade s then Ok None else render_score_card d) as [card|];
    [|reflexivity].
  destruct (if inTrade s then Ok None
            else match render_setup_plan d with
                 | Ok a => Ok (Some a)
                 | TypeError => TypeError
                 end) as [plan|]; [|reflexivity].
  destruct (render_trade_plan d) as [prices|]; [|reflexivity].
  cbn. destruct (showEnterTradeModal s); [|reflexivity].
  destruct (entryFormData s); [reflexivity | contradiction].
Qed.

Lemma edits_then_confirm (fds : list Field) : forall w f c,
  offered BtnConfirmEntry (ui w) = true ->
  entryFormData (ui w) = Some f ->
  sent (run (map Edit fds ++ [Click BtnConfirmEntry c]) w)
  = (sent w ++ [PostEnterTrade (confirm_body (apply_edits fds f))])%list.
Proof.
  induction fds as [|fd fds IH]; intros w f c Ho Hf.
  - cbn [map app run]. unfold step. rewrite Ho. cbn. now rewrite Hf.
  - cbn [map app run]. unfold step at 1. rewrite Ho, Hf.
    rewrite (IH (with_ui (setEntryFormData (Some (edit fd f))) w) (edit fd f) c).
    + reflexivity.
    + cbn. rewrite offered_confirm_edit; [exact Ho | congruence].
    + reflexivity.
Qed.

Lemma edits_keep_second_target (fds : list Field) : forall f,
  form_take_profit_2 (apply_edits fds f) = form_take_profit_2 f.
Proof.
  induction fds as [|fd fds IH]; intros f; [reflexivity|].
  unfold apply_edits in *. cbn [fold_left]. rewrite IH. now destruct fd.
Qed.

(** Whatever the operator types into the open dialog before confirming,
    the request sent carries the draft with those edits applied in order,
    and its second take-profit is still the one the dialog was opened with:
    the dialog has no input for it. *)
Theorem dialog_edits_reach_request (w : World) (f : EntryForm)
    (fds : list Field) (c : bool) :
  offered BtnConfirmEntry (ui w) = true ->
  entryFormData (ui w) = Some f ->
  sent (run (map Edit fds ++ [Click BtnConfirmEntry c]) w)
  = (sent w ++ [PostEnterTrade (confirm_body (apply_edits fds f))])%list
  /\ enter_take_profit_2 (confirm_body (apply_edits fds f)) = form_take_profit_2 f.
Proof.
  intros Ho Hf. split.
  - now apply edits_then_confirm.
  - cbn. apply edits_keep_second_target.
Qed.

Lemma dialog_edits_reach_request_witness :
  exists b,
    last (sent (run (map Edit [StopLoss (Fin 3990); PositionSize 100]
                     ++ [Click BtnConfirmEntry false])
                  (after (removelast bearish_entry)))) GetAnalysis
    = PostEnterTrade b
    /\ enter_stop_loss b = Some (Fin 3990)
    /\ enter_position_size b = 100%Z
    /\ enter_take_profit_2 b = Some (Fin 4021).
Proof.
  destruct (dialog_edits_reach_request
              (after (removelast bearish_entry))
              {| form_entry_price := Some (Fin 4001); form_position_size := 50;
                 form_stop_loss := Some (Fin 3995);
                 form_take_profit_1 := Some (Fin 4010);
                 form_take_profit_2 := Some (Fin 4021) |}
              [StopLoss (Fin 3990); PositionSize 100] false eq_refl eq_refl)
    as [Hs _].
  eexists. rewrite Hs, last_last. split; [reflexivity|].
  split; [reflexivity|]. split; reflexivity.
Defined.

(** *** What never happens *)

Ltac break_inner :=
  match goal with
  | |- context [match ?x with _ => _ end] =>
      lazymatch x with
      | context [match _ with _ => _ end] => fail
      | _ => destruct x eqn:?
      end
  end.

Lemma draft_step (e : Event) (w : World) :
  dialog_has_draft (ui w) -> dialog_has_draft (ui (step e w)).
Proof.
  intros H. destruct e as [| |id r|b c|fd]; unfold step.
  - now destruct (timer w).
  - exact H.
  - unfold complete, after_status.
    destruct (lookup id (pending w)) as [[|k| |]|]; [| | | |exact H];
      destruct r; try exact H;
      try solve [cbn; exact H];
      try solve [destruct k; cbn; exact H];
      try solve [match goal with
                 | |- context [success ?x] => destruct (success x)
                 end; cbn; first [exact H | exact I]].
    unfold dialog_has_draft, fetchSetup_ok, selection_effect in *. cbn.
    destruct (bullish_of d), (bearish_of d); cbn; exact H.
  - destruct (offered b (ui w)); [|exact H].
    unfold dialog_has_draft, on_click, exitTrade, select, selection_effect in *.
    destruct (showEnterTradeModal (ui w)) eqn:Es,
             (entryFormData (ui w)) eqn:Ee; try contradiction;
      destruct b; cbn; rewrite ?Es, ?Ee;
      repeat (break_inner; cbn; rewrite ?Es, ?Ee);
      first [exact I | congruence].
  - destruct (offered BtnConfirmEntry (ui w)); [|exact H].
    unfold dialog_has_draft in *.
    destruct (entryFormData (ui w)) eqn:Ee; cbn; [|now rewrite Ee].
    now destruct (showEnterTradeModal (ui w)).
Qed.

Lemma render_modal (s : State) (p : Page) :
  render s = Ok (MainPage p) ->
  modal p = (if showEnterTradeModal s then entryFormData s else None).
Proof.
  unfold render.
  destruct (loading s); [discriminate|].
  destruct (negb (String.eqb (error s) EmptyString)); [discriminate|].
  destruct (setupData s) as [d|]; [|discriminate]. cbn.
  destruct (if inTrade s then Ok None else render_score_card d) as [card|];
    [|discriminate]. cbn.
  destruct (if inTrade s then Ok None else bs <- render_setup_plan d;; Ok (Some bs))
    as [plan|]; [|discriminate]. cbn.
  destruct (render_trade_plan d) as [prices|]; [|discriminate]. cbn.
  intros H. inversion H. reflexivity.
Qed.

(** The confirmation dialog is never opened blank: in every state the
    component can reach, whenever the dialog is flagged open there is a
    draft behind it; so on every main page that is rendered the dialog is
    shown exactly when the flag is set.  The loading and failure screens
    show no dialog, whatever the flag. *)
Theorem dialog_never_blank (trace : list Event) :
  (showEnterTradeModal (ui (after trace)) = true ->
     exists f, entryFormData (ui (after trace)) = Some f)
  /\ (forall p, render (ui (after trace)) = Ok (MainPage p) ->
        (showEnterTradeModal (ui (after trace)) = true <-> exists f, modal p = Some f)).
Proof.
  assert (Hinv : forall trace w, dialog_has_draft (ui w) ->
                                 dialog_has_draft (ui (run trace w))).
  { clear trace. induction trace as [|e rest IH]; intros w H; [exact H|].
    cbn [run]. apply IH. now apply draft_step. }
  pose proof (Hinv trace mounted I) as H.
  unfold dialog_has_draft in H. fold (after trace) in H.
  split.
  - intros Hs. rewrite Hs in H.
    destruct (entryFormData (ui (after trace))) as [f|]; [now exists f | contradiction].
  - intros p Hp. rewrite (render_modal _ _ Hp).
    destruct (showEnterTradeModal (ui (after trace))).
    + destruct (entryFormData (ui (after trace))) as [f|]; [|contradiction].
      split; [now exists f | reflexivity].
    + split; [discriminate | intros [f Hf]; discriminate].
Qed.

Lemma dialog_never_blank_witness :
  exists f, entryFormData (ui (after (removelast bearish_entry))) = Some f.
Proof.
  apply (proj1 (dialog_never_blank (removelast bearish_entry))). reflexivity.
Defined.

(** Alerts come from mutations alone: an event that is not the answer to
    an enter-trade or exit-trade call raises no [alert], be it a tick, a
    click, an edit or any answer to a poll, failed ones included. *)
Theorem alerts_only_from_mutations (e : Event) (w : World) :
  answers_mutation e w = false -> alerted (step e w) = alerted w.
Proof.
  destruct e as [| |id r|b c|fd]; unfold answers_mutation, step; intros H.
  - now destruct (timer w).
  - reflexivity.
  - unfold complete, after_status.
    destruct (lookup id (pending w)) as [[|k| |]|]; try discriminate H;
      try reflexivity; destruct r; try reflexivity; destruct k; reflexivity.
  - destruct (offered b (ui w)); [|reflexivity].
    unfold on_click, exitTrade. destruct b; repeat break_match'; reflexivity.
  - destruct (offered BtnConfirmEntry (ui w)); [|reflexivity].
    now destruct (entryFormData (ui w)).
Qed.

Lemma alerts_only_from_mutations_witness :
  alerted (step (Complete 0 (HttpError 500)) mounted) = [].
Proof.
  apply (alerts_only_from_mutations (Complete 0 (HttpError 500)) mounted).
  reflexivity.
Defined.

(** *** Fields the render does not guard *)

Lemma confluence_titles_throw (cs : list Confluence) (c : Confluence) :
  In c cs -> type c = None -> confluence_titles cs = TypeError.
Proof.
  intros Hin Ht. induction cs as [|a cs IH]; [contradiction|].
  cbn. destruct Hin as [->|Hin].
  - unfold confluence_title. now rewrite Ht.
  - destruct (confluence_title a); cbn; [|reflexivity]. now rewrite (IH Hin).
Qed.

Lemma steps_buttons_throw (l : list Step) (st : Step) (et : EntryTiming) : forall i,
  In st l -> status st = "in_progress" -> entry_timing st = Some et ->
  early_entry et = None \/ confirmation_entry et = None ->
  steps_buttons i l = TypeError.
Proof.
  induction l as [|a l IH]; intros i Hin Hs He Hm; [contradiction|].
  cbn. destruct Hin as [->|Hin].
  - unfold step_buttons. rewrite Hs, He. cbn.
    destruct Hm as [Hm|Hm]; rewrite Hm; [reflexivity|].
    now destruct (early_entry et).
  - destruct (step_buttons i a); cbn; [|reflexivity].
    now rewrite (IH (S i) Hin Hs He Hm).
Qed.

Lemma render_page (s : State) (d : Setup) :
  loading s = false -> error s = EmptyString -> setupData s = Some d ->
  render s
  = (card <- (if inTrade s then Ok None else render_score_card d) ;;
     plan <- (if inTrade s then Ok None
              else bs <- render_setup_plan d ;; Ok (Some bs)) ;;
     prices <- render_trade_plan d ;;
     Ok (MainPage
           {| shown_setup := d;
              selector := negb (inTrade s) && both_present s;
              monitoring :=
                (if inTrade s
                 then match tradeStatus s with
                      | Some ts => Some (render_monitoring ts)
                      | None => None
                      end
                 else None);
              score_card := card;
              setup_plan := plan;
              plan_prices := prices;
              modal := (if showEnterTradeModal s then entryFormData s else None) |})).
Proof. intros Hl He Hd. unfold render. now rewrite Hl, He, Hd. Qed.

(** Besides the description of the liquidity grab, the setup plan reads
    three fields without a guard.  While no trade is open, the page that
    would show a setup throws instead when an entry of the confluence list
    has no [type] or the market structure has no [structure_type] (the
    score being there), and when a step in progress has an [entry_timing]
    without its [early_entry] or its [confirmation_entry].  While a trade
    is open the setup plan is not rendered, and the page throws only where
    the trade plan does. *)
Theorem unguarded_fields_throw (s : State) (d : Setup) :
  loading s = false -> error s = EmptyString -> setupData s = Some d ->
  (inTrade s = false -> total_score d <> None ->
     forall cs c, confluences d = Some cs -> In c cs -> type c = None ->
     render s = TypeError)
  /\ (inTrade s = false -> total_score d <> None ->
        forall st, structure d = Some st -> structure_type st = None ->
        render s = TypeError)
  /\ (inTrade s = false ->
        forall l st et, setup_steps d = Some l -> In st l ->
        status st = "in_progress" -> entry_timing st = Some et ->
        early_entry et = None \/ confirmation_entry et = None ->
        render s = TypeError)
  /\ (inTrade s = true ->
        (render s = TypeError <-> render_trade_plan d = TypeError)).
Proof.
  intros Hl He Hd. rewrite (render_page s d Hl He Hd).
  split; [|split; [|split]].
  - intros Hin Hsc cs c Hcs Hc Ht. rewrite Hin. unfold render_score_card.
    destruct (total_score d); [|contradiction].
    now rewrite Hcs, (confluence_titles_throw cs c Hc Ht).
  - intros Hin Hsc st Hst Ht. rewrite Hin. unfold render_score_card, structure_line.
    destruct (total_score d); [|contradiction].
    rewrite Hst, Ht. now destruct (match confluences d with
                                   | Some cs => confluence_titles cs
                                   | None => Ok []
                                   end).
  - intros Hin l st et Hl' Hst Hs Het Hm. rewrite Hin.
    destruct (render_score_card d); [|reflexivity]. cbn.
    unfold render_setup_plan. now rewrite Hl', (steps_buttons_throw l st et 0 Hst Hs Het Hm).
  - intros Hin. rewrite Hin. cbn.
    destruct (render_trade_plan d); cbn; split; intros H; try discriminate; reflexivity.
Qed.

Lemma unguarded_fields_throw_witness :
  render (ui (after [Complete 0 (AnalysisJson analysis_without_confirmation)]))
  = TypeError.
Proof.
  apply (proj1 (proj2 (proj2
           (unguarded_fields_throw
              (ui (after [Complete 0 (AnalysisJson analysis_without_confirmation)]))
              setup_without_confirmation eq_refl eq_refl eq_refl)))
           eq_refl [step_without_confirmation] step_without_confirmation
           {| early_entry := Some early; confirmation_entry := None |}
           eq_refl (or_introl eq_refl) eq_refl eq_refl (or_intror eq_refl)).
Defined.

End DashboardExtras.

(** ** The GoldPage component *)

Section GoldFacts.
Import Js GoldAnalysis.

Lemma ui_complete_failed (w : World) (id : nat) (forced : bool) (msg : string) :
  ui ((if forced then with_ui (setLoading false) else (fun w => w))
        (with_ui (fetch_failed msg) (settle id w)))
  = setLoading false (setError ("Network Error: " ++ msg) (ui w)).
Proof. now destruct forced. Qed.

Lemma render_with_banner (s : State) (p : Page) (msg : string) :
  render (setLoading false s) = Ok (MainPage p) ->
  render (setLoading false (setError msg s))
  = Ok (MainPage {| updated := updated p; card := card p;
                    psych_rows := psych_rows p; banner := nonempty msg |}).
Proof.
  unfold render. cbn.
  destruct (analysisData s) as [a|]; [|discriminate].
  destruct (data a) as [pl|]; [|discriminate].
  destruct (match signal_of pl with
            | Some sg =>
                if String.eqb (status a) "signal"
                then match render_signal sg with
                     | Ok c => Ok (ShowSignal c)
                     | TypeError => TypeError
                     end
                else Ok (render_skip (skip_info pl))
            | None => Ok (render_skip (skip_info pl))
            end) as [c|]; [|discriminate].
  intros H. inversion H. reflexivity.
Qed.

(** When a fetch fails after an analysis was loaded, the analysis stays
    on the page: the same card, levels and time stamp are shown, with a
    banner reading "Network Error: HTTP <status>: <status text>" added. *)
Theorem gold_failure_keeps_data (toLocale : string -> string) (w : World)
    (id : nat) (forced : bool) (st : nat) (txt : string) (p : Page) :
  lookup id (pending w) = Some forced ->
  render (setLoading false (ui w)) = Ok (MainPage p) ->
  analysisData (ui (step toLocale (Complete id (HttpError st txt)) w))
  = analysisData (ui w)
  /\ lastUpdate (ui (step toLocale (Complete id (HttpError st txt)) w))
     = lastUpdate (ui w)
  /\ render (ui (step toLocale (Complete id (HttpError st txt)) w))
     = Ok (MainPage
             {| updated := updated p; card := card p; psych_rows := psych_rows p;
                banner := Some ("Network Error: HTTP " ++ dec (Z.of_nat st)
                                  ++ ": " ++ txt) |}).
Proof.
  intros Hl Hr. unfold step, complete. rewrite Hl. cbv zeta.
  rewrite ui_complete_failed. split; [reflexivity|]. split; [reflexivity|].
  now rewrite (render_with_banner _ p _ Hr).
Qed.

Lemma gold_failure_keeps_data_witness :
  exists p,
    render (ui (step Samples.stamp (Complete 1 (HttpError 500 "Internal Server Error"))
                  (step Samples.stamp Tick Samples.gold_loaded)))
    = Ok (MainPage p)
    /\ banner p = Some "Network Error: HTTP 500: Internal Server Error"
    /\ updated p = Some "at 2025-01-01T10:00:00Z".
Proof.
  pose proof (fun p H =>
                gold_failure_keeps_data Samples.stamp
                  (step Samples.stamp Tick Samples.gold_loaded) 1 false 500
                  "Internal Server Error" p eq_refl H) as T.
  edestruct T as (_ & _ & Hr); [vm_compute; reflexivity|].
  eexists. split; [exact Hr|]. split; reflexivity.
Defined.

(** The "Updated" stamp moves only when the body names a time: a good
    response replaces the analysis and clears the error, but without
    [last_update] the stamp of an earlier response stays next to the new
    data. *)
Theorem gold_stamp_only_when_given (toLocale : string -> string) (w : World)
    (id : nat) (forced : bool) (d : AnalysisData) :
  lookup id (pending w) = Some forced ->
  analysisData (ui (step toLocale (Complete id (Json d)) w)) = Some d
  /\ error (ui (step toLocale (Complete id (Json d)) w)) = EmptyString
  /\ (stamp_of d = None ->
      lastUpdate (ui (step toLocale (Complete id (Json d)) w)) = lastUpdate (ui w))
  /\ (forall t, stamp_of d = Some t ->
        lastUpdate (ui (step toLocale (Complete id (Json d)) w)) = toLocale t).
Proof.
  intros Hl. unfold step, complete. rewrite Hl. cbv zeta.
  unfold fetch_ok.
  destruct forced; cbn; (split; [|split; [|split]]);
    try (intros t Ht; rewrite Ht); try (intros Ht; rewrite Ht);
    destruct (stamp_of d); reflexivity.
Qed.

Lemma gold_stamp_only_when_given_witness :
  lastUpdate (ui (step Samples.stamp (Complete 1 (Json (Samples.a_signal_body None)))
                    (step Samples.stamp Tick Samples.gold_loaded)))
  = "at 2025-01-01T10:00:00Z".
Proof.
  destruct (gold_stamp_only_when_given Samples.stamp
              (step Samples.stamp Tick Samples.gold_loaded) 1 false
              (Samples.a_signal_body None) eq_refl) as (_ & _ & H & _).
  rewrite (H eq_refl). reflexivity.
Defined.

Lemma loading_after_complete (toLocale : string -> string) (w : World)
    (id : nat) (forced : bool) (r : Response) :
  lookup id (pending w) = Some forced ->
  loading (ui (step toLocale (Complete id r) w)) = false.
Proof.
  intros Hl. unfold step, complete. rewrite Hl. cbv zeta.
  destruct forced, r; cbn; unfold fetch_ok; cbn;
    try match goal with |- context [stamp_of ?d] => destruct (stamp_of d) end;
    reflexivity.
Qed.

(** A forced scan sends [POST /api/xauusd/scan] with the JSON header and
    puts the loading screen up, keeping the analysis it had; while that
    screen is up no button can be clicked, so a scan cannot be started
    twice; and the screen comes down with the next response to any call in
    flight, be it the answer to an earlier poll. *)
Theorem gold_manual_scan (toLocale : string -> string) (w : World) :
  offered (ui w) = true ->
  sent (step toLocale (Click BtnForceScan) w)
  = (sent w ++ [ {| url_path := "/api/xauusd/scan"; method := "POST";
                    json_header := true |} ])%list
  /\ render (ui (step toLocale (Click BtnForceScan) w)) = Ok LoadingScreen
  /\ analysisData (ui (step toLocale (Click BtnForceScan) w)) = analysisData (ui w)
  /\ (forall b, step toLocale (Click b) (step toLocale (Click BtnForceScan) w)
                = step toLocale (Click BtnForceScan) w)
  /\ (forall id forced r,
        lookup id (pending (step toLocale (Click BtnForceScan) w)) = Some forced ->
        loading (ui (step toLocale (Complete id r)
                       (step toLocale (Click BtnForceScan) w))) = false).
Proof.
  intros Ho.
  assert (E : step toLocale (Click BtnForceScan) w = manualScan w)
    by (unfold step; now rewrite Ho).
  rewrite E. split; [reflexivity|]. split; [reflexivity|]. split; [reflexivity|].
  split.
  - intros b. reflexivity.
  - intros id forced r Hl. now apply (loading_after_complete toLocale _ id forced).
Qed.

Lemma gold_manual_scan_witness :
  render (ui (step Samples.stamp (Click BtnForceScan) Samples.gold_loaded))
  = Ok LoadingScreen
  /\ method (last (sent (step Samples.stamp (Click BtnForceScan) Samples.gold_loaded))
               (request_of false)) = "POST".
Proof.
  destruct (gold_manual_scan Samples.stamp Samples.gold_loaded eq_refl)
    as (Hs & Hr & _).
  split; [exact Hr|]. rewrite Hs, last_last. reflexivity.
Defined.

(** Until a first analysis has arrived the page offers no button at all,
    on the loading screen as on the failure screen: when the first fetch
    fails, the page shows "Failed to load data" with the error text, clicks
    do nothing, and only the next tick of the interval fetches again. *)
Theorem gold_first_failure_waits_for_tick (toLocale : string -> string) (w : World)
    (id : nat) (forced : bool) (st : nat) (txt : string) :
  lookup id (pending w) = Some forced ->
  analysisData (ui w) = None ->
  render (ui (step toLocale (Complete id (HttpError st txt)) w))
  = Ok (FailedScreen ("Network Error: HTTP " ++ dec (Z.of_nat st) ++ ": " ++ txt))
  /\ (forall b, step toLocale (Click b)
                  (step toLocale (Complete id (HttpError st txt)) w)
                = step toLocale (Complete id (HttpError st txt)) w)
  /\ (timer w = true ->
      sent (step toLocale Tick (step toLocale (Complete id (HttpError st txt)) w))
      = (sent w ++ [request_of false])%list).
Proof.
  intros Hl Hd.
  assert (E : ui (step toLocale (Complete id (HttpError st txt)) w)
              = setLoading false
                  (setError ("Network Error: " ++ http_error_message st txt) (ui w))).
  { unfold step, complete. rewrite Hl. cbv zeta. apply ui_complete_failed. }
  assert (Hr : render (ui (step toLocale (Complete id (HttpError st txt)) w))
               = Ok (FailedScreen ("Network Error: HTTP " ++ dec (Z.of_nat st)
                                     ++ ": " ++ txt))).
  { rewrite E. unfold render. cbn. now rewrite Hd. }
  split; [exact Hr|]. split.
  - intros b. unfold step at 1. unfold offered. now rewrite Hr.
  - intros Ht. unfold step, complete. rewrite Hl. cbv zeta.
    destruct forced; cbn; now rewrite Ht.
Qed.

Lemma gold_first_failure_waits_for_tick_witness :
  render (ui (step Samples.stamp (Complete 0 (HttpError 502 "Bad Gateway")) mounted))
  = Ok (FailedScreen "Network Error: HTTP 502: Bad Gateway").
Proof.
  destruct (gold_first_failure_waits_for_tick Samples.stamp mounted 0 false 502
              "Bad Gateway" eq_refl eq_refl) as (H & _).
  exact H.
Defined.

(** The signal card is shown exactly when the status is "signal" and the
    body carries a signal; in every other case the page shows the no-signal
    card, with the skip reason, or "Waiting for optimal setup..." when the
    reason is missing or empty. *)
Theorem gold_signal_card_iff (s : State) (a : AnalysisData) (pl : Payload) (pg : Page) :
  analysisData s = Some a -> data a = Some pl ->
  render s = Ok (MainPage pg) ->
  ((exists c, card pg = ShowSignal c)
   <-> status a = "signal" /\ signal_of pl <> None)
  /\ ((status a <> "signal" \/ signal_of pl = None) ->
      card pg = render_skip (skip_info pl))
  /\ (forall note, card pg <> NoSignal EmptyString note).
Proof.
  intros Ha Hd. unfold render. rewrite Ha, Hd.
  destruct (loading s); [discriminate|].
  destruct (signal_of pl) as [sg|].
  - destruct (String.eqb_spec (status a) "signal") as [Es|Es].
    + destruct (render_signal sg) as [c|]; [|discriminate].
      intros H. inversion H; subst; cbn. split; [|split].
      * split; [intros _; split; [exact Es | discriminate] | intros _; now exists c].
      * intros [Hn|Hn]; [contradiction | discriminate].
      * discriminate.
    + intros H. inversion H; subst; cbn. split; [|split].
      * split; [intros [c Hc]; discriminate | intros [Hs _]; contradiction].
      * reflexivity.
      * intros note. unfold render_skip.
        destruct (skip_info pl) as [i|]; [|discriminate].
        destruct (skip_reason i) as [[|c r]|]; discriminate.
  - intros H. inversion H; subst; cbn. split; [|split].
    + split; [intros [c Hc]; discriminate | intros [_ Hn]; contradiction].
    + reflexivity.
    + intros note. unfold render_skip.
      destruct (skip_info pl) as [i|]; [|discriminate].
      destruct (skip_reason i) as [[|c r]|]; discriminate.
Qed.

Lemma gold_signal_card_iff_witness :
  exists pg,
    render (setLoading false (setAnalysisData (Some Samples.a_waiting_body) initial))
    = Ok (MainPage pg)
    /\ card pg = NoSignal "Waiting for optimal setup..." None.
Proof.
  eexists. split; [vm_compute; reflexivity|].
  refine (proj1 (proj2 (gold_signal_card_iff
                          (setLoading false
                             (setAnalysisData (Some Samples.a_waiting_body) initial))
                          Samples.a_waiting_body _ _ eq_refl eq_refl eq_refl)) _).
  left. discriminate.
Defined.

Lemma slice0_firstn {A : Type} (n : nat) (l : list A) : slice0 n l = firstn n l.
Proof. reflexivity. Qed.

(** However long the lists of the body are, the signal card shows at most
    three key levels and three reasons and the page at most six
    psychological levels, always the first ones in the order received. *)
Theorem gold_lists_are_capped (s : State) (a : AnalysisData) (pl : Payload) (pg : Page) :
  analysisData s = Some a -> data a = Some pl ->
  render s = Ok (MainPage pg) ->
  (length (psych_rows pg) <= 6)%nat
  /\ psych_rows pg = firstn 6 (match levels pl with Some l => l | None => [] end)
  /\ (forall c sg, card pg = ShowSignal c -> signal_of pl = Some sg ->
        (length (level_rows c) <= 3)%nat
        /\ (length (reasons c) <= 3)%nat
        /\ map fst (level_rows c)
           = firstn 3 (match key_levels sg with Some l => l | None => [] end)
        /\ reasons c
           = firstn 3 (match trade_reasons sg with Some l => l | None => [] end)).
Proof.
  intros Ha Hd. unfold render. rewrite Ha, Hd.
  destruct (loading s); [discriminate|].
  destruct (match signal_of pl with
            | Some sg =>
                if String.eqb (status a) "signal"
                then match render_signal sg with
                     | Ok c => Ok (ShowSignal c)
                     | TypeError => TypeError
                     end
                else Ok (render_skip (skip_info pl))
            | None => Ok (render_skip (skip_info pl))
            end) as [cd|] eqn:Ec; [|discriminate].
  remember (match levels pl with Some l => slice0 6 l | None => [] end) as rows
    eqn:Erows.
  assert (Hrows : rows = firstn 6 (match levels pl with Some l => l | None => [] end))
    by (subst rows; now destruct (levels pl)).
  intros H. injection H as <-. cbn [psych_rows card]. rewrite Hrows.
  split; [apply firstn_le_length|]. split; [reflexivity|].
  intros c sg Hc Hsg. subst cd. rewrite Hsg in Ec.
  destruct (String.eqb (status a) "signal"); [|discriminate].
  destruct (render_signal sg) as [c'|] eqn:Er; [|discriminate].
  inversion Ec; subst c'. clear Ec.
  assert (Hk : forall ks : option (list KeyLevel),
            map fst
              match ks with
              | Some (k :: l) => map (fun l => (l, bounce_class l)) (slice0 3 (k :: l))
              | _ => []
              end
            = firstn 3 (match ks with Some l => l | None => [] end)).
  { intros [[|k l]|]; try reflexivity.
    rewrite map_map, slice0_firstn. cbn [fst]. apply map_id. }
  assert (Hr : forall rs : option (list string),
            match rs with Some l => slice0 3 l | None => [] end
            = firstn 3 (match rs with Some l => l | None => [] end))
    by (now intros [l|]).
  specialize (Hk (key_levels sg)). specialize (Hr (trade_reasons sg)).
  unfold render_signal in Er.
  destruct (GoldPage.strength_badge _); [|discriminate].
  destruct (price_text (entry_price sg)); [|discriminate].
  destruct (price_text (stop_loss sg)); [|discriminate].
  destruct (price_text (take_profit sg)); [|discriminate].
  remember (match key_levels sg with
            | Some (k :: ks) => map (fun l => (l, bounce_class l)) (slice0 3 (k :: ks))
            | _ => []
            end) as rows3 eqn:E3.
  remember (match trade_reasons sg with
            | Some rs => slice0 3 rs
            | None => []
            end) as why3 eqn:E4.
  injection Er as <-. cbn [level_rows reasons].
  split; [|split; [|split]].
  - rewrite <- (length_map fst), Hk. apply firstn_le_length.
  - rewrite Hr. apply firstn_le_length.
  - exact Hk.
  - exact Hr.
Qed.

Lemma gold_lists_are_capped_witness :
  exists pg c,
    render (ui Samples.gold_loaded) = Ok (MainPage pg)
    /\ card pg = ShowSignal c
    /\ map (fun r => level (fst r)) (level_rows c) = [4000; 3990; 3980]
    /\ reasons c = ["sweep"; "retest"; "session"].
Proof.
  pose proof (fun pg H =>
                gold_lists_are_capped (ui Samples.gold_loaded)
                  (Samples.a_signal_body (Some "2025-01-01T10:00:00Z")) _ pg
                  eq_refl eq_refl H) as T.
  eexists. eexists. split; [vm_compute; reflexivity|]. split; [reflexivity|].
  edestruct T as (_ & _ & H); [vm_compute; reflexivity|].
  edestruct H as (_ & _ & Hk & Hr); [reflexivity | reflexivity |].
  split; [|exact Hr].
  rewrite <- (map_map fst level). rewrite Hk. reflexivity.
Defined.

(** The pill of the signal card and its frame always have the same hue:
    green for "BUY", red for "SELL", orange for everything else, other
    spellings of the two words included. *)
Theorem gold_signal_colours_agree (sg : string) :
  exists hue,
    getSignalColor sg = "bg-" ++ hue
    /\ getSignalTextColor sg = "text-" ++ hue
    /\ (hue = "green-500" <-> sg = "BUY")
    /\ (hue = "red-500" <-> sg = "SELL")
    /\ (hue = "orange-500" <-> sg <> "BUY" /\ sg <> "SELL").
Proof.
  unfold getSignalColor, getSignalTextColor.
  destruct (String.eqb_spec sg "BUY") as [E|E];
    [|destruct (String.eqb_spec sg "SELL") as [E'|E']].
  - exists "green-500". subst.
    repeat split; intros; try reflexivity; try discriminate.
    destruct H as [H _]. now contradiction H.
  - exists "red-500". subst.
    repeat split; intros; try reflexivity; try discriminate.
    destruct H as [_ H]. now contradiction H.
  - exists "orange-500".
    repeat split; intros; try discriminate; try contradiction; assumption.
Qed.

Lemma gold_signal_colours_agree_witness :
  getSignalColor "buy" = "bg-orange-500" /\ getSignalTextColor "buy" = "text-orange-500".
Proof.
  destruct (gold_signal_colours_agree "buy") as (hue & Hc & Ht & _ & _ & Ho).
  assert (E : hue = "orange-500") by (apply Ho; split; discriminate).
  rewrite E in Hc, Ht. split; [exact Hc | exact Ht].
Defined.

End GoldFacts.

(** ** The score cards of the home page *)

Section HomeFacts.
Import HomeScores.

Local Open Scope Q_scope.



(** One failed fetch fails the pair: if either of the two requests of a
    pair fails, both sides show "ERROR" with scores and price 0 and the
    note "Failed to load", whatever the other request returned; when both
    return a body no side ever shows "ERROR" and no note is set. *)
Theorem one_failed_fetch_fails_pair (name : string) (other : Fetched)
    (bullish bearish : option TraderInfo) :
  fetchPairData name Failed other = fetchPairData name other Failed
  /\ buyStatus (fetchPairData name Failed other) = "ERROR"
  /\ sellStatus (fetchPairData name Failed other) = "ERROR"
  /\ error (fetchPairData name Failed other) = Some "Failed to load"
  /\ (buyScore (fetchPairData name Failed other) == 0
      /\ sellScore (fetchPairData name Failed other) == 0
      /\ price (fetchPairData name Failed other) == 0)
  /\ buyStatus (fetchPairData name (Body bullish) (Body bearish)) <> "ERROR"
  /\ sellStatus (fetchPairData name (Body bullish) (Body bearish)) <> "ERROR"
  /\ error (fetchPairData name (Body bullish) (Body bearish)) = None.
Proof.
  repeat split; try (now destruct other); cbn; unfold getStatus;
    repeat match goal with
           | |- context [if ?b then _ else _] => destruct b
           end; discriminate.
Qed.

End HomeFacts.
